(** * sft/trainer.py: loss tracking, checkpoint rotation and the training loop

    A shallow embedding of [src/sft/trainer.py].  The first part holds the
    definitions (one per Python function or method, under the Python name),
    the second part the lemmas about them.

    Python data is modelled as follows.
    - [float] is IEEE binary64, i.e. Rocq's primitive [float]; the tracker is
      written once over the signature [Scalar] and run at the instance
      [binary64].  A second instance, [exactQ], runs the same code over the
      rationals, where no operation rounds.
    - [int] is [Z]; [str] is [string]; [list] is [list]; [None]-able values
      are [option].
    - An exception is a value of [exn]; code that can raise returns a
      [result], and code that also changes the filesystem, the accelerator or
      the trainer returns an [outcome] that carries the state reached. *)

From Stdlib Require Import ZArith NArith QArith List Bool Lia.
From Stdlib Require Import Ascii String.
From Stdlib Require Import Sorted Permutation.
From Stdlib Require Import PrimFloat SpecFloat FloatOps FloatAxioms.
From Stdlib Require DecimalString DecimalPos.
Import ListNotations.

Local Open Scope Z_scope.

(* ================================================================== *)
(** * Part I: definitions *)
(* ================================================================== *)

(** ** Exceptions and results *)

Inductive exn : Type :=
| ZeroDivisionError
| IndexError
| FileNotFoundError
| AttributeError.

Inductive result (A : Type) : Type :=
| Ok (a : A)
| Raise (e : exn).
Arguments Ok {A} a.
Arguments Raise {A} e.

(** ** Scalars: what the tracker needs of Python's [float] *)

(** Rounding of the rational [num / den] ([den > 0]) to the nearest integer,
    ties to the even one: Python's rounding rule. *)
Definition round_half_even (num den : Z) : Z :=
  let q := num / den in
  let r := num mod den in
  match 2 * r ?= den with
  | Lt => q
  | Gt => q + 1
  | Eq => if Z.even q then q else q + 1
  end.

Class Scalar (F : Type) : Type := {
  s_zero : F;                       (* 0.0 *)
  s_add : F -> F -> F;              (* x + y *)
  s_mul : F -> F -> F;              (* x * y *)
  s_div : F -> F -> F;              (* x / y, for y <> 0 *)
  s_of_int : Z -> F;                (* float(n) *)
  s_round : F -> N -> F;            (* round(x, ndigits) *)
  s_round_zero : forall nd, s_round s_zero nd = s_zero
}.

(** *** binary64: the arithmetic the program runs on *)

(** [float(n)] for an [int]: the nearest double, ties to even.  Beyond the
    range of the doubles, where Python raises [OverflowError], the result
    here is an infinity; the count of a tracker, the only [int] converted,
    is the number of calls of [update] and does not get there. *)
Definition Z2F (z : Z) : float :=
  SF2Prim (binary_normalize prec emax z 0 false).

(** The double nearest to [(-1)^s * p / q], for integers [p >= 0], [q > 0]. *)
Definition ratio2F (s : bool) (p q : Z) : float :=
  match p, q with
  | Zpos p', Zpos q' =>
      SF2Prim (SFdiv prec emax (S754_finite s p' 0) (S754_finite false q' 0))
  | _, _ => SF2Prim (S754_zero s)
  end.

(** [round(x, nd)] on a float, for a digit count [nd >= 0]: the exact binary
    value of [x] is rounded half-even to [nd] decimals, and the decimal
    result is converted back to the nearest double.  Zeros, infinities and
    NaN round to themselves. *)
Definition py_round (x : float) (nd : N) : float :=
  match Prim2SF x with
  | S754_finite s m e =>
      let p10 := 10 ^ Z.of_N nd in
      let num := Zpos m * 2 ^ Z.max e 0 * p10 in
      let den := 2 ^ Z.max (- e) 0 in
      ratio2F s (round_half_even num den) p10
  | _ => x
  end.

#[export] Instance binary64 : Scalar float := {
  s_zero := 0%float;
  s_add := PrimFloat.add;
  s_mul := PrimFloat.mul;
  s_div := PrimFloat.div;
  s_of_int := Z2F;
  s_round := py_round;
  s_round_zero := fun nd => eq_refl
}.

(** The exact rational value of a finite double ([0] for the others). *)
Definition F2Q (x : float) : Q :=
  match Prim2SF x with
  | S754_finite s m e =>
      let v := (inject_Z (Zpos m * 2 ^ Z.max e 0) / inject_Z (2 ^ Z.max (- e) 0))%Q in
      if s then Qopp v else v
  | _ => 0%Q
  end.

(** *** exactQ: the same operations without rounding error *)

Definition pow10 (nd : N) : positive :=
  match nd with
  | N0 => 1%positive
  | Npos p => Pos.pow 10 p
  end.

Definition Q_round (x : Q) (nd : N) : Q :=
  let p10 := pow10 nd in
  Qred (round_half_even (Qnum x * Zpos p10) (Zpos (Qden x)) # p10).

#[export] Instance exactQ : Scalar Q := {
  s_zero := 0%Q;
  s_add := Qplus;
  s_mul := Qmult;
  s_div := Qdiv;
  s_of_int := inject_Z;
  s_round := Q_round;
  s_round_zero := fun nd => eq_refl
}.

(** ** LossTracker *)

Section LossTracker.
Context {F : Type} {SF : Scalar F}.

(** The attributes [__init__] sets.  [ndigits] is a digit count ([>= 0]);
    [_loss] is read as a float everywhere ([reset] stores the int [0], which
    [update] and [loss] promote to [0.0]). *)
Record LossTracker : Type := {
  ndigits : N;
  _loss : F;
  loss_count : Z;
  history : list F
}.

Definition LossTracker_init (ndigits : N) : LossTracker :=
  {| ndigits := ndigits; _loss := s_zero; loss_count := 0; history := [] |}.

Definition LossTracker_default : LossTracker := LossTracker_init 4.

(** [x / n] for a float [x] and an int [n]: [n] is converted to a float, and
    a zero divisor raises (a non-zero int converts to a non-zero float). *)
Definition truediv_int (x : F) (n : Z) : result F :=
  if n =? 0 then Raise ZeroDivisionError else Ok (s_div x (s_of_int n)).

Definition update (self : LossTracker) (loss : F) : result LossTracker :=
  match truediv_int (s_add (s_mul (_loss self) (s_of_int (loss_count self))) loss)
                    (loss_count self + 1) with
  | Raise e => Raise e
  | Ok m =>
      Ok {| ndigits := ndigits self;
            _loss := m;
            loss_count := loss_count self + 1;
            history := history self |}
  end.

Definition reset (self : LossTracker) : LossTracker :=
  {| ndigits := ndigits self;
     _loss := s_zero;
     loss_count := 0;
     history := history self |}.

(** The [loss] property. *)
Definition loss (self : LossTracker) : F :=
  s_round (_loss self) (ndigits self).

Definition on_epoch_end (do_reset : bool) (self : LossTracker) : LossTracker :=
  let self1 :=
    {| ndigits := ndigits self;
       _loss := _loss self;
       loss_count := loss_count self;
       history := (history self ++ [loss self])%list |} in
  if do_reset then reset self1 else self1.

(** [update] called on each value of a sequence in turn, stopping at the
    first call that raises. *)
Fixpoint updates (self : LossTracker) (values : list F) : result LossTracker :=
  match values with
  | [] => Ok self
  | v :: rest =>
      match update self v with
      | Raise e => Raise e
      | Ok self' => updates self' rest
      end
  end.

(** A tracker as [__init__] or [reset] leaves it: no value counted yet. *)
Definition is_fresh (self : LossTracker) : Prop :=
  _loss self = s_zero /\ loss_count self = 0.

(** The trackers a program can build: [__init__], then any calls of
    [update] that return, [reset] and [on_epoch_end]. *)
Inductive reachable : LossTracker -> Prop :=
| reach_init (nd : N) : reachable (LossTracker_init nd)
| reach_update (t t' : LossTracker) (v : F) :
    reachable t -> update t v = Ok t' -> reachable t'
| reach_reset (t : LossTracker) : reachable t -> reachable (reset t)
| reach_on_epoch_end (b : bool) (t : LossTracker) :
    reachable t -> reachable (on_epoch_end b t).

(** [sum(values) / len(values)] computed in one pass, left to right. *)
Definition naive_mean (values : list F) : F :=
  s_div (fold_left s_add values s_zero) (s_of_int (Z.of_nat (List.length values))).

End LossTracker.
Arguments LossTracker F : clear implicits.

(** The arithmetic mean of rationals, exactly. *)
Definition Qsum (l : list Q) : Q := fold_right Qplus 0%Q l.

Definition Qmean (l : list Q) : Q := (Qsum l / inject_Z (Z.of_nat (List.length l)))%Q.

(** The double a decimal literal with four decimals denotes: the one nearest
    to [n / 10000]. *)
Definition dec4 (n : Z) : float := ratio2F false n 10000.

(** Eight losses, each an exact double (and an exact single). *)
Definition losses_8 : list float :=
  [1.25; 1.25; 1.25; 1.25; 1.25; 1.25; 0.125; 0.125]%float.

(** ** Strings, paths and the key pattern of [_inner] *)

Local Open Scope string_scope.

Definition is_digit (c : ascii) : bool :=
  let n := nat_of_ascii c in (48 <=? n)%nat && (n <=? 57)%nat.

Definition is_slash (c : ascii) : bool := Ascii.eqb c "/".

(** [int(s)] for a string of ASCII digits. *)
Fixpoint int_of_digits_acc (acc : Z) (s : string) : Z :=
  match s with
  | EmptyString => acc
  | String c s' => int_of_digits_acc (acc * 10 + (Z.of_nat (nat_of_ascii c) - 48)) s'
  end.

Definition int_of_digits (s : string) : Z := int_of_digits_acc 0 s.

(** [str(n)] for an [int]. *)
Definition str_of_int (n : Z) : string :=
  DecimalString.NilZero.string_of_int (Z.to_int n).

(** The lookahead [(?=[^\/]*$)]: no slash up to the end of the string. *)
Fixpoint no_slash (s : string) : bool :=
  match s with
  | EmptyString => true
  | String c s' => negb (is_slash c) && no_slash s'
  end.

(** [([0-9]+)(?=[^\/]*$)] tried at the head of [s]: the group and what
    follows it.  [+] is greedy: the longer run is tried first, and the run
    stops at a digit only if no longer run passes the lookahead. *)
Fixpoint digits_look (s : string) : option (string * string) :=
  match s with
  | EmptyString => None
  | String c s' =>
      if is_digit c then
        match digits_look s' with
        | Some (g, rest) => Some (String c g, rest)
        | None => if no_slash s' then Some (String c EmptyString, s') else None
        end
      else None
  end.

(** The whole pattern [[\/]?([0-9]+)(?=[^\/]*$)] tried at the head of [s]:
    [?] is greedy, so the slash is consumed first and given back only if the
    rest of the pattern fails after it. *)
Definition match_here (s : string) : option (string * string) :=
  match s with
  | String c s' =>
      if is_slash c then
        match digits_look s' with
        | Some r => Some r
        | None => digits_look s
        end
      else digits_look s
  | EmptyString => None
  end.

(** [re.findall(pattern, s)]: the groups of the successive matches, scanning
    from the left; after a match the scan resumes where the match ended,
    otherwise one character further.  A match consumes at least one
    character, so [length s + 1] steps suffice. *)
Fixpoint findall_from (fuel : nat) (s : string) : list string :=
  match fuel with
  | O => []
  | S fuel' =>
      match match_here s with
      | Some (g, rest) => g :: findall_from fuel' rest
      | None =>
          match s with
          | EmptyString => []
          | String _ s' => findall_from fuel' s'
          end
      end
  end.

Definition findall (s : string) : list string :=
  findall_from (S (String.length s)) s.

(** [list(map(int, re.findall(..., folder)))[0]] *)
Definition _inner (folder : string) : result Z :=
  match map int_of_digits (findall folder) with
  | k :: _ => Ok k
  | [] => Raise IndexError
  end.

(** *** The words of the specification, for comparison *)

(** The final name component of a path: what follows its last slash, i.e.
    the longest suffix without one. *)
Fixpoint basename (p : string) : string :=
  match p with
  | EmptyString => EmptyString
  | String _ p' => if no_slash p then p else basename p'
  end.

Definition starts_with_digit (s : string) : bool :=
  match s with
  | String c _ => is_digit c
  | EmptyString => false
  end.

(** The numeric tokens of a string: its maximal runs of digits, in order. *)
Fixpoint numeric_tokens (s : string) : list string :=
  match s with
  | EmptyString => []
  | String c s' =>
      if is_digit c then
        if starts_with_digit s' then
          match numeric_tokens s' with
          | t :: ts => String c t :: ts
          | [] => [String c EmptyString]
          end
        else String c EmptyString :: numeric_tokens s'
      else numeric_tokens s'
  end.

Fixpoint all_digits (s : string) : bool :=
  match s with
  | EmptyString => true
  | String c s' => is_digit c && all_digits s'
  end.

(** The longest prefix of digits, and what follows it. *)
Fixpoint span_digits (s : string) : string * string :=
  match s with
  | EmptyString => (EmptyString, EmptyString)
  | String c s' =>
      if is_digit c then (String c (fst (span_digits s')), snd (span_digits s'))
      else (EmptyString, s)
  end.

(** The key the code computes, said in these words: the first numeric token
    of the final name component. *)
Definition first_numeric_token (p : string) : result Z :=
  match numeric_tokens (basename p) with
  | t :: _ => Ok (int_of_digits t)
  | [] => Raise IndexError
  end.

(** The key the specification describes: the trailing numeric token of the
    final name component. *)
Definition trailing_numeric_token (p : string) : result Z :=
  match rev (numeric_tokens (basename p)) with
  | t :: _ => Ok (int_of_digits t)
  | [] => Raise IndexError
  end.

(** [os.path.join(a, b)] on POSIX. *)
Definition starts_with_slash (s : string) : bool :=
  match s with
  | String c _ => is_slash c
  | EmptyString => false
  end.

Fixpoint ends_with_slash (s : string) : bool :=
  match s with
  | EmptyString => false
  | String c EmptyString => is_slash c
  | String _ s' => ends_with_slash s'
  end.

Definition os_path_join (a b : string) : string :=
  if starts_with_slash b then b
  else if (a =? EmptyString) || ends_with_slash a then a ++ b
  else a ++ "/" ++ b.

(** ** The filesystem: the directories that exist, by path *)

(** Only directories are tracked: every entry of the checkpoint root is taken
    to be a directory, as the ones the trainer makes are ([shutil.rmtree]
    would refuse a plain file).  The order of the list is the order in which
    [os.listdir] reports the entries. *)

Definition FS : Type := list string.

Fixpoint strip_prefix (p s : string) : option string :=
  match p with
  | EmptyString => Some s
  | String a p' =>
      match s with
      | String b s' => if Ascii.eqb a b then strip_prefix p' s' else None
      | EmptyString => None
      end
  end.

(** [Some n] when [p] is the entry [n] of the directory [d]. *)
Definition child_name (d p : string) : option string :=
  match strip_prefix (d ++ "/") p with
  | Some n => if negb (n =? EmptyString) && no_slash n then Some n else None
  | None => None
  end.

Fixpoint children (d : string) (fs : FS) : list string :=
  match fs with
  | [] => []
  | p :: fs' =>
      match child_name d p with
      | Some n => n :: children d fs'
      | None => children d fs'
      end
  end.

Definition fs_exists (p : string) (fs : FS) : bool := existsb (String.eqb p) fs.

(** [p] itself or something below it. *)
Definition is_under (p q : string) : bool :=
  (q =? p) || match strip_prefix (p ++ "/") q with Some _ => true | None => false end.

(** [os.makedirs(p, exist_ok=True)]; ancestors are not tracked, since the
    program neither lists nor removes them. *)
Definition fs_makedirs (p : string) (fs : FS) : FS :=
  if fs_exists p fs then fs else (fs ++ [p])%list.

(** [os.listdir(d)] *)
Definition fs_listdir (d : string) (fs : FS) : result (list string) :=
  if fs_exists d fs then Ok (children d fs) else Raise FileNotFoundError.

(** [shutil.rmtree(p)], for a directory [p] *)
Definition fs_rmtree (p : string) (fs : FS) : result FS :=
  if fs_exists p fs then Ok (filter (fun q => negb (is_under p q)) fs)
  else Raise FileNotFoundError.


(** The entries of [d], by path, and what a sequence of [rmtree] leaves. *)
Definition is_child (d p : string) : bool :=
  match child_name d p with
  | Some _ => true
  | None => false
  end.

Definition child_paths (d : string) (fs : FS) : list string := filter (is_child d) fs.

Definition remove_tree (p : string) (fs : FS) : FS :=
  filter (fun q => negb (is_under p q)) fs.

Definition remove_trees (ps : list string) (fs : FS) : FS :=
  fold_left (fun fs p => remove_tree p fs) ps fs.

(** A directory path that [os.path.join] extends with a separator. *)
Definition plain_dir (d : string) : Prop :=
  d <> EmptyString /\ ends_with_slash d = false.

(** ** [list.sort(key=...)]: a stable sort on the keys *)

Fixpoint insert_by_key (x : Z * string) (l : list (Z * string)) : list (Z * string) :=
  match l with
  | [] => [x]
  | y :: ys => if (fst x <=? fst y)%Z then x :: l else y :: insert_by_key x ys
  end.

Definition sort_by_key (l : list (Z * string)) : list (Z * string) :=
  fold_right insert_by_key [] l.

Definition key_le (a b : Z * string) : Prop := fst a <= fst b.

(** The keys are computed for every element before anything moves; the first
    key that raises aborts the sort. *)
Fixpoint with_keys (folders : list string) : result (list (Z * string)) :=
  match folders with
  | [] => Ok []
  | f :: rest =>
      match _inner f with
      | Raise e => Raise e
      | Ok k =>
          match with_keys rest with
          | Raise e => Raise e
          | Ok l => Ok ((k, f) :: l)
          end
      end
  end.

(** [l[:k]] *)
Definition slice_to {A : Type} (l : list A) (k : Z) : list A :=
  if (k <? 0)%Z then firstn (Z.to_nat (Z.of_nat (List.length l) + k)) l
  else firstn (Z.to_nat k) l.

(** The folders [get_checkpoint_dir] removes when every key is defined:
    none without a limit or within it, else the head of the sorted list. *)
Definition pruned (limit : option Z) (keyed : list (Z * string)) : list string :=
  match limit with
  | None => []
  | Some l =>
      if (Z.of_nat (List.length keyed) + 1 >? l)%Z
      then slice_to (map snd (sort_by_key keyed))
                    (Z.of_nat (List.length (map snd (sort_by_key keyed))) + 1 - l)
      else []
  end.

(** ** The collaborators the loop calls into *)

(** The model, the optimizer, the scheduler and the batches are opaque: the
    loop only needs what these calls return. *)
Class Collaborators (F : Type) : Type := {
  Model : Type;                               (* the weights *)
  Batch : Type;
  Scheduler : Type;
  forward : bool -> Model -> Batch -> F;      (* model(batch)['loss'], by mode *)
  optimize : Model -> Batch -> Model;         (* zero_grad, backward, optimizer.step *)
  scheduler_step : Scheduler -> Scheduler;    (* lr_scheduler.step() *)
  get_lr : Scheduler -> F                     (* float(lr_scheduler.get_lr()[0]) *)
}.

(** [accelerator.project_configuration], of an accelerator that was given a
    project directory: [project_dir] is a string, not [None]. *)
Record ProjectConfiguration : Type := {
  project_dir : string;
  logging_dir : string;
  automatic_checkpoint_naming : bool;
  total_limit : option Z;
  iteration : Z;
  save_on_each_node : bool
}.

Definition set_automatic_checkpoint_naming (b : bool) (c : ProjectConfiguration)
  : ProjectConfiguration :=
  {| project_dir := project_dir c;
     logging_dir := logging_dir c;
     automatic_checkpoint_naming := b;
     total_limit := total_limit c;
     iteration := iteration c;
     save_on_each_node := save_on_each_node c |}.

Section Trainer.
Context {F : Type} {SF : Scalar F} {C : Collaborators F}.

(** What the process does to the world, in order. *)
Inductive Event : Type :=
| EvLog (metrics : list (string * F)) (step : Z)   (* accelerator.log *)
| EvPrintValidation (epoch : Z) (validation_loss : F)
| EvPrintDir (save_dir : string)
| EvSaveModel (save_dir : string)
| EvSaveTokenizer (save_dir : string)
| EvWaitForEveryone
| EvEndTraining
| EvSetAutomaticCheckpointNaming (b : bool)
| EvMakedirs (path : string)
| EvListdir (path : string)
| EvRmtree (path : string).

(** The trainer with its accelerator, and the world the process acts on. *)
Record Trainer : Type := {
  model : Model;
  training : bool;                                  (* model.training *)
  train_dataloader : list Batch;
  validation_dataloader : option (list Batch);
  lr_scheduler : option Scheduler;
  epochs : Z;
  log_interval : Z;
  save_on_epoch_end : bool;
  train_loss_tracker : LossTracker F;
  validation_loss_tracker : LossTracker F;
  current_step : Z;
  progress_epoch : Z;                               (* progress_bar.current_epoch *)
  project_configuration : ProjectConfiguration;
  is_local_main_process : bool;
  fs : FS;
  trace : list Event
}.

(** [Trainer.__init__] with its defaults left to the caller. *)
Definition Trainer_init (model : Model) (train_dataloader : list Batch)
    (validation_dataloader : option (list Batch)) (epochs : Z)
    (lr_scheduler : option Scheduler) (log_interval : Z) (save_on_epoch_end : bool)
    (project_configuration : ProjectConfiguration) (is_local_main_process : bool)
    (fs : FS) : Trainer :=
  {| model := model;
     training := true;
     train_dataloader := train_dataloader;
     validation_dataloader := validation_dataloader;
     lr_scheduler := lr_scheduler;
     epochs := epochs;
     log_interval := log_interval;
     save_on_epoch_end := save_on_epoch_end;
     train_loss_tracker := LossTracker_default;
     validation_loss_tracker := LossTracker_default;
     current_step := 0;
     progress_epoch := 1;
     project_configuration := project_configuration;
     is_local_main_process := is_local_main_process;
     fs := fs;
     trace := [] |}.

(** *** Field updates *)

Definition with_model (m : Model) (s : Trainer) : Trainer :=
  {| model := m; training := training s;
     train_dataloader := train_dataloader s;
     validation_dataloader := validation_dataloader s;
     lr_scheduler := lr_scheduler s; epochs := epochs s;
     log_interval := log_interval s; save_on_epoch_end := save_on_epoch_end s;
     train_loss_tracker := train_loss_tracker s;
     validation_loss_tracker := validation_loss_tracker s;
     current_step := current_step s; progress_epoch := progress_epoch s;
     project_configuration := project_configuration s;
     is_local_main_process := is_local_main_process s;
     fs := fs s; trace := trace s |}.

Definition with_training (b : bool) (s : Trainer) : Trainer :=
  {| model := model s; training := b;
     train_dataloader := train_dataloader s;
     validation_dataloader := validation_dataloader s;
     lr_scheduler := lr_scheduler s; epochs := epochs s;
     log_interval := log_interval s; save_on_epoch_end := save_on_epoch_end s;
     train_loss_tracker := train_loss_tracker s;
     validation_loss_tracker := validation_loss_tracker s;
     current_step := current_step s; progress_epoch := progress_epoch s;
     project_configuration := project_configuration s;
     is_local_main_process := is_local_main_process s;
     fs := fs s; trace := trace s |}.

Definition with_lr_scheduler (o : option Scheduler) (s : Trainer) : Trainer :=
  {| model := model s; training := training s;
     train_dataloader := train_dataloader s;
     validation_dataloader := validation_dataloader s;
     lr_scheduler := o; epochs := epochs s;
     log_interval := log_interval s; save_on_epoch_end := save_on_epoch_end s;
     train_loss_tracker := train_loss_tracker s;
     validation_loss_tracker := validation_loss_tracker s;
     current_step := current_step s; progress_epoch := progress_epoch s;
     project_configuration := project_configuration s;
     is_local_main_process := is_local_main_process s;
     fs := fs s; trace := trace s |}.

Definition with_train_loss_tracker (t : LossTracker F) (s : Trainer) : Trainer :=
  {| model := model s; training := training s;
     train_dataloader := train_dataloader s;
     validation_dataloader := validation_dataloader s;
     lr_scheduler := lr_scheduler s; epochs := epochs s;
     log_interval := log_interval s; save_on_epoch_end := save_on_epoch_end s;
     train_loss_tracker := t;
     validation_loss_tracker := validation_loss_tracker s;
     current_step := current_step s; progress_epoch := progress_epoch s;
     project_configuration := project_configuration s;
     is_local_main_process := is_local_main_process s;
     fs := fs s; trace := trace s |}.

Definition with_validation_loss_tracker (t : LossTracker F) (s : Trainer) : Trainer :=
  {| model := model s; training := training s;
     train_dataloader := train_dataloader s;
     validation_dataloader := validation_dataloader s;
     lr_scheduler := lr_scheduler s; epochs := epochs s;
     log_interval := log_interval s; save_on_epoch_end := save_on_epoch_end s;
     train_loss_tracker := train_loss_tracker s;
     validation_loss_tracker := t;
     current_step := current_step s; progress_epoch := progress_epoch s;
     project_configuration := project_configuration s;
     is_local_main_process := is_local_main_process s;
     fs := fs s; trace := trace s |}.

Definition with_current_step (n : Z) (s : Trainer) : Trainer :=
  {| model := model s; training := training s;
     train_dataloader := train_dataloader s;
     validation_dataloader := validation_dataloader s;
     lr_scheduler := lr_scheduler s; epochs := epochs s;
     log_interval := log_interval s; save_on_epoch_end := save_on_epoch_end s;
     train_loss_tracker := train_loss_tracker s;
     validation_loss_tracker := validation_loss_tracker s;
     current_step := n; progress_epoch := progress_epoch s;
     project_configuration := project_configuration s;
     is_local_main_process := is_local_main_process s;
     fs := fs s; trace := trace s |}.

Definition with_progress_epoch (n : Z) (s : Trainer) : Trainer :=
  {| model := model s; training := training s;
     train_dataloader := train_dataloader s;
     validation_dataloader := validation_dataloader s;
     lr_scheduler := lr_scheduler s; epochs := epochs s;
     log_interval := log_interval s; save_on_epoch_end := save_on_epoch_end s;
     train_loss_tracker := train_loss_tracker s;
     validation_loss_tracker := validation_loss_tracker s;
     current_step := current_step s; progress_epoch := n;
     project_configuration := project_configuration s;
     is_local_main_process := is_local_main_process s;
     fs := fs s; trace := trace s |}.

Definition with_project_configuration (c : ProjectConfiguration) (s : Trainer) : Trainer :=
  {| model := model s; training := training s;
     train_dataloader := train_dataloader s;
     validation_dataloader := validation_dataloader s;
     lr_scheduler := lr_scheduler s; epochs := epochs s;
     log_interval := log_interval s; save_on_epoch_end := save_on_epoch_end s;
     train_loss_tracker := train_loss_tracker s;
     validation_loss_tracker := validation_loss_tracker s;
     current_step := current_step s; progress_epoch := progress_epoch s;
     project_configuration := c;
     is_local_main_process := is_local_main_process s;
     fs := fs s; trace := trace s |}.

Definition with_fs (f : FS) (s : Trainer) : Trainer :=
  {| model := model s; training := training s;
     train_dataloader := train_dataloader s;
     validation_dataloader := validation_dataloader s;
     lr_scheduler := lr_scheduler s; epochs := epochs s;
     log_interval := log_interval s; save_on_epoch_end := save_on_epoch_end s;
     train_loss_tracker := train_loss_tracker s;
     validation_loss_tracker := validation_loss_tracker s;
     current_step := current_step s; progress_epoch := progress_epoch s;
     project_configuration := project_configuration s;
     is_local_main_process := is_local_main_process s;
     fs := f; trace := trace s |}.

Definition with_trace (t : list Event) (s : Trainer) : Trainer :=
  {| model := model s; training := training s;
     train_dataloader := train_dataloader s;
     validation_dataloader := validation_dataloader s;
     lr_scheduler := lr_scheduler s; epochs := epochs s;
     log_interval := log_interval s; save_on_epoch_end := save_on_epoch_end s;
     train_loss_tracker := train_loss_tracker s;
     validation_loss_tracker := validation_loss_tracker s;
     current_step := current_step s; progress_epoch := progress_epoch s;
     project_configuration := project_configuration s;
     is_local_main_process := is_local_main_process s;
     fs := fs s; trace := t |}.

(** *** The monad of the methods: state, and exceptions that keep it *)

Inductive outcome (A : Type) : Type :=
| Done (a : A) (s : Trainer)
| Failed (e : exn) (s : Trainer).
Arguments Done {A} a s.
Arguments Failed {A} e s.

Definition M (A : Type) : Type := Trainer -> outcome A.

Definition ret {A : Type} (a : A) : M A := fun s => Done a s.

Definition bind {A B : Type} (m : M A) (k : A -> M B) : M B :=
  fun s =>
    match m s with
    | Done a s' => k a s'
    | Failed e s' => Failed e s'
    end.

Definition raise {A : Type} (e : exn) : M A := fun s => Failed e s.

Definition get : M Trainer := fun s => Done s s.

Definition modify (f : Trainer -> Trainer) : M unit := fun s => Done tt (f s).

Definition emit (ev : Event) : M unit :=
  modify (fun s => with_trace (trace s ++ [ev])%list s).

Definition lift {A : Type} (r : result A) : M A :=
  match r with
  | Ok a => ret a
  | Raise e => raise e
  end.

Definition when (b : bool) (m : M unit) : M unit := if b then m else ret tt.

End Trainer.
Arguments Trainer F {C}.
Arguments Event F : clear implicits.
Arguments M F {C} A.
Arguments outcome F {C} A.
Arguments Done {F C A} a s.
Arguments Failed {F C A} e s.

Declare Scope monad_scope.
Delimit Scope monad_scope with monad.
Notation "x <- m ;; k" := (bind m (fun x => k))
  (at level 61, m at next level, right associativity) : monad_scope.
Notation "m ;; k" := (bind m (fun _ => k))
  (at level 61, right associativity) : monad_scope.

(** ** The methods *)

Section Methods.
Context {F : Type} {SF : Scalar F} {C : Collaborators F}.
Local Open Scope monad_scope.

(** [for x in l: f(x)] *)
Fixpoint for_each {A : Type} (f : A -> M F unit) (l : list A) : M F unit :=
  match l with
  | [] => ret tt
  | x :: rest => f x ;; for_each f rest
  end.

(** [for i, x in enumerate(l): f(i, x)], counting from [i] *)
Fixpoint for_each_indexed {A : Type} (f : Z -> A -> M F unit) (i : Z) (l : list A)
  : M F unit :=
  match l with
  | [] => ret tt
  | x :: rest => f i x ;; for_each_indexed f (i + 1) rest
  end.

(** [range(1, n + 1)] *)
Definition range_from_1 (n : Z) : list Z := map Z.of_nat (seq 1 (Z.to_nat n)).

Definition makedirs (p : string) : M F unit :=
  emit (EvMakedirs p) ;;
  modify (fun s => with_fs (fs_makedirs p (fs s)) s).

Definition listdir (d : string) : M F (list string) :=
  emit (EvListdir d) ;;
  s <- get ;;
  lift (fs_listdir d (fs s)).

Definition rmtree (p : string) : M F unit :=
  emit (EvRmtree p) ;;
  s <- get ;;
  f <- lift (fs_rmtree p (fs s)) ;;
  modify (with_fs f).

(** [Trainer.get_checkpoint_dir] *)
Definition get_checkpoint_dir (current_epoch : Z) : M F string :=
  emit (EvSetAutomaticCheckpointNaming false) ;;
  modify (fun s => with_project_configuration
                     (set_automatic_checkpoint_naming false (project_configuration s)) s) ;;
  s <- get ;;
  let output_dir := os_path_join (project_dir (project_configuration s)) "checkpoints" in
  when (is_local_main_process s)
    (makedirs output_dir ;;
     names <- listdir output_dir ;;
     let folders := map (os_path_join output_dir) names in
     match total_limit (project_configuration s) with
     | None => ret tt
     | Some limit =>
         when (Z.of_nat (List.length folders) + 1 >? limit)%Z
           (keyed <- lift (with_keys folders) ;;
            let folders := map snd (sort_by_key keyed) in
            for_each rmtree
              (slice_to folders (Z.of_nat (List.length folders) + 1 - limit)))
     end) ;;
  let output_dir := os_path_join output_dir ("checkpoint_" ++ str_of_int (current_epoch - 1)) in
  when (is_local_main_process s) (makedirs output_dir) ;;
  ret output_dir.

(** [evaluate]: the loss returned, the mode the model is left in, and the
    tracker as the call leaves it. *)
Definition evaluate (m : Model) (dataloader : list Batch)
    (loss_tracker : option (LossTracker F)) : result (F * bool * LossTracker F) :=
  let mode := false in                                   (* model = model.eval() *)
  let loss_tracker :=
    match loss_tracker with
    | Some t => t
    | None => LossTracker_default
    end in
  match updates loss_tracker (map (forward mode m) dataloader) with
  | Raise e => Raise e
  | Ok t => Ok (loss t, mode, on_epoch_end true t)
  end.

(** [accelerator.log(metrics, step=step)] *)
Definition accelerator_log (metrics : list (string * F)) (step : Z) : M F unit :=
  emit (EvLog metrics step).

(** [Trainer.log_metrics]; the progress bar only redraws. *)
Definition log_metrics (metrics : list (string * F)) (step : Z) : M F unit :=
  accelerator_log metrics step.

(** [Trainer.add_prefix] *)
Definition add_prefix (values : list (string * F)) (prefix : string) : list (string * F) :=
  map (fun kv => (prefix ++ "/" ++ fst kv, snd kv)) values.

(** The body of the loop over the batches of [Trainer.train]. *)
Definition train_batch (batch_index : Z) (batch : Batch) : M F unit :=
  s <- get ;;
  let batch_loss := forward (training s) (model s) batch in
  modify (with_model (optimize (model s) batch)) ;;
  match lr_scheduler s with
  | Some sch => modify (with_lr_scheduler (Some (scheduler_step sch)))
  | None => ret tt
  end ;;
  t <- lift (update (train_loss_tracker s) batch_loss) ;;
  modify (with_train_loss_tracker t) ;;
  modify (fun s => with_current_step (current_step s + 1) s) ;;
  s <- get ;;
  if (log_interval s =? 0)%Z then raise ZeroDivisionError
  else
    when (batch_index mod log_interval s =? 0)%Z
      match lr_scheduler s with
      | None => raise AttributeError
      | Some sch =>
          log_metrics [("loss", loss (train_loss_tracker s)); ("lr", get_lr sch)]
                      (current_step s)
      end.

(** The body of the loop over the epochs of [Trainer.train]. *)
Definition train_epoch (current_epoch : Z) : M F unit :=
  modify (with_training true) ;;
  s <- get ;;
  for_each_indexed train_batch 0 (train_dataloader s) ;;
  s <- get ;;
  accelerator_log (add_prefix [("loss", loss (train_loss_tracker s))] "train") current_epoch ;;
  modify (fun s => with_train_loss_tracker (on_epoch_end true (train_loss_tracker s)) s) ;;
  modify (fun s => with_progress_epoch (progress_epoch s + 1) s) ;;
  s <- get ;;
  match validation_dataloader s with
  | Some (b :: bs) =>
      r <- lift (evaluate (model s) (b :: bs) (Some (validation_loss_tracker s))) ;;
      modify (with_training (snd (fst r))) ;;
      modify (with_validation_loss_tracker (snd r)) ;;
      emit (EvPrintValidation current_epoch (fst (fst r))) ;;
      accelerator_log (add_prefix [("loss", fst (fst r))] "validation") current_epoch
  | _ => ret tt
  end ;;
  when (save_on_epoch_end s)
    (when (is_local_main_process s)
       (save_dir <- get_checkpoint_dir current_epoch ;;
        emit (EvPrintDir save_dir) ;;
        emit (EvSaveModel save_dir) ;;
        emit (EvSaveTokenizer save_dir)) ;;
     emit EvWaitForEveryone).

(** [Trainer.train] *)
Definition train : M F unit :=
  s <- get ;;
  for_each train_epoch (range_from_1 (epochs s)) ;;
  emit EvEndTraining.

(** *** Reading a trace *)

Definition is_step_log (ev : Event F) : bool :=
  match ev with
  | EvLog [(k1, _); (k2, _)] _ => (k1 =? "loss") && (k2 =? "lr")
  | _ => false
  end.

Definition is_train_loss_log (ev : Event F) : bool :=
  match ev with
  | EvLog [(k, _)] _ => (k =? "train/loss")
  | _ => false
  end.

Definition log_step (ev : Event F) : Z :=
  match ev with
  | EvLog _ step => step
  | _ => 0
  end.

Definition is_fs_event (ev : Event F) : bool :=
  match ev with
  | EvMakedirs _ | EvListdir _ | EvRmtree _ => true
  | _ => false
  end.

Definition rmtree_path (ev : Event F) : option string :=
  match ev with
  | EvRmtree p => Some p
  | _ => None
  end.

(** The directories a trace removes, in order. *)
Fixpoint removed (tr : list (Event F)) : list string :=
  match tr with
  | [] => []
  | ev :: rest =>
      match rmtree_path ev with
      | Some p => p :: removed rest
      | None => removed rest
      end
  end.

(** What an outcome leaves behind. *)
Definition final_state {A : Type} (o : outcome F A) : Trainer F :=
  match o with
  | Done _ s => s
  | Failed _ s => s
  end.

Definition raised {A : Type} (o : outcome F A) : option exn :=
  match o with
  | Done _ _ => None
  | Failed e _ => Some e
  end.

(** The indices [enumerate] hands out: [n] of them, from [i] on. *)
Fixpoint batch_indices (i : Z) (n : nat) : list Z :=
  match n with
  | O => []
  | S n' => i :: batch_indices (i + 1) n'
  end.

(** The batch indices at which the loop logs: those divisible by the log
    interval. *)
Definition logged_indices (interval : Z) (n : nat) : list Z :=
  filter (fun j => (j mod interval =? 0)%Z) (batch_indices 0 n).

(** What [train] never assigns. *)
Definition same_setup (s s' : Trainer F) : Prop :=
  epochs s' = epochs s
  /\ log_interval s' = log_interval s
  /\ save_on_epoch_end s' = save_on_epoch_end s
  /\ train_dataloader s' = train_dataloader s
  /\ validation_dataloader s' = validation_dataloader s
  /\ is_local_main_process s' = is_local_main_process s.

(** A computation that, whether it returns or raises, leaves the project
    configuration alone and adds nothing but filesystem calls to the trace. *)
Definition only_touches_fs {A : Type} (m : M F A) : Prop :=
  forall s : Trainer F,
    project_configuration (final_state (m s)) = project_configuration s
    /\ exists evs : list (Event F),
         trace (final_state (m s)) = (trace s ++ evs)%list
         /\ forallb is_fs_event evs = true.

End Methods.

(** ** A concrete set of collaborators, to run the loop on *)

(** The weights count the optimizer steps, a batch is the loss the model
    returns on it, and the scheduler counts its steps and reports that count
    as the learning rate. *)
#[export] Instance counting : Collaborators float := {
  Model := Z;
  Batch := float;
  Scheduler := Z;
  forward := fun _ _ b => b;
  optimize := fun m _ => (m + 1)%Z;
  scheduler_step := fun n => (n + 1)%Z;
  get_lr := fun n => Z2F n
}.

Definition project_in (dir : string) (limit : option Z) : ProjectConfiguration :=
  {| project_dir := dir;
     logging_dir := dir;
     automatic_checkpoint_naming := true;
     total_limit := limit;
     iteration := 0;
     save_on_each_node := false |}.

(** A trainer of the coordinating process whose project directory is [out],
    with a retention limit and a filesystem; nothing else matters to
    [get_checkpoint_dir]. *)
Definition rotating (limit : option Z) (fs : FS) : Trainer float :=
  Trainer_init (C := counting) 0 [] None 5 None 1 true (project_in "out" limit) true fs.

(** The scenario of the specification: two epochs of three batches, a log
    interval of [1], no validation, no checkpointing; with or without a
    scheduler. *)
Definition scenario (lr_scheduler : option Z) : Trainer float :=
  Trainer_init (C := counting) 0 [1.5; 2.5; 0.5]%float None 2 lr_scheduler 1 false
               (project_in "out" None) true [].

(** A trainer without a scheduler and with a log interval of [0], on two
    batches. *)
Definition no_scheduler_zero_interval : Trainer float :=
  Trainer_init (C := counting) 0 [1.5; 2.5]%float None 2 None 0 false
               (project_in "out" None) true [].

Definition four_checkpoints : FS :=
  ["out/checkpoints";
   "out/checkpoints/checkpoint_0"; "out/checkpoints/checkpoint_1";
   "out/checkpoints/checkpoint_2"; "out/checkpoints/checkpoint_3"].

Definition one_checkpoint : FS :=
  ["out/checkpoints"; "out/checkpoints/checkpoint_0"].

(** A checkpoint root that also holds a folder without a digit in its name. *)
Definition with_best : FS :=
  ["out/checkpoints"; "out/checkpoints/best"; "out/checkpoints/checkpoint_0"].

(** ** Sequences of calls on a tracker *)

Section TrackerCalls.
Context {F : Type} {SF : Scalar F}.

(** A call of one of the methods of [LossTracker] that change it. *)
Inductive Call : Type :=
| CallUpdate (loss : F)
| CallReset
| CallOnEpochEnd (reset : bool).

Definition call (c : Call) (self : LossTracker F) : result (LossTracker F) :=
  match c with
  | CallUpdate v => update self v
  | CallReset => Ok (reset self)
  | CallOnEpochEnd b => Ok (on_epoch_end b self)
  end.

(** The calls of a list made in turn, up to the first one that raises. *)
Fixpoint calls (cs : list Call) (self : LossTracker F) : result (LossTracker F) :=
  match cs with
  | [] => Ok self
  | c :: rest =>
      match call c self with
      | Raise e => Raise e
      | Ok self' => calls rest self'
      end
  end.

Definition is_on_epoch_end (c : Call) : bool :=
  match c with
  | CallOnEpochEnd _ => true
  | _ => false
  end.

End TrackerCalls.
Arguments Call F : clear implicits.

(** ** Dicts *)

(** [d.get(k)] on a dict kept as the list of its items. *)
Fixpoint dict_get {V : Type} (k : string) (d : list (string * V)) : option V :=
  match d with
  | [] => None
  | (k', v) :: rest => if String.eqb k k' then Some v else dict_get k rest
  end.

(** ** Reading [get_checkpoint_dir] *)

(** A name without a digit: a folder of that name has no key. *)
Definition unkeyed (name : string) : bool :=
  match numeric_tokens name with
  | [] => true
  | _ :: _ => false
  end.

(** The test of [get_checkpoint_dir] before it removes anything: a limit is
    set, and with one more folder the [n] that exist exceed it. *)
Definition over_limit (limit : option Z) (n : nat) : bool :=
  match limit with
  | Some l => (Z.of_nat n + 1 >? l)%Z
  | None => false
  end.

(** ** Reading [train] *)

Section TrainReading.
Context {F : Type} {SF : Scalar F} {C : Collaborators F}.

(** The weights after the optimizer steps on the batches of an epoch. *)
Definition trained (m : Model) (bs : list Batch) : Model := fold_left optimize bs m.

(** The losses of the batches of an epoch: each batch is run on the weights
    that the batches before it left. *)
Fixpoint batch_losses (mode : bool) (m : Model) (bs : list Batch) : list F :=
  match bs with
  | [] => []
  | b :: rest => forward mode m b :: batch_losses mode (optimize m b) rest
  end.

(** The batches of the validation data when [if self.validation_dataloader]
    holds, none otherwise: a missing and an empty source both fail the test. *)
Definition validation_batches (dataloader : option (list Batch)) : list Batch :=
  match dataloader with
  | Some bs => bs
  | None => []
  end.

Definition validates (dataloader : option (list Batch)) : bool :=
  match validation_batches dataloader with
  | [] => false
  | _ :: _ => true
  end.

(** What [n] epochs read off the training tracker at their ends: an epoch
    feeds the tracker the losses of its batches, reads [loss], and ends the
    tracker's epoch; the next one starts from the weights it left. *)
Fixpoint epoch_losses (n : nat) (t : LossTracker F) (m : Model) (bs : list Batch) : list F :=
  match n with
  | O => []
  | S n' =>
      match updates t (batch_losses true m bs) with
      | Ok t' => loss t' :: epoch_losses n' (on_epoch_end true t') (trained m bs) bs
      | Raise _ => []
      end
  end.

(** What [evaluate] returns at the ends of [n] epochs: each call runs on the
    weights the epoch left. *)
Fixpoint validation_losses (n : nat) (t : LossTracker F) (m : Model) (bs vs : list Batch)
  : list F :=
  match n with
  | O => []
  | S n' =>
      match evaluate (trained m bs) vs (Some t) with
      | Ok (v, _, t') => v :: validation_losses n' t' (trained m bs) bs vs
      | Raise _ => []
      end
  end.

(** *** More readers of a trace *)

Definition is_validation_loss_log (ev : Event F) : bool :=
  match ev with
  | EvLog [(k, _)] _ => (k =? "validation/loss")
  | _ => false
  end.

(** The value of a record that logs one metric. *)
Definition log_value (ev : Event F) : list F :=
  match ev with
  | EvLog [(_, v)] _ => [v]
  | _ => []
  end.

(** The saves: of the model and of the tokenizer. *)
Definition is_save (ev : Event F) : bool :=
  match ev with
  | EvSaveModel _ | EvSaveTokenizer _ => true
  | _ => false
  end.

Definition is_wait (ev : Event F) : bool :=
  match ev with
  | EvWaitForEveryone => true
  | _ => false
  end.

Definition is_end_training (ev : Event F) : bool :=
  match ev with
  | EvEndTraining => true
  | _ => false
  end.

End TrainReading.

(** ** The checkpoint folders of a run *)

(** The folder [get_checkpoint_dir] makes for the epoch of zero-based index
    [k], in the project directory [pd]. *)
Definition checkpoint_path (pd : string) (k : Z) : string :=
  os_path_join (os_path_join pd "checkpoints") ("checkpoint_" ++ str_of_int k).

(** The number of the oldest folder left once a run has made [m] folders:
    all stay without a limit; with one, the last [max 1 limit]. *)
Definition first_kept (limit : option Z) (m : Z) : Z :=
  match limit with
  | None => 0
  | Some l => Z.max 0 (m - Z.max 1 l)
  end.

(** The filesystem and the folders removed when the checkpoint of epoch [e]
    is about to be made, in a run that found the checkpoint root without
    entries and had [before] removed already: the root lists the folders
    of the epochs before [e] that were kept, in order, and the older ones
    were removed, oldest first. *)
Definition numbered_root (pd : string) (limit : option Z) (before : list string)
    (e : Z) (fs : FS) (removed : list string) : Prop :=
  (1 <= e)%Z
  /\ NoDup fs
  /\ child_paths (os_path_join pd "checkpoints") fs
     = map (checkpoint_path pd)
           (batch_indices (first_kept limit (e - 1))
                          (Z.to_nat (e - 1 - first_kept limit (e - 1))))
  /\ removed
     = (before ++ map (checkpoint_path pd)
                      (batch_indices 0 (Z.to_nat (first_kept limit (e - 1)))))%list.

(** ** More trainers to run *)

(** Three epochs of three batches with a scheduler and a log interval of
    [2], validation on two batches, and a checkpoint at the end of each
    epoch, under a limit, in the coordinating process or not, on an empty
    filesystem. *)
Definition validated (limit : option Z) (main : bool) : Trainer float :=
  Trainer_init (C := counting) 0 [1.5; 2.5; 0.5]%float (Some [1; 3]%float) 3 (Some 0%Z) 2 true
               (project_in "out" limit) main [].

(** A trainer without batches, without a scheduler and with a log interval
    of [0]. *)
Definition idle : Trainer float :=
  Trainer_init (C := counting) 0 [] None 2 None 0 false (project_in "out" None) true [].

(** A trainer with a scheduler and a log interval of [0]. *)
Definition zero_interval : Trainer float :=
  Trainer_init (C := counting) 0 [1.5; 2.5]%float None 2 (Some 0%Z) 0 false
               (project_in "out" None) true [].

(** The same collaborators over exact fractions. *)
Definition counting_exact : Collaborators Q :=
  {| Model := Z;
     Batch := Q;
     Scheduler := Z;
     forward := fun _ _ b => b;
     optimize := fun m _ => (m + 1)%Z;
     scheduler_step := fun n => (n + 1)%Z;
     get_lr := fun n => inject_Z n |}.

(** ** The progress bar *)

(** [f'{x:.6f}'] *)
Class Formatted (F : Type) : Type := {
  format_6f : F -> string
}.

Fixpoint zeros (n : nat) : string :=
  match n with
  | O => EmptyString
  | S n' => String "0" (zeros n')
  end.

(** On a float the exact binary value is rounded half-even to six decimals;
    the sign of the float is kept, also on a result of zero. *)
Definition float_6f (x : float) : string :=
  match Prim2SF x with
  | S754_nan => "nan"
  | S754_infinity s => if s then "-inf" else "inf"
  | S754_zero s => (if s then "-" else "") ++ "0.000000"
  | S754_finite s m e =>
      let q := round_half_even (Zpos m * 2 ^ Z.max e 0 * 1000000) (2 ^ Z.max (- e) 0) in
      let frac := str_of_int (q mod 1000000) in
      (if s then "-" else "") ++ str_of_int (q / 1000000) ++ "."
        ++ zeros (6 - String.length frac) ++ frac
  end.

#[export] Instance binary64_formatted : Formatted float := {
  format_6f := float_6f
}.

Section ProgressBar.
Context {F : Type} {FF : Formatted F}.

(** The calls made on [tqdm] bars: what the terminal shows. *)
Inductive TqdmCall : Type :=
| TqdmInit (total : option Z)
| TqdmUpdate (n : Z)
| TqdmClose
| TqdmSetDescription (description : string).

(** The class of the object in [self.progress_bar]. *)
Inductive Bar : Type :=
| BarTqdm
| BarDummy.

(** [DistributedTqdmProgressBar]; the attribute [progress_bar] is not set
    by [__init__]. *)
Record DistributedTqdmProgressBar : Type := {
  is_main_process : bool;              (* self.accelerator.is_main_process *)
  bar_epochs : Z;                      (* self.epochs *)
  current_epoch : Z;
  num_steps_per_epoch : option Z;
  progress_bar : option Bar;
  tqdm_calls : list TqdmCall
}.

Definition DistributedTqdmProgressBar_init (is_main_process : bool) (epochs : Z)
    (num_steps_per_epoch : option Z) : DistributedTqdmProgressBar :=
  {| is_main_process := is_main_process;
     bar_epochs := epochs;
     current_epoch := 1;
     num_steps_per_epoch := num_steps_per_epoch;
     progress_bar := None;
     tqdm_calls := [] |}.

Definition with_current_epoch (n : Z) (self : DistributedTqdmProgressBar)
  : DistributedTqdmProgressBar :=
  {| is_main_process := is_main_process self;
     bar_epochs := bar_epochs self;
     current_epoch := n;
     num_steps_per_epoch := num_steps_per_epoch self;
     progress_bar := progress_bar self;
     tqdm_calls := tqdm_calls self |}.

Definition with_progress_bar (b : Bar) (self : DistributedTqdmProgressBar)
  : DistributedTqdmProgressBar :=
  {| is_main_process := is_main_process self;
     bar_epochs := bar_epochs self;
     current_epoch := current_epoch self;
     num_steps_per_epoch := num_steps_per_epoch self;
     progress_bar := Some b;
     tqdm_calls := tqdm_calls self |}.

Definition with_tqdm_call (c : TqdmCall) (self : DistributedTqdmProgressBar)
  : DistributedTqdmProgressBar :=
  {| is_main_process := is_main_process self;
     bar_epochs := bar_epochs self;
     current_epoch := current_epoch self;
     num_steps_per_epoch := num_steps_per_epoch self;
     progress_bar := progress_bar self;
     tqdm_calls := (tqdm_calls self ++ [c])%list |}.

(** A method returns or raises, and leaves the bar in a state either way. *)
Inductive bar_outcome : Type :=
| BarDone (self : DistributedTqdmProgressBar)
| BarFailed (e : exn) (self : DistributedTqdmProgressBar).

(** A method call on [self.progress_bar]: an [AttributeError] while the
    attribute is not set, the call on a [tqdm] bar, nothing on a
    [DummyProgressBar]. *)
Definition on_progress_bar (c : TqdmCall) (self : DistributedTqdmProgressBar) : bar_outcome :=
  match progress_bar self with
  | None => BarFailed AttributeError self
  | Some BarTqdm => BarDone (with_tqdm_call c self)
  | Some BarDummy => BarDone self
  end.

Definition bar_on_epoch_start (self : DistributedTqdmProgressBar) : bar_outcome :=
  if is_main_process self
  then BarDone (with_tqdm_call (TqdmInit (num_steps_per_epoch self))
                  (with_progress_bar BarTqdm self))
  else BarDone (with_progress_bar BarDummy self).

Definition bar_update (n : Z) (self : DistributedTqdmProgressBar) : bar_outcome :=
  on_progress_bar (TqdmUpdate n) self.

Definition bar_close (self : DistributedTqdmProgressBar) : bar_outcome :=
  on_progress_bar TqdmClose self.

Definition bar_on_epoch_end (self : DistributedTqdmProgressBar) : bar_outcome :=
  bar_close (with_current_epoch (current_epoch self + 1) self).

(** The description [show_metrics] builds. *)
Definition describe (current_epoch epochs : Z) (metrics : list (string * F)) : string :=
  fold_left (fun description m => description ++ " - " ++ fst m ++ ": " ++ format_6f (snd m))
            metrics
            ("Epoch " ++ str_of_int current_epoch ++ "/" ++ str_of_int epochs).

Definition bar_show_metrics (metrics : list (string * F)) (self : DistributedTqdmProgressBar)
  : bar_outcome :=
  on_progress_bar
    (TqdmSetDescription (describe (current_epoch self) (bar_epochs self) metrics)) self.

(** *** The bar as the training loop drives it *)

(** What an epoch does between [on_epoch_start] and [on_epoch_end]. *)
Inductive BarCall : Type :=
| BarUpdate (n : Z)
| BarShowMetrics (metrics : list (string * F)).

Definition bar_call (c : BarCall) (self : DistributedTqdmProgressBar) : bar_outcome :=
  match c with
  | BarUpdate n => bar_update n self
  | BarShowMetrics metrics => bar_show_metrics metrics self
  end.

Fixpoint bar_calls (cs : list BarCall) (self : DistributedTqdmProgressBar) : bar_outcome :=
  match cs with
  | [] => BarDone self
  | c :: rest =>
      match bar_call c self with
      | BarDone self' => bar_calls rest self'
      | BarFailed e self' => BarFailed e self'
      end
  end.

Definition bar_epoch (cs : list BarCall) (self : DistributedTqdmProgressBar) : bar_outcome :=
  match bar_on_epoch_start self with
  | BarFailed e self' => BarFailed e self'
  | BarDone self1 =>
      match bar_calls cs self1 with
      | BarFailed e self' => BarFailed e self'
      | BarDone self2 => bar_on_epoch_end self2
      end
  end.

Fixpoint bar_epochs_run (epochs : list (list BarCall)) (self : DistributedTqdmProgressBar)
  : bar_outcome :=
  match epochs with
  | [] => BarDone self
  | cs :: rest =>
      match bar_epoch cs self with
      | BarDone self' => bar_epochs_run rest self'
      | BarFailed e self' => BarFailed e self'
      end
  end.

(** The call on the [tqdm] bar that a call of the loop amounts to, in the
    epoch [j] of [epochs]. *)
Definition tqdm_call_of (j epochs : Z) (c : BarCall) : TqdmCall :=
  match c with
  | BarUpdate n => TqdmUpdate n
  | BarShowMetrics metrics => TqdmSetDescription (describe j epochs metrics)
  end.

(** The calls on [tqdm] bars over the epochs numbered from [j]: each epoch
    opens a bar, uses it and closes it. *)
Fixpoint tqdm_calls_from (j epochs : Z) (total : option Z) (bodies : list (list BarCall))
  : list TqdmCall :=
  match bodies with
  | [] => []
  | cs :: rest =>
      (TqdmInit total :: map (tqdm_call_of j epochs) cs ++ [TqdmClose]
       ++ tqdm_calls_from (j + 1) epochs total rest)%list
  end.

End ProgressBar.
Arguments DistributedTqdmProgressBar : clear implicits.
Arguments bar_outcome : clear implicits.
Arguments BarCall F : clear implicits.

(** A trainer that finds a folder without a digit in the checkpoint root,
    under a limit of one. *)
Definition with_stray_folder : Trainer float :=
  Trainer_init (C := counting) 0 [1.5; 2.5; 0.5]%float None 3 (Some 0%Z) 2 true
               (project_in "out" (Some 1%Z)) true with_best.


(* ================================================================== *)
(** * Part II: lemmas *)
(* ================================================================== *)

(** ** Rounding *)

(** [round] on exact ties goes to the even digit, as CPython's does:
    [round(0.03125, 4) = 0.0312], [round(0.09375, 4) = 0.0938],
    [round(0.96875, 4) = 0.9688], [round(2.5, 0) = 2.0], [round(3.5, 0) = 4.0];
    and a value without a fifth decimal is left as it is. *)
Example py_round_ties :
  py_round 0.03125 4 = dec4 312
  /\ py_round 0.09375 4 = dec4 938
  /\ py_round 0.96875 4 = dec4 9688
  /\ py_round 2.5 0 = 2%float
  /\ py_round 3.5 0 = 4%float
  /\ py_round 1.25 4 = 1.25%float
  /\ py_round (-0.03125) 4 = (- dec4 312)%float.
Proof. repeat split; vm_compute; reflexivity. Qed.

(** ** LossTracker *)

Section LossTrackerFacts.
Context {F : Type} {SF : Scalar F}.

Lemma update_ok (t : LossTracker F) (v : F) :
  0 <= loss_count t ->
  update t v =
  Ok {| ndigits := ndigits t;
        _loss := s_div (s_add (s_mul (_loss t) (s_of_int (loss_count t))) v)
                       (s_of_int (loss_count t + 1));
        loss_count := loss_count t + 1;
        history := history t |}.
Proof.
  intros Hc. unfold update, truediv_int.
  destruct (Z.eqb_spec (loss_count t + 1) 0) as [E | _]; [lia | reflexivity].
Qed.

Lemma update_raises_iff (t : LossTracker F) (v : F) (e : exn) :
  update t v = Raise e <-> (loss_count t = -1 /\ e = ZeroDivisionError).
Proof.
  unfold update, truediv_int.
  destruct (Z.eqb_spec (loss_count t + 1) 0) as [E | E]; split.
  - intros H. injection H as <-. split; [lia | reflexivity].
  - intros [_ ->]. reflexivity.
  - discriminate.
  - intros [H _]. lia.
Qed.

Lemma updates_ok (vs : list F) : forall t : LossTracker F,
  0 <= loss_count t ->
  exists t',
    updates t vs = Ok t'
    /\ loss_count t' = loss_count t + Z.of_nat (List.length vs)
    /\ ndigits t' = ndigits t
    /\ history t' = history t.
Proof.
  induction vs as [| v vs IH]; intros t Hc.
  - exists t. cbn. repeat split. lia.
  - cbn [updates]. rewrite (update_ok t v Hc).
    edestruct IH as (t' & Hu & Hn & Hd & Hh); [ | exists t'; split; [exact Hu |] ].
    + cbn. lia.
    + cbn in Hn, Hd, Hh. cbn [List.length]. repeat split; try assumption. lia.
Qed.

Lemma loss_reset (t : LossTracker F) : loss (reset t) = s_zero.
Proof. unfold loss, reset. cbn. apply s_round_zero. Qed.

Lemma on_epoch_end_reset (t : LossTracker F) :
  on_epoch_end true t
  = {| ndigits := ndigits t;
       _loss := s_zero;
       loss_count := 0;
       history := (history t ++ [loss t])%list |}.
Proof. reflexivity. Qed.

Lemma loss_init (nd : N) : loss (LossTracker_init (F := F) nd) = s_zero.
Proof. unfold loss, LossTracker_init. cbn. apply s_round_zero. Qed.

End LossTrackerFacts.

(** *** The running mean in exact arithmetic *)

Lemma update_exact_sum (t : LossTracker Q) (v : Q) (total : Q) :
  0 <= loss_count t ->
  (_loss t * inject_Z (loss_count t) == total)%Q ->
  exists t',
    update t v = Ok t'
    /\ loss_count t' = loss_count t + 1
    /\ (_loss t' * inject_Z (loss_count t') == total + v)%Q.
Proof.
  intros Hc HS. rewrite (update_ok t v Hc).
  eexists. split; [reflexivity |]. cbn. split; [reflexivity |].
  rewrite HS.
  assert (Hnz : ~ (inject_Z (loss_count t + 1) == 0)%Q).
  { unfold Qeq. cbn. lia. }
  field. exact Hnz.
Qed.

Lemma updates_exact_sum (vs : list Q) : forall (t : LossTracker Q) (total : Q),
  0 <= loss_count t ->
  (_loss t * inject_Z (loss_count t) == total)%Q ->
  exists t',
    updates t vs = Ok t'
    /\ loss_count t' = loss_count t + Z.of_nat (List.length vs)
    /\ (_loss t' * inject_Z (loss_count t') == total + Qsum vs)%Q.
Proof.
  induction vs as [| v vs IH]; intros t total Hc HS.
  - exists t. cbn. split; [reflexivity |]. split; [lia |]. rewrite HS. ring.
  - destruct (update_exact_sum t v total Hc HS) as (t1 & Hu & Hn & Hm).
    cbn [updates]. rewrite Hu.
    destruct (IH t1 (total + v)%Q) as (t' & Hu' & Hn' & Hm'); [lia | exact Hm |].
    exists t'. split; [exact Hu' |]. split.
    + rewrite Hn', Hn. cbn [List.length]. lia.
    + rewrite Hm'. change (Qsum (v :: vs)) with (v + Qsum vs)%Q. ring.
Qed.

Lemma exact_mean_of_sum (m total : Q) (n : Z) :
  0 < n -> (m * inject_Z n == total)%Q -> (m == total / inject_Z n)%Q.
Proof.
  intros Hn H. rewrite <- H.
  assert (Hnz : ~ (inject_Z n == 0)%Q) by (unfold Qeq; cbn; lia).
  field. exact Hnz.
Qed.

Section LossTrackerClaims.
Context {F : Type} {SF : Scalar F}.

Lemma reachable_count (t : LossTracker F) :
  reachable t -> 0 <= loss_count t /\ (loss_count t = 0 -> _loss t = s_zero).
Proof.
  induction 1 as [nd | t t' v Ht IH Hu | t Ht IH | b t Ht IH].
  - cbn. split; [lia | reflexivity].
  - destruct IH as [Hc _]. rewrite (update_ok t v Hc) in Hu.
    injection Hu as <-. cbn. split; lia.
  - cbn. split; [lia | reflexivity].
  - destruct b; cbn; [split; [lia | reflexivity] | exact IH].
Qed.

(** C9. [reset] zeroes the running mean and the count and changes nothing
    else: the history and the rounding precision are as before the call. *)
Theorem reset_frame (t : LossTracker F) :
  _loss (reset t) = s_zero
  /\ loss_count (reset t) = 0
  /\ history (reset t) = history t
  /\ ndigits (reset t) = ndigits t.
Proof. unfold reset. cbn. repeat split. Qed.

(** C7. [on_epoch_end] appends exactly one element to the history, the value
    [loss] returned just before the call.  With [reset=True] the tracker then
    reads [loss = 0.0] and counts zero values; with [reset=False] the mean
    and the count are untouched.  The precision never changes. *)
Theorem on_epoch_end_spec (t : LossTracker F) :
  (history (on_epoch_end true t) = (history t ++ [loss t])%list
   /\ loss (on_epoch_end true t) = s_zero
   /\ _loss (on_epoch_end true t) = s_zero
   /\ loss_count (on_epoch_end true t) = 0
   /\ ndigits (on_epoch_end true t) = ndigits t)
  /\
  (history (on_epoch_end false t) = (history t ++ [loss t])%list
   /\ _loss (on_epoch_end false t) = _loss t
   /\ loss_count (on_epoch_end false t) = loss_count t
   /\ ndigits (on_epoch_end false t) = ndigits t).
Proof.
  split.
  - rewrite on_epoch_end_reset.
    cbn [ndigits _loss loss_count history]. repeat split.
    unfold loss. cbn. apply s_round_zero.
  - unfold on_epoch_end. cbn. repeat split.
Qed.

(** C8. A tracker that has counted no value (fresh, or just reset) reads
    [loss = 0.0]; and on every tracker a program can build the count is
    [>= 0], so the divisor [count + 1] of [update] is not zero and the call
    returns.  ([loss], [reset] and [on_epoch_end] cannot raise at all.) *)
Theorem loss_without_updates (t : LossTracker F) (v : F) (nd : N) :
  reachable t ->
  loss (LossTracker_init (F := F) nd) = s_zero
  /\ loss (reset t) = s_zero
  /\ (loss_count t = 0 -> loss t = s_zero)
  /\ 0 <= loss_count t
  /\ loss_count t + 1 <> 0
  /\ (exists t', update t v = Ok t')
  /\ update t v <> Raise ZeroDivisionError.
Proof.
  intros Hr. destruct (reachable_count t Hr) as [Hc Hz].
  split; [apply loss_init |]. split; [apply loss_reset |].
  split. { intros H0. unfold loss. rewrite (Hz H0). apply s_round_zero. }
  split; [exact Hc |]. split; [lia |].
  rewrite (update_ok t v Hc). split; [eexists; reflexivity | discriminate].
Qed.

End LossTrackerClaims.

(** C1, as the code has it.  From a fresh or just-reset tracker, [N] calls of
    [update] all return and leave the count at [N], the history and the
    precision untouched, and [loss] reads the internal mean rounded to the
    configured digits; each call replaces the mean by
    [(mean * count + value) / (count + 1)] and adds one to the count.  Run in
    exact arithmetic the internal mean is the arithmetic mean of the [N]
    values; in binary64 every one of these operations rounds, and the
    equality is lost (see [running_mean_not_exact]). *)
Theorem running_mean_spec :
  (forall (F : Type) (SF : Scalar F) (t : LossTracker F) (vs : list F),
      is_fresh t ->
      exists t',
        updates t vs = Ok t'
        /\ loss_count t' = Z.of_nat (List.length vs)
        /\ loss t' = s_round (_loss t') (ndigits t)
        /\ history t' = history t)
  /\
  (forall (F : Type) (SF : Scalar F) (t : LossTracker F) (v : F),
      0 <= loss_count t ->
      exists t',
        update t v = Ok t'
        /\ _loss t' = s_div (s_add (s_mul (_loss t) (s_of_int (loss_count t))) v)
                            (s_of_int (loss_count t + 1))
        /\ loss_count t' = loss_count t + 1)
  /\
  (forall (t : LossTracker Q) (vs : list Q),
      is_fresh t ->
      exists t',
        updates t vs = Ok t'
        /\ (_loss t' == Qmean vs)%Q
        /\ loss t' = Q_round (_loss t') (ndigits t)).
Proof.
  split; [| split].
  - intros F SF t vs [_ Hc].
    destruct (updates_ok vs t) as (t' & Hu & Hn & Hd & Hh); [lia |].
    exists t'. split; [exact Hu |]. split; [lia |]. split; [| exact Hh].
    unfold loss. rewrite Hd. reflexivity.
  - intros F SF t v Hc. rewrite (update_ok t v Hc).
    eexists. split; [reflexivity |]. cbn. split; reflexivity.
  - intros t vs [Hm Hc].
    destruct (updates_ok vs t) as (t' & Hu & Hn & Hd & _); [lia |].
    destruct (updates_exact_sum vs t 0%Q) as (t2 & Hu2 & Hn2 & Hs); [lia | |].
    { rewrite Hm. cbn. ring. }
    rewrite Hu in Hu2. injection Hu2 as <-.
    exists t'. split; [exact Hu |]. split.
    + destruct vs as [| v vs].
      * cbn in Hu. injection Hu as <-. rewrite Hm. reflexivity.
      * unfold Qmean. rewrite Qplus_0_l in Hs.
        rewrite Hn2, Hc in Hs. apply exact_mean_of_sum; [cbn [List.length]; lia |].
        exact Hs.
    + unfold loss. rewrite Hd. reflexivity.
Qed.

(** The three parts of [running_mean_spec] at the eight losses [losses_8]. *)
Lemma running_mean_spec_witness :
  (exists t' : LossTracker float,
      updates LossTracker_default losses_8 = Ok t'
      /\ loss_count t' = 8
      /\ loss t' = py_round (_loss t') 4
      /\ history t' = [])
  /\
  (exists t' : LossTracker float,
      update LossTracker_default 1.25%float = Ok t'
      /\ _loss t' = ((0 * Z2F 0 + 1.25) / Z2F 1)%float
      /\ loss_count t' = 1)
  /\
  (exists t' : LossTracker Q,
      updates LossTracker_default (map F2Q losses_8) = Ok t'
      /\ (_loss t' == Qmean (map F2Q losses_8))%Q
      /\ loss t' = Q_round (_loss t') 4).
Proof.
  split; [| split].
  - apply (proj1 running_mean_spec float binary64 LossTracker_default losses_8).
    split; reflexivity.
  - assert (H : 0 <= loss_count (LossTracker_default (F := float))) by (cbn; lia).
    exact (proj1 (proj2 running_mean_spec) float binary64 LossTracker_default 1.25%float H).
  - apply (proj2 (proj2 running_mean_spec) LossTracker_default (map F2Q losses_8)).
    split; reflexivity.
Defined.

(** [loss_without_updates] at the default tracker. *)
Lemma loss_without_updates_witness :
  loss (LossTracker_init (F := float) 4) = 0%float
  /\ loss (reset (LossTracker_default (F := float))) = 0%float
  /\ (loss_count (LossTracker_default (F := float)) = 0 ->
      loss (LossTracker_default (F := float)) = 0%float)
  /\ 0 <= loss_count (LossTracker_default (F := float))
  /\ loss_count (LossTracker_default (F := float)) + 1 <> 0
  /\ (exists t', update (LossTracker_default (F := float)) 1.25%float = Ok t')
  /\ update (LossTracker_default (F := float)) 1.25%float <> Raise ZeroDivisionError.
Proof.
  exact (loss_without_updates LossTracker_default 1.25%float 4 (reach_init 4)).
Defined.

(** C1 as stated fails on binary64.  The eight losses [losses_8] are exact
    doubles whose arithmetic mean is exactly [0.96875]; the incremental
    formula leaves the internal mean one unit in the last place below it.
    [loss] then reads [0.9687], while the arithmetic mean, computed exactly
    or as [sum / len] in floats, rounds to [0.9688]. *)
Lemma running_mean_not_exact :
  exists t : LossTracker float,
    updates LossTracker_default losses_8 = Ok t
    /\ (Qmean (map F2Q losses_8) == F2Q 0.96875%float)%Q
    /\ ~ (F2Q (_loss t) == Qmean (map F2Q losses_8))%Q
    /\ naive_mean losses_8 = 0.96875%float
    /\ _loss t <> naive_mean losses_8
    /\ loss t = dec4 9687
    /\ py_round (naive_mean losses_8) 4 = dec4 9688
    /\ loss t <> py_round (naive_mean losses_8) 4.
Proof.
  eexists. split; [vm_compute; reflexivity |].
  split; [vm_compute; reflexivity |].
  split; [intros H; vm_compute in H; discriminate |].
  split; [vm_compute; reflexivity |].
  split; [intros H; apply (f_equal Prim2SF) in H; vm_compute in H; discriminate |].
  split; [vm_compute; reflexivity |].
  split; [vm_compute; reflexivity |].
  intros H; apply (f_equal Prim2SF) in H; vm_compute in H; discriminate.
Qed.

(** ** evaluate *)

Section EvaluateFacts.
Context {F : Type} {SF : Scalar F} {C : Collaborators F}.

Lemma updates_same_mean (vs : list F) : forall t u : LossTracker F,
  _loss t = _loss u -> loss_count t = loss_count u -> 0 <= loss_count t ->
  exists t' u',
    updates t vs = Ok t' /\ updates u vs = Ok u'
    /\ _loss t' = _loss u' /\ loss_count t' = loss_count u'.
Proof.
  induction vs as [| v vs IH]; intros t u Hm Hc Hpos.
  - exists t, u. cbn. repeat split; assumption.
  - cbn [updates]. rewrite (update_ok t v Hpos), (update_ok u v) by lia.
    apply IH; cbn; [rewrite Hm, Hc; reflexivity | lia | lia].
Qed.

(** What [evaluate] does on a tracker whose count is not negative. *)
Lemma evaluate_returns (m : Model) (dataloader : list Batch) (t : LossTracker F) :
  0 <= loss_count t ->
  exists t1 : LossTracker F,
    updates t (map (forward false m) dataloader) = Ok t1
    /\ loss_count t1 = loss_count t + Z.of_nat (List.length dataloader)
    /\ evaluate m dataloader (Some t)
       = Ok (s_round (_loss t1) (ndigits t), false,
             {| ndigits := ndigits t;
                _loss := s_zero;
                loss_count := 0;
                history := (history t ++ [s_round (_loss t1) (ndigits t)])%list |}).
Proof.
  intros Hc.
  destruct (updates_ok (map (forward false m) dataloader) t Hc) as (t1 & Hu & Hn & Hd & Hh).
  exists t1. split; [exact Hu |].
  split. { rewrite Hn, length_map. reflexivity. }
  unfold evaluate. rewrite Hu, on_epoch_end_reset. unfold loss. rewrite Hd, Hh. reflexivity.
Qed.

End EvaluateFacts.

Section ExactRounding.
Local Open Scope Z_scope.

Lemma round_half_even_scale (k n d : Z) :
  0 < k -> 0 < d -> round_half_even (k * n) (k * d) = round_half_even n d.
Proof.
  intros Hk Hd. unfold round_half_even.
  rewrite Z.div_mul_cancel_l by lia. rewrite Z.mul_mod_distr_l by lia.
  replace (2 * (k * (n mod d))) with (k * (2 * (n mod d))) by ring.
  assert (Hcmp : (k * (2 * (n mod d)) ?= k * d) = (2 * (n mod d) ?= d)).
  { destruct (Z.compare_spec (2 * (n mod d)) d) as [E | E | E].
    - rewrite E. apply Z.compare_refl.
    - apply Z.compare_lt_iff. nia.
    - apply Z.compare_gt_iff. nia. }
  rewrite Hcmp. reflexivity.
Qed.

(** [round] depends on the value of a fraction, not on how it is written. *)
Lemma Q_round_compat (x y : Q) (nd : N) : (x == y)%Q -> Q_round x nd = Q_round y nd.
Proof.
  intros E. unfold Q_round. f_equal. f_equal.
  destruct x as [a b], y as [c d]. unfold Qeq in E. cbn [Qnum Qden] in *.
  rewrite <- (round_half_even_scale (Zpos d) (a * Zpos (pow10 nd)) (Zpos b)) by lia.
  rewrite <- (round_half_even_scale (Zpos b) (c * Zpos (pow10 nd)) (Zpos d)) by lia.
  f_equal; [| ring].
  replace (Zpos d * (a * Zpos (pow10 nd))) with (a * Zpos d * Zpos (pow10 nd)) by ring.
  rewrite E. ring.
Qed.

Lemma updates_exact_mean (vs : list Q) (t : LossTracker Q) :
  is_fresh t ->
  exists t' : LossTracker Q,
    updates t vs = Ok t' /\ (_loss t' == Qmean vs)%Q /\ ndigits t' = ndigits t
    /\ history t' = history t.
Proof.
  intros [Hz Hn0].
  destruct (updates_ok vs t ltac:(lia)) as (t' & Hu & _ & Hnd & Hh).
  destruct (updates_exact_sum vs t 0%Q ltac:(lia)) as (t'' & Hu' & Hn' & Hs').
  { rewrite Hz. cbn. ring. }
  rewrite Hu in Hu'. injection Hu' as <-.
  exists t'. split; [exact Hu |]. split; [| split; assumption].
  destruct vs as [| v l].
  - cbn in Hu. injection Hu as <-. rewrite Hz. reflexivity.
  - unfold Qmean. apply exact_mean_of_sum.
    + cbn [List.length]. lia.
    + rewrite Hn', Hn0 in Hs'. cbn [Z.add] in Hs'. rewrite Hs'. ring.
Qed.

End ExactRounding.




(** ** The sort key [_inner] *)

Lemma slash_not_digit (c : ascii) : is_slash c = true -> is_digit c = false.
Proof.
  unfold is_slash. intros H. apply Ascii.eqb_eq in H. subst c. reflexivity.
Qed.

Lemma span_digits_no_slash (s : string) :
  no_slash s = true -> no_slash (snd (span_digits s)) = true.
Proof.
  induction s as [| c s IH]; cbn; [reflexivity |].
  intros H. apply andb_true_iff in H as [Hc Hs].
  destruct (is_digit c); cbn.
  - apply IH. exact Hs.
  - rewrite Hc, Hs. reflexivity.
Qed.

Lemma span_digits_length (s : string) :
  (String.length (snd (span_digits s)) <= String.length s)%nat.
Proof.
  induction s as [| c s IH]; cbn; [lia |].
  destruct (is_digit c); cbn; lia.
Qed.

(** Past a slash the lookahead fails, whatever the run of digits tried. *)
Lemma digits_look_slash (s : string) : no_slash s = false -> digits_look s = None.
Proof.
  induction s as [| c s IH]; cbn; [discriminate |].
  intros H. destruct (is_digit c) eqn:Hd; [| reflexivity].
  destruct (is_slash c) eqn:Hs.
  - apply slash_not_digit in Hs. congruence.
  - cbn in H. rewrite (IH H), H. reflexivity.
Qed.

(** In the final component the greedy run is the longest run of digits. *)
Lemma digits_look_span (s : string) :
  no_slash s = true ->
  digits_look s = if starts_with_digit s then Some (span_digits s) else None.
Proof.
  induction s as [| c s IH]; cbn; [reflexivity |].
  intros H. apply andb_true_iff in H as [_ Hs].
  destruct (is_digit c); [| reflexivity].
  rewrite (IH Hs), Hs.
  destruct s as [| d s]; cbn; [reflexivity |].
  destruct (is_digit d); reflexivity.
Qed.

Lemma match_here_slash_free (s : string) :
  no_slash s = true ->
  match_here s = if starts_with_digit s then Some (span_digits s) else None.
Proof.
  intros H. destruct s as [| c s]; [reflexivity |].
  unfold match_here. pose proof H as H'. cbn in H'.
  apply andb_true_iff in H' as [Hc _].
  apply negb_true_iff in Hc. rewrite Hc. apply digits_look_span. exact H.
Qed.

Lemma numeric_tokens_span (c : ascii) (s : string) :
  is_digit c = true ->
  numeric_tokens (String c s)
  = String c (fst (span_digits s)) :: numeric_tokens (snd (span_digits s)).
Proof.
  revert c. induction s as [| d s IH]; intros c Hc.
  - cbn. rewrite Hc. reflexivity.
  - cbn [numeric_tokens]. rewrite Hc. cbn [starts_with_digit span_digits].
    destruct (is_digit d) eqn:Hd.
    + specialize (IH d Hd). cbn [numeric_tokens] in IH. rewrite Hd in IH.
      rewrite IH. reflexivity.
    + cbn [fst snd numeric_tokens]. rewrite Hd. reflexivity.
Qed.

Lemma findall_slash_free (fuel : nat) : forall s : string,
  no_slash s = true -> (String.length s < fuel)%nat ->
  findall_from fuel s = numeric_tokens s.
Proof.
  induction fuel as [| fuel IH]; intros s Hs Hlen; [lia |].
  cbn [findall_from]. rewrite (match_here_slash_free s Hs).
  destruct s as [| c s]; [reflexivity |].
  cbn [starts_with_digit]. destruct (is_digit c) eqn:Hd.
  - rewrite (numeric_tokens_span c s Hd).
    cbn [span_digits]. rewrite Hd. f_equal.
    cbn in Hs. apply andb_true_iff in Hs as [_ Hs].
    apply IH; [apply span_digits_no_slash; exact Hs |].
    pose proof (span_digits_length s). cbn in Hlen. lia.
  - cbn [numeric_tokens]. rewrite Hd.
    cbn in Hs. apply andb_true_iff in Hs as [_ Hs].
    apply IH; [exact Hs | cbn in Hlen; lia].
Qed.

Lemma basename_slash_free (s : string) : no_slash s = true -> basename s = s.
Proof. destruct s as [| c s]; [reflexivity |]. cbn [basename]. intros ->. reflexivity. Qed.

Lemma findall_basename (fuel : nat) : forall s : string,
  (String.length s < fuel)%nat ->
  findall_from fuel s = numeric_tokens (basename s).
Proof.
  induction fuel as [| fuel IH]; intros s Hlen; [lia |].
  destruct (no_slash s) eqn:Hs.
  { rewrite (basename_slash_free s Hs). apply findall_slash_free; assumption. }
  destruct s as [| c s]; [discriminate |].
  cbn [basename]. rewrite Hs. cbn [findall_from].
  destruct (no_slash s) eqn:Hs'.
  - (* [c] is the last slash *)
    assert (Hc : is_slash c = true).
    { cbn in Hs. rewrite Hs' in Hs. destruct (is_slash c); [reflexivity | discriminate]. }
    unfold match_here. rewrite Hc, (digits_look_span s Hs').
    rewrite (basename_slash_free s Hs').
    destruct s as [| d s].
    { cbn [starts_with_digit]. rewrite (digits_look_slash _ Hs).
      destruct fuel; reflexivity. }
    cbn [starts_with_digit]. destruct (is_digit d) eqn:Hd.
    + rewrite (numeric_tokens_span d s Hd). cbn [span_digits]. rewrite Hd. f_equal.
      cbn in Hs'. apply andb_true_iff in Hs' as [_ Hs'].
      apply findall_slash_free; [apply span_digits_no_slash; exact Hs' |].
      pose proof (span_digits_length s). cbn in Hlen. lia.
    + rewrite (digits_look_slash (String c (String d s)) Hs).
      rewrite <- (basename_slash_free (String d s) Hs') at 2.
      apply IH. cbn in Hlen |- *. lia.
  - (* a slash follows: nothing matches here *)
    assert (Hm : match_here (String c s) = None).
    { unfold match_here. rewrite (digits_look_slash s Hs'), (digits_look_slash _ Hs).
      destruct (is_slash c); reflexivity. }
    rewrite Hm. apply IH. cbn in Hlen. lia.
Qed.

(** C3, as the code has it.  For every path the sort key is the first
    (leftmost) numeric token of the final name component, and the call
    raises [IndexError] when that component has no digit; the key is the
    trailing token exactly when the component has a single numeric token or
    its first and last tokens denote the same integer. *)
Theorem inner_is_first_token (folder : string) :
  _inner folder = first_numeric_token folder
  /\ (forall t : string,
        numeric_tokens (basename folder) = [t] ->
        _inner folder = Ok (int_of_digits t)
        /\ trailing_numeric_token folder = _inner folder)
  /\ (numeric_tokens (basename folder) = [] -> _inner folder = Raise IndexError).
Proof.
  assert (H : _inner folder = first_numeric_token folder).
  { unfold _inner, first_numeric_token, findall.
    rewrite findall_basename by lia.
    destruct (numeric_tokens (basename folder)); reflexivity. }
  split; [exact H |]. split.
  - intros t Ht. rewrite H. unfold first_numeric_token, trailing_numeric_token.
    rewrite Ht. cbn. split; reflexivity.
  - intros Ht. rewrite H. unfold first_numeric_token. rewrite Ht. reflexivity.
Qed.

(** C3 as stated fails: in a name with two numeric tokens the key is the
    first of them, not the last. *)
Lemma inner_not_trailing_token :
  numeric_tokens (basename "out/checkpoints/run2_checkpoint_7") = ["2"; "7"]
  /\ _inner "out/checkpoints/run2_checkpoint_7" = Ok 2
  /\ trailing_numeric_token "out/checkpoints/run2_checkpoint_7" = Ok 7
  /\ _inner "out/checkpoints/run2_checkpoint_7"
     <> trailing_numeric_token "out/checkpoints/run2_checkpoint_7".
Proof.
  split; [reflexivity |]. split; [reflexivity |]. split; [reflexivity |].
  vm_compute. discriminate.
Qed.

(** ** Strings and paths *)

Lemma string_app_assoc (a b c : string) : (a ++ b) ++ c = a ++ (b ++ c).
Proof. induction a as [| x a IH]; cbn; [reflexivity | rewrite IH; reflexivity]. Qed.

Lemma string_app_inv_head (a x y : string) : a ++ x = a ++ y -> x = y.
Proof.
  induction a as [| c a IH]; cbn; intros H; [exact H |].
  injection H as H. apply IH. exact H.
Qed.

Lemma strip_prefix_app (a r : string) : strip_prefix a (a ++ r) = Some r.
Proof.
  induction a as [| c a IH]; cbn; [reflexivity |].
  rewrite Ascii.eqb_refl. exact IH.
Qed.

Lemma strip_prefix_some (a : string) : forall s r : string,
  strip_prefix a s = Some r -> s = a ++ r.
Proof.
  induction a as [| c a IH]; cbn; intros s r H.
  - injection H as ->. reflexivity.
  - destruct s as [| b s]; [discriminate |].
    destruct (Ascii.eqb_spec c b) as [-> | _]; [| discriminate].
    rewrite (IH s r H). reflexivity.
Qed.

Lemma string_length_app (a b : string) :
  String.length (a ++ b) = (String.length a + String.length b)%nat.
Proof. induction a as [| c a IH]; cbn; [| rewrite IH]; reflexivity. Qed.

Lemma no_slash_app (a b : string) : no_slash (a ++ b) = no_slash a && no_slash b.
Proof.
  induction a as [| c a IH]; cbn; [reflexivity |].
  rewrite IH, andb_assoc. reflexivity.
Qed.

Lemma ends_with_slash_app (x y : string) :
  y <> EmptyString -> ends_with_slash (x ++ y) = ends_with_slash y.
Proof.
  intros Hy. induction x as [| c x IH]; [reflexivity |].
  cbn [append]. cbn [ends_with_slash]. rewrite IH.
  destruct (x ++ y) eqn:E; [| reflexivity].
  destruct x; cbn in E; [congruence | discriminate].
Qed.

Lemma checkpoints_dir_plain (project_dir : string) :
  plain_dir (os_path_join project_dir "checkpoints").
Proof.
  unfold os_path_join. change (starts_with_slash "checkpoints") with false. cbv iota.
  assert (Hne : forall x : string, x ++ "checkpoints" <> EmptyString).
  { intros [| c x]; cbn; discriminate. }
  destruct ((project_dir =? "") || ends_with_slash project_dir).
  - split; [apply Hne |]. rewrite ends_with_slash_app by discriminate. reflexivity.
  - split.
    + destruct project_dir; cbn; discriminate.
    + rewrite ends_with_slash_app by discriminate. reflexivity.
Qed.

Lemma child_name_spec (d p n : string) :
  child_name d p = Some n <->
  p = d ++ "/" ++ n /\ n <> EmptyString /\ no_slash n = true.
Proof.
  unfold child_name. split.
  - destruct (strip_prefix (d ++ "/") p) as [m |] eqn:E; [| discriminate].
    apply strip_prefix_some in E. rewrite string_app_assoc in E.
    destruct (String.eqb_spec m EmptyString) as [-> | Hm]; cbn; [discriminate |].
    destruct (no_slash m) eqn:Hs; [| discriminate].
    intros H. injection H as <-. repeat split; assumption.
  - intros (-> & Hn & Hs). rewrite <- string_app_assoc, strip_prefix_app.
    destruct (String.eqb_spec n EmptyString) as [-> | _]; [congruence |].
    cbn. rewrite Hs. reflexivity.
Qed.

Lemma join_child (d n : string) :
  plain_dir d -> n <> EmptyString -> no_slash n = true ->
  os_path_join d n = d ++ "/" ++ n.
Proof.
  intros [Hd He] Hn Hs. unfold os_path_join.
  destruct n as [| c n]; [congruence |].
  cbn in Hs. apply andb_true_iff in Hs as [Hc _]. apply negb_true_iff in Hc.
  cbn [starts_with_slash]. rewrite Hc, He.
  destruct (String.eqb_spec d EmptyString); [congruence | reflexivity].
Qed.

(** Among the entries of [d], only an entry itself lies under it. *)
Lemma is_under_child (d n q m : string) :
  child_name d q = Some m -> is_under (d ++ "/" ++ n) q = true -> q = d ++ "/" ++ n.
Proof.
  intros Hq Hu. apply child_name_spec in Hq as (-> & Hm & Hs).
  unfold is_under in Hu. apply orb_true_iff in Hu as [Hu | Hu].
  - apply String.eqb_eq in Hu. exact Hu.
  - destruct (strip_prefix ((d ++ "/" ++ n) ++ "/") (d ++ "/" ++ m)) as [r |] eqn:E;
      [| discriminate].
    apply strip_prefix_some in E.
    rewrite !string_app_assoc in E. apply string_app_inv_head in E.
    cbn in E. injection E as E. subst m.
    rewrite no_slash_app in Hs. cbn in Hs. rewrite andb_false_r in Hs. discriminate.
Qed.

Lemma is_under_refl (p : string) : is_under p p = true.
Proof. unfold is_under. rewrite String.eqb_refl. reflexivity. Qed.

Lemma dir_not_own_child (d : string) : child_name d d = None.
Proof.
  destruct (child_name d d) as [n |] eqn:E; [| reflexivity].
  apply child_name_spec in E as (E & _ & _).
  assert (H : String.length d = String.length (d ++ "/" ++ n)) by (rewrite <- E; reflexivity).
  rewrite string_length_app in H. cbn in H. lia.
Qed.

(** ** The filesystem *)

Lemma is_child_spec (d p : string) :
  is_child d p = true <-> exists n, child_name d p = Some n.
Proof.
  unfold is_child. destruct (child_name d p) as [n |]; split.
  - intros _. exists n. reflexivity.
  - reflexivity.
  - discriminate.
  - intros [n H]. discriminate.
Qed.

Lemma children_child_paths (d : string) (fs : FS) :
  plain_dir d -> map (os_path_join d) (children d fs) = child_paths d fs.
Proof.
  intros Hd. induction fs as [| p fs IH]; [reflexivity |].
  cbn [children child_paths filter]. unfold is_child.
  destruct (child_name d p) as [n |] eqn:E.
  - cbn [map]. fold (child_paths d fs). rewrite IH. f_equal.
    apply child_name_spec in E as (-> & Hn & Hs). apply join_child; assumption.
  - exact IH.
Qed.

Lemma children_length (d : string) (fs : FS) :
  List.length (children d fs) = List.length (child_paths d fs).
Proof.
  induction fs as [| p fs IH]; [reflexivity |].
  cbn [children child_paths filter]. fold (child_paths d fs).
  change (is_child d p) with (match child_name d p with Some _ => true | None => false end).
  destruct (child_name d p); cbn [List.length]; lia.
Qed.

Lemma fs_exists_In (p : string) (fs : FS) : fs_exists p fs = true <-> In p fs.
Proof.
  unfold fs_exists. rewrite existsb_exists. split.
  - intros (q & Hq & E). apply String.eqb_eq in E. subst q. exact Hq.
  - intros H. exists p. split; [exact H | apply String.eqb_refl].
Qed.

Lemma child_paths_makedirs_le (d p : string) (fs : FS) :
  (List.length (child_paths d (fs_makedirs p fs)) <= S (List.length (child_paths d fs)))%nat.
Proof.
  unfold fs_makedirs. destruct (fs_exists p fs); [lia |].
  unfold child_paths. rewrite filter_app, length_app. cbn.
  destruct (is_child d p); cbn; lia.
Qed.

Lemma child_paths_makedirs_self (d : string) (fs : FS) :
  child_paths d (fs_makedirs d fs) = child_paths d fs.
Proof.
  unfold fs_makedirs. destruct (fs_exists d fs); [reflexivity |].
  unfold child_paths. rewrite filter_app. cbn. unfold is_child.
  rewrite dir_not_own_child. apply app_nil_r.
Qed.

Lemma makedirs_NoDup (p : string) (fs : FS) : NoDup fs -> NoDup (fs_makedirs p fs).
Proof.
  intros H. unfold fs_makedirs. destruct (fs_exists p fs) eqn:E; [exact H |].
  apply NoDup_app; [exact H | constructor; [intros [] | constructor] |].
  intros q Hq [<- | []].
  apply fs_exists_In in Hq. congruence.
Qed.

Lemma child_paths_remove_tree (d f : string) (fs : FS) :
  is_child d f = true ->
  child_paths d (remove_tree f fs)
  = filter (fun q => negb (String.eqb q f)) (child_paths d fs).
Proof.
  intros Hf. apply is_child_spec in Hf as [n Hn].
  apply child_name_spec in Hn as (-> & Hn & Hs).
  unfold child_paths, remove_tree.
  induction fs as [| q fs IH]; [reflexivity |].
  cbn [filter]. destruct (is_child d q) eqn:Hq.
  - assert (E : is_under (d ++ "/" ++ n) q = String.eqb q (d ++ "/" ++ n)).
    { destruct (String.eqb_spec q (d ++ "/" ++ n)) as [-> | Hne].
      - apply is_under_refl.
      - destruct (is_under (d ++ "/" ++ n) q) eqn:Hu; [| reflexivity].
        apply is_child_spec in Hq as [m Hm].
        apply (is_under_child d n q m Hm) in Hu. congruence. }
    rewrite E. cbn [filter]. destruct (String.eqb q (d ++ "/" ++ n)); cbn [negb].
    + exact IH.
    + cbn [filter]. rewrite Hq, IH. reflexivity.
  - destruct (negb (is_under (d ++ "/" ++ n) q)); cbn [filter]; [rewrite Hq |]; exact IH.
Qed.

Lemma filter_out_length (x : string) (l : list string) :
  NoDup l -> In x l ->
  S (List.length (filter (fun y => negb (String.eqb y x)) l)) = List.length l.
Proof.
  induction l as [| y l IH]; intros Hnd Hin; [destruct Hin |].
  inversion Hnd as [| ? ? Hy Hl]; subst. cbn [filter].
  destruct (String.eqb_spec y x) as [-> | Hne]; cbn [negb List.length].
  - f_equal. rewrite forallb_filter_id; [reflexivity |].
    apply forallb_forall. intros z Hz.
    destruct (String.eqb_spec z x) as [-> | _]; [contradiction | reflexivity].
  - f_equal. apply IH; [exact Hl |]. destruct Hin; [congruence | assumption].
Qed.

(** Removing distinct entries of [d] removes exactly them. *)
Lemma child_paths_remove_trees (d : string) (dels : list string) : forall fs : FS,
  NoDup dels -> NoDup (child_paths d fs) ->
  (forall f, In f dels -> In f (child_paths d fs)) ->
  (List.length (child_paths d (remove_trees dels fs)) + List.length dels
   = List.length (child_paths d fs))%nat
  /\ (forall q, In q (child_paths d (remove_trees dels fs))
               <-> In q (child_paths d fs) /\ ~ In q dels).
Proof.
  induction dels as [| f dels IH]; intros fs Hnd Hkids Hsub.
  - unfold remove_trees. cbn [fold_left List.length In]. split; [lia | tauto].
  - inversion Hnd as [| ? ? Hf Hdels]; subst.
    assert (Hfc : is_child d f = true).
    { specialize (Hsub f (or_introl eq_refl)). apply filter_In in Hsub. apply Hsub. }
    unfold remove_trees. cbn [fold_left]. fold (remove_trees dels (remove_tree f fs)).
    destruct (IH (remove_tree f fs) Hdels) as [Hlen Hmem].
    + rewrite (child_paths_remove_tree d f fs Hfc). apply NoDup_filter. exact Hkids.
    + intros g Hg. rewrite (child_paths_remove_tree d f fs Hfc).
      apply filter_In. split; [apply Hsub; right; exact Hg |].
      destruct (String.eqb_spec g f) as [-> | _]; [contradiction | reflexivity].
    + rewrite (child_paths_remove_tree d f fs Hfc) in Hlen, Hmem.
      pose proof (filter_out_length f (child_paths d fs) Hkids (Hsub f (or_introl eq_refl))).
      split; [cbn [List.length]; lia |].
      intros q. rewrite Hmem, filter_In. cbn [In].
      destruct (String.eqb_spec q f) as [-> | Hne]; cbn [negb]; split.
      * intros [[_ H'] _]. discriminate.
      * intros [_ H']. exfalso. apply H'. left. reflexivity.
      * intros [[Hq _] Hn]. split; [exact Hq |]. intros [E | Hd]; [congruence | contradiction].
      * intros [Hq Hn]. split; [split; [exact Hq | reflexivity] |].
        intros Hd. apply Hn. right. exact Hd.
Qed.

(** ** The stable sort *)

Lemma insert_by_key_perm (x : Z * string) (l : list (Z * string)) :
  Permutation (insert_by_key x l) (x :: l).
Proof.
  induction l as [| y l IH]; cbn [insert_by_key]; [reflexivity |].
  destruct (fst x <=? fst y)%Z; [reflexivity |].
  rewrite IH. apply perm_swap.
Qed.

Lemma sort_by_key_perm (l : list (Z * string)) : Permutation (sort_by_key l) l.
Proof.
  induction l as [| x l IH]; cbn; [reflexivity |].
  fold (sort_by_key l). rewrite insert_by_key_perm, IH. reflexivity.
Qed.

Lemma insert_by_key_sorted (x : Z * string) (l : list (Z * string)) :
  StronglySorted key_le l -> StronglySorted key_le (insert_by_key x l).
Proof.
  induction 1 as [| y l Hl IH Hy]; cbn [insert_by_key].
  - repeat constructor.
  - destruct (Z.leb_spec (fst x) (fst y)) as [Hle | Hgt].
    + constructor; [constructor; assumption |].
      constructor; [exact Hle |].
      apply Forall_impl with (P := key_le y); [| exact Hy].
      unfold key_le. intros a Ha. lia.
    + constructor; [exact IH |].
      apply Forall_forall. intros a Ha.
      apply (Permutation_in _ (insert_by_key_perm x l)) in Ha.
      destruct Ha as [<- | Ha].
      * unfold key_le. lia.
      * rewrite Forall_forall in Hy. apply Hy. exact Ha.
Qed.

Lemma sort_by_key_sorted (l : list (Z * string)) : StronglySorted key_le (sort_by_key l).
Proof.
  induction l as [| x l IH]; cbn; [constructor |].
  apply insert_by_key_sorted. exact IH.
Qed.

Lemma sorted_app_le (l1 l2 : list (Z * string)) :
  StronglySorted key_le (l1 ++ l2) ->
  forall a b, In a l1 -> In b l2 -> key_le a b.
Proof.
  induction l1 as [| x l1 IH]; cbn; intros Hs a b Ha Hb; [destruct Ha |].
  inversion Hs as [| ? ? Hs' Hx]; subst.
  destruct Ha as [<- | Ha].
  - rewrite Forall_forall in Hx. apply Hx. apply in_or_app. right. exact Hb.
  - apply IH; assumption.
Qed.

Lemma with_keys_spec (folders : list string) : forall keyed,
  with_keys folders = Ok keyed ->
  map snd keyed = folders /\ forall k f, In (k, f) keyed -> _inner f = Ok k.
Proof.
  induction folders as [| f folders IH]; cbn [with_keys]; intros keyed H.
  - injection H as <-. split; [reflexivity | intros k f []].
  - destruct (_inner f) as [k |] eqn:Ek; [| discriminate].
    destruct (with_keys folders) as [l |]; [| discriminate].
    injection H as <-. destruct (IH l eq_refl) as [Hm Hk].
    split; [cbn; rewrite Hm; reflexivity |].
    intros k' f' [E | Hin]; [injection E as <- <-; exact Ek | apply Hk; exact Hin].
Qed.

(** ** get_checkpoint_dir *)

(** Projections of updated states, reduced one update at a time. *)
Ltac state_fields :=
  cbn [model training train_dataloader validation_dataloader lr_scheduler epochs
       log_interval save_on_epoch_end train_loss_tracker validation_loss_tracker
       current_step progress_epoch project_configuration is_local_main_process fs trace
       with_model with_training with_lr_scheduler with_train_loss_tracker
       with_validation_loss_tracker with_current_step with_progress_epoch
       with_project_configuration with_fs with_trace].

Section CheckpointFacts.
Context {F : Type} {SF : Scalar F} {C : Collaborators F}.
Local Open Scope monad_scope.

Lemma bind_done {A B : Type} (m : M F A) (k : A -> M F B) (s s' : Trainer F) (a : A) :
  m s = Done a s' -> bind m k s = k a s'.
Proof. unfold bind. intros ->. reflexivity. Qed.

Lemma bind_failed {A B : Type} (m : M F A) (k : A -> M F B) (s s' : Trainer F) (e : exn) :
  m s = Failed e s' -> bind m k s = Failed e s'.
Proof. unfold bind. intros ->. reflexivity. Qed.

Lemma makedirs_run (p : string) (s : Trainer F) :
  makedirs p s
  = Done tt (with_fs (fs_makedirs p (fs s)) (with_trace (trace s ++ [EvMakedirs p]) s)).
Proof. reflexivity. Qed.

Lemma listdir_run (d : string) (s : Trainer F) :
  fs_exists d (fs s) = true ->
  listdir d s = Done (children d (fs s)) (with_trace (trace s ++ [EvListdir d]) s).
Proof.
  intros H. unfold fs_exists in H.
  unfold listdir, bind, emit, modify, get, fs_listdir. cbn. rewrite H. reflexivity.
Qed.

Lemma rmtree_run (p : string) (s : Trainer F) :
  fs_exists p (fs s) = true ->
  rmtree p s
  = Done tt (with_fs (remove_tree p (fs s)) (with_trace (trace s ++ [EvRmtree p]) s)).
Proof.
  intros H. unfold fs_exists in H.
  unfold rmtree, bind, emit, modify, get, fs_rmtree. cbn. rewrite H. reflexivity.
Qed.

(** *** Closure of [only_touches_fs] *)

Lemma otf_ret {A : Type} (a : A) : only_touches_fs (ret (F := F) a).
Proof. intros s. cbn. split; [reflexivity |]. exists []. rewrite app_nil_r. split; reflexivity. Qed.

Lemma otf_raise {A : Type} (e : exn) : only_touches_fs (raise (F := F) (A := A) e).
Proof. intros s. cbn. split; [reflexivity |]. exists []. rewrite app_nil_r. split; reflexivity. Qed.

Lemma otf_lift {A : Type} (r : result A) : only_touches_fs (lift (F := F) r).
Proof. destruct r; [apply otf_ret | apply otf_raise]. Qed.

Lemma otf_bind {A B : Type} (m : M F A) (k : A -> M F B) :
  only_touches_fs m -> (forall a, only_touches_fs (k a)) -> only_touches_fs (bind m k).
Proof.
  intros Hm Hk s. unfold bind. destruct (Hm s) as (Hc & evs & Ht & Hf).
  destruct (m s) as [a s' | e s']; cbn in Hc, Ht |- *.
  - destruct (Hk a s') as (Hc' & evs' & Ht' & Hf').
    split; [congruence |]. exists (evs ++ evs')%list.
    rewrite Ht', Ht, app_assoc, forallb_app, Hf, Hf'. split; reflexivity.
  - split; [exact Hc |]. exists evs. split; assumption.
Qed.

Lemma otf_get {B : Type} (k : Trainer F -> M F B) :
  (forall s0, only_touches_fs (k s0)) -> only_touches_fs (bind get k).
Proof. intros Hk s. unfold bind, get. apply Hk. Qed.

Lemma otf_when (b : bool) (m : M F unit) : only_touches_fs m -> only_touches_fs (when b m).
Proof. destruct b; [trivial | intros _; apply otf_ret]. Qed.

Lemma otf_makedirs (p : string) : only_touches_fs (makedirs p).
Proof.
  intros s. rewrite makedirs_run. cbn. split; [reflexivity |].
  exists [EvMakedirs p]. split; reflexivity.
Qed.

Lemma otf_listdir (d : string) : only_touches_fs (listdir d).
Proof.
  intros s. unfold listdir, bind, emit, modify, get, fs_listdir. cbn.
  destruct (existsb (String.eqb d) (fs s)); cbn; (split; [reflexivity |]);
    exists [EvListdir d]; split; reflexivity.
Qed.

Lemma otf_rmtree (p : string) : only_touches_fs (rmtree p).
Proof.
  intros s. unfold rmtree, bind, emit, modify, get, fs_rmtree. cbn.
  destruct (existsb (String.eqb p) (fs s)); cbn; (split; [reflexivity |]);
    exists [EvRmtree p]; split; reflexivity.
Qed.

Lemma otf_for_each {A : Type} (f : A -> M F unit) (l : list A) :
  (forall x, only_touches_fs (f x)) -> only_touches_fs (for_each f l).
Proof.
  intros Hf. induction l as [| x l IH]; cbn [for_each].
  - apply otf_ret.
  - apply otf_bind; [apply Hf | intros _; exact IH].
Qed.

(** C10. Every call of [get_checkpoint_dir], in the coordinating process or
    not, and whether it returns or raises, first sets
    [automatic_checkpoint_naming] to [False]: the write is the first thing
    the call does, everything after it in the trace is a filesystem call, and
    the project configuration differs from the one before the call in that
    field only.  Outside the coordinating process the write is all the call
    does. *)
Theorem get_checkpoint_dir_sets_naming (current_epoch : Z) (s : Trainer F) :
  let o := get_checkpoint_dir current_epoch s in
  project_configuration (final_state o)
  = set_automatic_checkpoint_naming false (project_configuration s)
  /\ automatic_checkpoint_naming (project_configuration (final_state o)) = false
  /\ project_dir (project_configuration (final_state o)) = project_dir (project_configuration s)
  /\ logging_dir (project_configuration (final_state o)) = logging_dir (project_configuration s)
  /\ total_limit (project_configuration (final_state o)) = total_limit (project_configuration s)
  /\ iteration (project_configuration (final_state o)) = iteration (project_configuration s)
  /\ save_on_each_node (project_configuration (final_state o))
     = save_on_each_node (project_configuration s)
  /\ (exists evs : list (Event F),
        trace (final_state o)
        = (trace s ++ EvSetAutomaticCheckpointNaming false :: evs)%list
        /\ forallb is_fs_event evs = true)
  /\ (is_local_main_process s = false ->
      raised o = None
      /\ fs (final_state o) = fs s
      /\ trace (final_state o) = (trace s ++ [EvSetAutomaticCheckpointNaming false])%list).
Proof.
  set (s1 := with_project_configuration
               (set_automatic_checkpoint_naming false (project_configuration s))
               (with_trace (trace s ++ [EvSetAutomaticCheckpointNaming false]) s)).
  set (rest := (s0 <- get ;;
     when (is_local_main_process s0)
       (makedirs (os_path_join (project_dir (project_configuration s0)) "checkpoints") ;;
        names <- listdir (os_path_join (project_dir (project_configuration s0)) "checkpoints") ;;
        match total_limit (project_configuration s0) with
        | None => ret tt
        | Some limit =>
            when (Z.of_nat (List.length
                    (map (os_path_join
                            (os_path_join (project_dir (project_configuration s0)) "checkpoints"))
                         names)) + 1 >? limit)%Z
              (keyed <- lift (with_keys
                  (map (os_path_join
                          (os_path_join (project_dir (project_configuration s0)) "checkpoints"))
                       names)) ;;
               for_each rmtree
                 (slice_to (map snd (sort_by_key keyed))
                    (Z.of_nat (List.length (map snd (sort_by_key keyed))) + 1 - limit)))
        end) ;;
     when (is_local_main_process s0)
       (makedirs (os_path_join
                    (os_path_join (project_dir (project_configuration s0)) "checkpoints")
                    ("checkpoint_" ++ str_of_int (current_epoch - 1)))) ;;
     ret (os_path_join
            (os_path_join (project_dir (project_configuration s0)) "checkpoints")
            ("checkpoint_" ++ str_of_int (current_epoch - 1))))).
  assert (Hrun : get_checkpoint_dir current_epoch s = rest s1) by reflexivity.
  assert (Hrest : only_touches_fs rest).
  { unfold rest. apply otf_get. intros s0.
    apply otf_bind; [| intros _; apply otf_bind; [| intros _; apply otf_ret]].
    - apply otf_when. apply otf_bind; [apply otf_makedirs | intros _].
      apply otf_bind; [apply otf_listdir | intros names].
      destruct (total_limit (project_configuration s0)); [| apply otf_ret].
      apply otf_when. apply otf_bind; [apply otf_lift | intros keyed].
      apply otf_for_each. apply otf_rmtree.
    - apply otf_when. apply otf_makedirs. }
  intros o. subst o. rewrite Hrun.
  destruct (Hrest s1) as (Hc & evs & Ht & Hf).
  assert (Hpc : project_configuration (final_state (rest s1))
                = set_automatic_checkpoint_naming false (project_configuration s)).
  { rewrite Hc. reflexivity. }
  split; [exact Hpc |]. rewrite Hpc. cbn [set_automatic_checkpoint_naming
    automatic_checkpoint_naming project_dir logging_dir total_limit iteration save_on_each_node].
  repeat (split; [reflexivity |]).
  split.
  - exists evs. split; [| exact Hf]. rewrite Ht. unfold s1. cbn [trace with_trace
      with_project_configuration]. rewrite <- app_assoc. reflexivity.
  - intros Hmain. unfold rest, bind, get. cbn. rewrite Hmain. cbn. repeat split.
Qed.

Lemma rmtree_loop (d : string) (dels : list string) : forall s : Trainer F,
  NoDup dels ->
  (forall f, In f dels -> In f (child_paths d (fs s))) ->
  for_each rmtree dels s
  = Done tt (with_fs (remove_trees dels (fs s))
                     (with_trace (trace s ++ map EvRmtree dels) s)).
Proof.
  induction dels as [| f dels IH]; intros s Hnd Hsub.
  - destruct s. cbn. rewrite app_nil_r. reflexivity.
  - inversion Hnd as [| ? ? Hf Hdels]; subst.
    pose proof (Hsub f (or_introl eq_refl)) as Hin.
    apply filter_In in Hin as [Hin Hfc].
    cbn [for_each].
    rewrite (bind_done _ _ _ _ _ (rmtree_run f s (proj2 (fs_exists_In f (fs s)) Hin))).
    rewrite IH; [| exact Hdels |].
    + cbn. rewrite <- app_assoc. reflexivity.
    + intros g Hg. cbn [fs with_fs].
      rewrite (child_paths_remove_tree d f (fs s) Hfc). apply filter_In.
      split; [apply Hsub; right; exact Hg |].
      destruct (String.eqb_spec g f) as [-> | _]; [contradiction | reflexivity].
Qed.

Lemma bind_assoc {A B D : Type} (m : M F A) (k : A -> M F B) (k' : B -> M F D)
    (s : Trainer F) :
  bind (bind m k) k' s = bind m (fun a => bind (k a) k') s.
Proof. unfold bind. destruct (m s); reflexivity. Qed.

Lemma bind_emit {B : Type} (ev : Event F) (k : unit -> M F B) (s : Trainer F) :
  bind (emit ev) k s = k tt (with_trace (trace s ++ [ev]) s).
Proof. reflexivity. Qed.

Lemma bind_modify {B : Type} (f : Trainer F -> Trainer F) (k : unit -> M F B)
    (s : Trainer F) :
  bind (modify f) k s = k tt (f s).
Proof. reflexivity. Qed.

Lemma bind_get {B : Type} (k : Trainer F -> M F B) (s : Trainer F) :
  bind get k s = k s s.
Proof. reflexivity. Qed.

Lemma bind_ret {A B : Type} (a : A) (k : A -> M F B) (s : Trainer F) :
  bind (ret a) k s = k a s.
Proof. reflexivity. Qed.

Lemma Trainer_ext (s1 s2 : Trainer F) :
  model s1 = model s2 -> training s1 = training s2 ->
  train_dataloader s1 = train_dataloader s2 ->
  validation_dataloader s1 = validation_dataloader s2 ->
  lr_scheduler s1 = lr_scheduler s2 -> epochs s1 = epochs s2 ->
  log_interval s1 = log_interval s2 -> save_on_epoch_end s1 = save_on_epoch_end s2 ->
  train_loss_tracker s1 = train_loss_tracker s2 ->
  validation_loss_tracker s1 = validation_loss_tracker s2 ->
  current_step s1 = current_step s2 -> progress_epoch s1 = progress_epoch s2 ->
  project_configuration s1 = project_configuration s2 ->
  is_local_main_process s1 = is_local_main_process s2 ->
  fs s1 = fs s2 -> trace s1 = trace s2 ->
  s1 = s2.
Proof. destruct s1, s2. cbn. intros. subst. reflexivity. Qed.

Lemma makedirs_exists (p : string) (fs : FS) : fs_exists p (fs_makedirs p fs) = true.
Proof.
  unfold fs_makedirs. destruct (fs_exists p fs) eqn:E; [exact E |].
  apply fs_exists_In. apply in_or_app. right. left. reflexivity.
Qed.

Lemma with_keys_length (folders : list string) (keyed : list (Z * string)) :
  with_keys folders = Ok keyed -> List.length keyed = List.length folders.
Proof.
  intros H. apply with_keys_spec in H as [H _]. rewrite <- H. symmetry. apply length_map.
Qed.

(** The call in the coordinating process, when it removes the folders
    [dels]: the state it returns in. *)
Lemma get_checkpoint_dir_run (current_epoch : Z) (s : Trainer F) (dels : list string) :
  let d := os_path_join (project_dir (project_configuration s)) "checkpoints" in
  let out := os_path_join d ("checkpoint_" ++ str_of_int (current_epoch - 1)) in
  is_local_main_process s = true ->
  match total_limit (project_configuration s) with
  | None => dels = []
  | Some l =>
      if (Z.of_nat (List.length (child_paths d (fs s))) + 1 >? l)%Z
      then exists keyed,
             with_keys (child_paths d (fs s)) = Ok keyed
             /\ dels = pruned (Some l) keyed
      else dels = []
  end ->
  NoDup dels ->
  (forall f, In f dels -> In f (child_paths d (fs s))) ->
  get_checkpoint_dir current_epoch s
  = Done out
      (with_fs (fs_makedirs out (remove_trees dels (fs_makedirs d (fs s))))
         (with_trace
            (trace s ++ [EvSetAutomaticCheckpointNaming false; EvMakedirs d; EvListdir d]
                     ++ map EvRmtree dels ++ [EvMakedirs out])
            (with_project_configuration
               (set_automatic_checkpoint_naming false (project_configuration s)) s))).
Proof.
  intros d out Hmain Hplan Hdels Hsub.
  pose proof (checkpoints_dir_plain (project_dir (project_configuration s))) as Hd.
  fold d in Hd.
  unfold get_checkpoint_dir.
  rewrite bind_emit, bind_modify, bind_get.
  cbn [is_local_main_process project_configuration with_project_configuration with_trace
       project_dir total_limit set_automatic_checkpoint_naming].
  rewrite Hmain. fold d. fold out. cbn [when].
  rewrite !bind_assoc.
  rewrite (bind_done _ _ _ _ _ (makedirs_run d _)).
  match goal with |- bind _ _ ?st = _ => set (s1 := st) end.
  assert (Hex : fs_exists d (fs s1) = true).
  { unfold s1. cbn [fs with_fs]. apply makedirs_exists. }
  rewrite ?bind_assoc.
  rewrite (bind_done _ _ _ _ _ (listdir_run d s1 Hex)).
  unfold s1. cbn [fs with_fs with_trace with_project_configuration trace].
  rewrite (children_child_paths d _ Hd), child_paths_makedirs_self.
  set (s2 := with_trace _ _).
  assert (Hblock :
    match total_limit (project_configuration s) with
    | Some limit =>
        when (Z.of_nat (List.length (child_paths d (fs s))) + 1 >? limit)%Z
          (keyed <- lift (with_keys (child_paths d (fs s))) ;;
           for_each rmtree
             (slice_to (map snd (sort_by_key keyed))
                (Z.of_nat (List.length (map snd (sort_by_key keyed))) + 1 - limit)))
    | None => ret tt
    end s2 = for_each rmtree dels s2).
  { destruct (total_limit (project_configuration s)) as [l |]; [| subst dels; reflexivity].
    destruct (Z.of_nat (List.length (child_paths d (fs s))) + 1 >? l)%Z eqn:Hgt;
      [| subst dels; reflexivity].
    destruct Hplan as (keyed & Hk & ->). cbn [when]. rewrite Hk. cbn [lift].
    rewrite bind_ret. unfold pruned.
    rewrite (with_keys_length _ _ Hk), Hgt. reflexivity. }
  assert (Hsub2 : forall f, In f dels -> In f (child_paths d (fs s2))).
  { intros f Hf. unfold s2. cbn [fs with_fs with_trace].
    rewrite child_paths_makedirs_self. apply Hsub. exact Hf. }
  rewrite ?bind_assoc.
  rewrite (bind_done _ _ _ _ _ (eq_trans Hblock (rmtree_loop d dels s2 Hdels Hsub2))).
  rewrite (bind_done _ _ _ _ _ (makedirs_run out _)).
  unfold ret, s2. cbn [fs with_fs with_trace with_project_configuration trace].
  f_equal. apply Trainer_ext; state_fields; try reflexivity.
  rewrite <- !app_assoc. reflexivity.
Qed.

Lemma removed_app (t1 t2 : list (Event F)) :
  removed (t1 ++ t2) = (removed t1 ++ removed t2)%list.
Proof.
  induction t1 as [| ev t1 IH]; [reflexivity |].
  cbn [app removed]. destruct (rmtree_path ev); cbn; rewrite IH; reflexivity.
Qed.

Lemma removed_rmtrees (ps : list string) : removed (map (@EvRmtree F) ps) = ps.
Proof. induction ps as [| p ps IH]; cbn; [| rewrite IH]; reflexivity. Qed.

Lemma makedirs_keeps (p q : string) (fs : FS) : In q fs -> In q (fs_makedirs p fs).
Proof.
  intros H. unfold fs_makedirs. destruct (fs_exists p fs); [exact H |].
  apply in_or_app. left. exact H.
Qed.

End CheckpointFacts.

Lemma string_of_uint_no_slash (u : Decimal.uint) :
  no_slash (DecimalString.NilEmpty.string_of_uint u) = true.
Proof. induction u; cbn; try assumption; reflexivity. Qed.

Lemma str_of_int_no_slash (z : Z) : no_slash (str_of_int z) = true.
Proof.
  unfold str_of_int, DecimalString.NilZero.string_of_int,
    DecimalString.NilZero.string_of_uint.
  destruct (Z.to_int z) as [u | u]; destruct u; cbn;
    try reflexivity; apply string_of_uint_no_slash.
Qed.

Lemma checkpoint_is_child (d : string) (z : Z) :
  plain_dir d -> is_child d (os_path_join d ("checkpoint_" ++ str_of_int z)) = true.
Proof.
  intros Hd.
  assert (Hs : no_slash ("checkpoint_" ++ str_of_int z) = true).
  { rewrite no_slash_app, str_of_int_no_slash. reflexivity. }
  rewrite join_child; [| exact Hd | discriminate | exact Hs].
  apply is_child_spec. exists ("checkpoint_" ++ str_of_int z).
  apply child_name_spec. repeat split; [discriminate | exact Hs].
Qed.

(** *** The key of a folder the trainer made *)

Lemma basename_of_child (d n : string) :
  no_slash n = true -> basename (d ++ "/" ++ n) = n.
Proof.
  intros Hn. induction d as [| c d IH].
  - change (basename (String "/" n) = n). cbn [basename no_slash]. cbn [is_slash].
    change (basename n = n). apply basename_slash_free. exact Hn.
  - change (basename (String c (d ++ "/" ++ n)) = n). cbn [basename].
    assert (Hs : no_slash (String c (d ++ "/" ++ n)) = false).
    { cbn [no_slash]. rewrite no_slash_app.
      change (no_slash ("/" ++ n)) with false. rewrite !andb_false_r. reflexivity. }
    rewrite Hs. exact IH.
Qed.

Lemma span_all_digits (s : string) :
  all_digits s = true -> span_digits s = (s, EmptyString).
Proof.
  induction s as [| c s IH]; cbn; [reflexivity |].
  intros H. apply andb_true_iff in H as [Hc Hs]. rewrite Hc, (IH Hs). reflexivity.
Qed.

Lemma numeric_tokens_all_digits (s : string) :
  s <> EmptyString -> all_digits s = true -> numeric_tokens s = [s].
Proof.
  destruct s as [| c s]; [congruence |]. intros _ H.
  cbn in H. apply andb_true_iff in H as [Hc Hs].
  rewrite (numeric_tokens_span c s Hc), (span_all_digits s Hs). reflexivity.
Qed.

Lemma string_of_uint_all_digits (u : Decimal.uint) :
  all_digits (DecimalString.NilEmpty.string_of_uint u) = true.
Proof. induction u; cbn; try assumption; reflexivity. Qed.

(** [int] reads the decimal digits of a numeral back to its value. *)
Lemma int_of_string_of_uint (u : Decimal.uint) : forall acc : Z,
  int_of_digits_acc acc (DecimalString.NilEmpty.string_of_uint u)
  = acc * 10 ^ Z.of_N (DecimalPos.Unsigned.usize u)
    + Z.of_N (DecimalPos.Unsigned.of_lu (Decimal.rev u)).
Proof.
  induction u; intros acc;
    [cbn; lia | ..];
    cbn [DecimalString.NilEmpty.string_of_uint int_of_digits_acc DecimalPos.Unsigned.usize];
    unfold Decimal.rev; cbn [Decimal.revapp];
    rewrite (DecimalPos.Unsigned.of_lu_revapp u), IHu;
    cbn [DecimalPos.Unsigned.of_lu];
    rewrite N2Z.inj_succ, Z.pow_succ_r by lia;
    rewrite N2Z.inj_add, N2Z.inj_mul, N2Z.inj_pow;
    change (Z.of_N 10) with 10;
    set (P := 10 ^ Z.of_N (DecimalPos.Unsigned.usize u));
    set (Y := Z.of_N (DecimalPos.Unsigned.of_lu (Decimal.rev u)));
    match goal with
    | |- context [Z.of_nat (nat_of_ascii ?c)] =>
        let v := eval vm_compute in (Z.of_nat (nat_of_ascii c)) in
        change (Z.of_nat (nat_of_ascii c)) with v
    end;
    match goal with
    | |- context [Z.of_N ?n] =>
        let v := eval vm_compute in (Z.of_N n) in change (Z.of_N n) with v
    end;
    ring.
Qed.

Lemma int_of_str_of_int (k : Z) : 0 <= k -> int_of_digits (str_of_int k) = k.
Proof.
  intros Hk. unfold int_of_digits, str_of_int. destruct k as [| p | p]; [reflexivity | | lia].
  cbn [Z.to_int DecimalString.NilZero.string_of_int].
  unfold DecimalString.NilZero.string_of_uint.
  pose proof (DecimalPos.Unsigned.to_uint_nonnil p) as Hnn.
  destruct (Pos.to_uint p) eqn:E; [congruence | ..];
    rewrite <- E, int_of_string_of_uint, <- DecimalPos.Unsigned.of_uint_alt,
      DecimalPos.Unsigned.of_to; cbn; reflexivity.
Qed.

Lemma str_of_int_digits (k : Z) :
  0 <= k -> str_of_int k <> EmptyString /\ all_digits (str_of_int k) = true.
Proof.
  intros Hk. unfold str_of_int. destruct k as [| p | p]; [split; [discriminate | reflexivity] | | lia].
  cbn [Z.to_int DecimalString.NilZero.string_of_int].
  unfold DecimalString.NilZero.string_of_uint.
  pose proof (DecimalPos.Unsigned.to_uint_nonnil p) as Hnn.
  destruct (Pos.to_uint p) eqn:E; [congruence | ..];
    (split; [cbn; discriminate | rewrite <- E; apply string_of_uint_all_digits]).
Qed.

(** The folder [get_checkpoint_dir] makes for the epoch of zero-based index
    [k] has the key [k]. *)
Lemma checkpoint_key (d : string) (k : Z) :
  plain_dir d -> 0 <= k ->
  _inner (os_path_join d ("checkpoint_" ++ str_of_int k)) = Ok k.
Proof.
  intros Hd Hk.
  assert (Hs : no_slash ("checkpoint_" ++ str_of_int k) = true).
  { rewrite no_slash_app, str_of_int_no_slash. reflexivity. }
  rewrite join_child; [| exact Hd | discriminate | exact Hs].
  unfold _inner, findall. rewrite findall_basename by lia.
  rewrite (basename_of_child d _ Hs).
  destruct (str_of_int_digits k Hk) as [Hne Hall].
  change (numeric_tokens ("checkpoint_" ++ str_of_int k))
    with (numeric_tokens (str_of_int k)).
  rewrite (numeric_tokens_all_digits _ Hne Hall). cbn [map].
  rewrite (int_of_str_of_int k Hk). reflexivity.
Qed.

Lemma NoDup_firstn {A : Type} (n : nat) (l : list A) : NoDup l -> NoDup (firstn n l).
Proof.
  intros H. rewrite <- (firstn_skipn n l) in H. apply NoDup_app_remove_r in H. exact H.
Qed.

Lemma In_firstn {A : Type} (n : nat) (l : list A) (x : A) : In x (firstn n l) -> In x l.
Proof.
  intros H. rewrite <- (firstn_skipn n l). apply in_or_app. left. exact H.
Qed.

Lemma pruned_firstn (limit : Z) (keyed : list (Z * string)) :
  pruned (Some limit) keyed
  = firstn (Z.to_nat (Z.of_nat (List.length keyed) + 1 - limit))
           (map snd (sort_by_key keyed)).
Proof.
  unfold pruned, slice_to.
  assert (Hlen : List.length (map snd (sort_by_key keyed)) = List.length keyed).
  { rewrite length_map. apply Permutation_length, sort_by_key_perm. }
  rewrite Hlen.
  destruct (Z.gtb_spec (Z.of_nat (List.length keyed) + 1) limit) as [Hgt | Hle].
  - destruct (Z.ltb_spec (Z.of_nat (List.length keyed) + 1 - limit) 0); [lia | reflexivity].
  - replace (Z.to_nat (Z.of_nat (List.length keyed) + 1 - limit)) with 0%nat by lia.
    reflexivity.
Qed.

Section CheckpointClaims.
Context {F : Type} {SF : Scalar F} {C : Collaborators F}.

(** The call when nothing is to be removed. *)
Lemma get_checkpoint_dir_keeps (current_epoch : Z) (s : Trainer F) :
  let d := os_path_join (project_dir (project_configuration s)) "checkpoints" in
  let out := os_path_join d ("checkpoint_" ++ str_of_int (current_epoch - 1)) in
  is_local_main_process s = true ->
  match total_limit (project_configuration s) with
  | None => True
  | Some l => Z.of_nat (List.length (children d (fs s))) + 1 <= l
  end ->
  exists s',
    get_checkpoint_dir current_epoch s = Done out s'
    /\ removed (trace s') = removed (trace s)
    /\ (forall p, In p (fs s) -> In p (fs s')).
Proof.
  intros d out Hmain Hlim.
  eexists. split; [apply (get_checkpoint_dir_run current_epoch s []) |].
  - exact Hmain.
  - fold d. destruct (total_limit (project_configuration s)) as [l |]; [| reflexivity].
    rewrite <- children_length.
    destruct (Z.gtb_spec (Z.of_nat (List.length (children d (fs s))) + 1) l);
      [lia | reflexivity].
  - constructor.
  - intros f [].
  - cbn [trace fs with_fs with_trace map app]. split.
    + rewrite removed_app. cbn. apply app_nil_r.
    + intros p Hp. unfold remove_trees. cbn [fold_left].
      apply makedirs_keeps, makedirs_keeps. exact Hp.
Qed.

(** C2, as the code has it.  In the coordinating process, on a directory
    listing without repeated paths:
    - without a limit, and with a limit [L] that [n + 1] does not exceed, the
      call removes nothing;
    - with a limit [L >= 1], and every existing folder having a key, the call
      removes the first [n + 1 - L] folders of the list sorted by key (none
      when [n + 1 <= L]), so exactly [n + 1 - L] when [n + 1 > L]; no folder
      removed has a larger key than a folder kept; and after the new folder
      is made at most [L] remain, exactly [L] when folders were removed and
      the new one did not exist before. *)
Theorem checkpoint_retention (current_epoch : Z) (s : Trainer F) :
  let d := os_path_join (project_dir (project_configuration s)) "checkpoints" in
  let out := os_path_join d ("checkpoint_" ++ str_of_int (current_epoch - 1)) in
  let n := Z.of_nat (List.length (children d (fs s))) in
  is_local_main_process s = true ->
  NoDup (fs s) ->
  (total_limit (project_configuration s) = None ->
   exists s',
     get_checkpoint_dir current_epoch s = Done out s'
     /\ removed (trace s') = removed (trace s)
     /\ (forall p, In p (fs s) -> In p (fs s')))
  /\
  (forall limit : Z,
     total_limit (project_configuration s) = Some limit ->
     n + 1 <= limit ->
     exists s',
       get_checkpoint_dir current_epoch s = Done out s'
       /\ removed (trace s') = removed (trace s)
       /\ (forall p, In p (fs s) -> In p (fs s')))
  /\
  (forall (limit : Z) (keyed : list (Z * string)),
     total_limit (project_configuration s) = Some limit ->
     1 <= limit ->
     with_keys (map (os_path_join d) (children d (fs s))) = Ok keyed ->
     exists (s' : Trainer F) (dels : list string),
       get_checkpoint_dir current_epoch s = Done out s'
       /\ removed (trace s') = (removed (trace s) ++ dels)%list
       /\ dels = firstn (Z.to_nat (n + 1 - limit)) (map snd (sort_by_key keyed))
       /\ (n + 1 > limit -> Z.of_nat (List.length dels) = n + 1 - limit)
       /\ (n + 1 <= limit -> dels = [])
       /\ (forall x y kx ky,
             In x dels -> In y (map (os_path_join d) (children d (fs s))) -> ~ In y dels ->
             _inner x = Ok kx -> _inner y = Ok ky -> kx <= ky)
       /\ Z.of_nat (List.length (children d (fs s'))) <= limit
       /\ (n + 1 > limit -> ~ In out (fs s) ->
           Z.of_nat (List.length (children d (fs s'))) = limit)).
Proof.
  intros d out n Hmain Hnd.
  pose proof (checkpoints_dir_plain (project_dir (project_configuration s))) as Hd.
  fold d in Hd.
  split; [| split].
  - intros Hnone. apply get_checkpoint_dir_keeps; [exact Hmain |].
    rewrite Hnone. exact I.
  - intros limit Hlim Hle. apply get_checkpoint_dir_keeps; [exact Hmain |].
    rewrite Hlim. exact Hle.
  - rewrite (children_child_paths d (fs s) Hd).
    intros limit keyed Hlim Hpos Hk.
    set (folders := child_paths d (fs s)) in *.
    set (sorted := sort_by_key keyed).
    destruct (with_keys_spec folders keyed Hk) as [Hsnd Hkeys].
    assert (Hn : n = Z.of_nat (List.length folders)).
    { unfold n, folders. rewrite children_length. reflexivity. }
    assert (Hklen : List.length keyed = List.length folders).
    { apply with_keys_length. exact Hk. }
    assert (Hperm : Permutation (map snd sorted) folders).
    { rewrite <- Hsnd. apply Permutation_map, sort_by_key_perm. }
    assert (Hfnd : NoDup folders) by (apply NoDup_filter; exact Hnd).
    set (k := Z.to_nat (n + 1 - limit)).
    set (dels := firstn k (map snd sorted)).
    assert (Hpr : pruned (Some limit) keyed = dels).
    { rewrite pruned_firstn, Hklen, <- Hn. reflexivity. }
    assert (Hdnd : NoDup dels).
    { apply NoDup_firstn. apply (Permutation_NoDup (Permutation_sym Hperm)). exact Hfnd. }
    assert (Hdsub : forall f, In f dels -> In f folders).
    { intros f Hf. apply (Permutation_in _ Hperm). apply In_firstn in Hf. exact Hf. }
    assert (Hdlen : List.length dels = Nat.min k (List.length folders)).
    { unfold dels. rewrite length_firstn, (Permutation_length Hperm). reflexivity. }
    exists (with_fs (fs_makedirs out (remove_trees dels (fs_makedirs d (fs s))))
         (with_trace
            (trace s ++ [EvSetAutomaticCheckpointNaming false; EvMakedirs d; EvListdir d]
                     ++ map EvRmtree dels ++ [EvMakedirs out])
            (with_project_configuration
               (set_automatic_checkpoint_naming false (project_configuration s)) s))),
      dels.
    split.
    { apply get_checkpoint_dir_run; [exact Hmain | | exact Hdnd | exact Hdsub].
      fold d. fold folders. rewrite Hlim.
      destruct (Z.gtb_spec (Z.of_nat (List.length folders) + 1) limit) as [Hgt | Hle].
      - exists keyed. split; [exact Hk | symmetry; exact Hpr].
      - unfold dels, k. replace (Z.to_nat (n + 1 - limit)) with 0%nat by lia. reflexivity. }
    cbn [trace fs with_fs with_trace].
    split.
    { rewrite !removed_app, removed_rmtrees. cbn. rewrite app_nil_r. reflexivity. }
    split; [reflexivity |].
    split. { intros Hgt. rewrite Hdlen. unfold k. lia. }
    split. { intros Hle. unfold dels, k. replace (Z.to_nat (n + 1 - limit)) with 0%nat by lia.
             reflexivity. }
    assert (Hrem := child_paths_remove_trees d dels (fs_makedirs d (fs s)) Hdnd).
    rewrite child_paths_makedirs_self in Hrem. fold folders in Hrem.
    destruct (Hrem Hfnd Hdsub) as [Hcount Hmem]. clear Hrem.
    split.
    { intros x y kx ky Hx Hy Hny Hkx Hky.
      assert (Hsplit : sorted = (firstn k sorted ++ skipn k sorted)%list)
        by (symmetry; apply firstn_skipn).
      assert (Hx' : exists a, In a (firstn k sorted) /\ snd a = x).
      { unfold dels in Hx. rewrite firstn_map in Hx. apply in_map_iff in Hx.
        destruct Hx as (a & Ha & Hin). exists a. split; assumption. }
      assert (Hy' : exists b, In b (skipn k sorted) /\ snd b = y).
      { apply (Permutation_in _ (Permutation_sym Hperm)) in Hy.
        apply in_map_iff in Hy. destruct Hy as (b & Hb & Hin).
        exists b. split; [| exact Hb].
        rewrite Hsplit in Hin. apply in_app_or in Hin as [Hin | Hin]; [| exact Hin].
        exfalso. apply Hny. unfold dels. rewrite firstn_map, <- Hb.
        apply in_map. exact Hin. }
      destruct Hx' as ([ka x'] & Ha & Hax). destruct Hy' as ([kb y'] & Hb & Hby).
      cbn in Hax, Hby. subst x' y'.
      assert (Hle : key_le (ka, x) (kb, y)).
      { apply (sorted_app_le (firstn k sorted) (skipn k sorted)); [| exact Ha | exact Hb].
        rewrite <- Hsplit. apply sort_by_key_sorted. }
      assert (Eka : _inner x = Ok ka).
      { apply Hkeys. apply (Permutation_in _ (sort_by_key_perm keyed)).
        apply In_firstn in Ha. exact Ha. }
      assert (Ekb : _inner y = Ok kb).
      { apply Hkeys. apply (Permutation_in _ (sort_by_key_perm keyed)).
        fold sorted. rewrite Hsplit. apply in_or_app. right. exact Hb. }
      unfold key_le in Hle. cbn in Hle. congruence. }
    pose proof (child_paths_makedirs_le d out (remove_trees dels (fs_makedirs d (fs s))))
      as Hle1.
    split.
    { rewrite children_length. unfold k in Hdlen. lia. }
    intros Hgt Hnew. rewrite children_length.
    assert (Hout : fs_exists out (remove_trees dels (fs_makedirs d (fs s))) = false).
    { destruct (fs_exists out (remove_trees dels (fs_makedirs d (fs s)))) eqn:E;
        [| reflexivity].
      exfalso. apply fs_exists_In in E.
      assert (Hoc : In out (child_paths d (remove_trees dels (fs_makedirs d (fs s))))).
      { apply filter_In. split; [exact E | apply checkpoint_is_child; exact Hd]. }
      apply Hmem in Hoc as [Hoc _]. apply filter_In in Hoc as [Hoc _]. contradiction. }
    unfold fs_makedirs at 1. rewrite Hout.
    unfold child_paths at 1. rewrite filter_app, length_app. cbn [filter].
    unfold out at 1. rewrite (checkpoint_is_child d (current_epoch - 1) Hd).
    fold (child_paths d (remove_trees dels (fs_makedirs d (fs s)))).
    cbn [List.length]. unfold k in Hdlen. lia.
Qed.

End CheckpointClaims.

Ltac nodup_strings :=
  repeat (constructor; [cbn; intuition discriminate |]); constructor.

(** [checkpoint_retention] at the limit [2] with [checkpoint_0] to
    [checkpoint_3] in place, when the folder of the fifth epoch is made:
    three folders go, the oldest ones, and two remain. *)
Lemma checkpoint_retention_witness :
  exists (s' : Trainer float) (dels : list string),
    get_checkpoint_dir 5 (rotating (Some 2) four_checkpoints)
    = Done "out/checkpoints/checkpoint_4" s'
    /\ removed (trace s') = dels
    /\ dels = ["out/checkpoints/checkpoint_0"; "out/checkpoints/checkpoint_1";
               "out/checkpoints/checkpoint_2"]
    /\ Z.of_nat (List.length dels) = 3
    /\ Z.of_nat (List.length (children "out/checkpoints" (fs s'))) = 2.
Proof.
  assert (Hnd : NoDup (fs (rotating (Some 2) four_checkpoints))) by nodup_strings.
  destruct (checkpoint_retention 5 (rotating (Some 2) four_checkpoints) eq_refl Hnd)
    as (_ & _ & H).
  destruct (H 2 [(0, "out/checkpoints/checkpoint_0"); (1, "out/checkpoints/checkpoint_1");
                 (2, "out/checkpoints/checkpoint_2"); (3, "out/checkpoints/checkpoint_3")]
              eq_refl ltac:(lia) eq_refl)
    as (s' & dels & Hrun & Hrem & Hdels & Hlen & _ & _ & _ & Hexact).
  exists s', dels.
  split; [exact Hrun |]. split; [exact Hrem |]. split; [exact Hdels |].
  split; [apply Hlen; reflexivity |].
  apply Hexact; [reflexivity |]. cbn. intuition discriminate.
Defined.

(** C2 as stated fails at the limit [0]: with one existing folder,
    [n + 1 - L = 2], but one folder is removed (there is no second one), and
    after the new folder is made one folder remains, which exceeds [L]. *)
Lemma retention_fails_at_limit_zero :
  raised (get_checkpoint_dir 2 (rotating (Some 0) one_checkpoint)) = None
  /\ children "out/checkpoints" (fs (rotating (Some 0) one_checkpoint)) = ["checkpoint_0"]
  /\ removed (trace (final_state (get_checkpoint_dir 2 (rotating (Some 0) one_checkpoint))))
     = ["out/checkpoints/checkpoint_0"]
  /\ Z.of_nat (List.length
       (removed (trace (final_state (get_checkpoint_dir 2 (rotating (Some 0) one_checkpoint))))))
     <> 1 + 1 - 0
  /\ children "out/checkpoints"
       (fs (final_state (get_checkpoint_dir 2 (rotating (Some 0) one_checkpoint))))
     = ["checkpoint_1"]
  /\ Z.of_nat (List.length
       (children "out/checkpoints"
          (fs (final_state (get_checkpoint_dir 2 (rotating (Some 0) one_checkpoint))))))
     > 0.
Proof.
  split; [vm_compute; reflexivity |].
  split; [vm_compute; reflexivity |].
  split; [vm_compute; reflexivity |].
  split; [vm_compute; discriminate |].
  split; vm_compute; reflexivity.
Qed.

(** A folder without a digit has no key: the sort raises before anything is
    removed, and the new folder is not made. *)
Lemma retention_raises_on_unkeyed_folder :
  raised (get_checkpoint_dir 2 (rotating (Some 1) with_best)) = Some IndexError
  /\ removed (trace (final_state (get_checkpoint_dir 2 (rotating (Some 1) with_best)))) = []
  /\ children "out/checkpoints"
       (fs (final_state (get_checkpoint_dir 2 (rotating (Some 1) with_best))))
     = ["best"; "checkpoint_0"].
Proof. repeat split; vm_compute; reflexivity. Qed.

(** ** train *)

Section TrainFacts.
Context {F : Type} {SF : Scalar F} {C : Collaborators F}.
Local Open Scope monad_scope.
Local Open Scope Z_scope.

Lemma same_setup_refl (s : Trainer F) : same_setup s s.
Proof. unfold same_setup. repeat split. Qed.

Lemma same_setup_trans (s1 s2 s3 : Trainer F) :
  same_setup s1 s2 -> same_setup s2 s3 -> same_setup s1 s3.
Proof.
  unfold same_setup. intros (A1 & A2 & A3 & A4 & A5 & A6) (B1 & B2 & B3 & B4 & B5 & B6).
  repeat split; congruence.
Qed.

(** One batch with a scheduler: the state after it, and the record logged
    when the index is divisible by the interval. *)
Lemma train_batch_run (i : Z) (b : Batch) (s : Trainer F) (sch : Scheduler) :
  lr_scheduler s = Some sch ->
  log_interval s <> 0 ->
  0 <= loss_count (train_loss_tracker s) ->
  exists (s' : Trainer F) (t' : LossTracker F),
    train_batch i b s = Done tt s'
    /\ update (train_loss_tracker s) (forward (training s) (model s) b) = Ok t'
    /\ train_loss_tracker s' = t'
    /\ trace s'
       = (trace s ++
          if (i mod log_interval s =? 0)%Z
          then [EvLog [("loss", loss t'); ("lr", get_lr (scheduler_step sch))]
                      (current_step s + 1)]
          else [])%list
    /\ lr_scheduler s' = Some (scheduler_step sch)
    /\ current_step s' = current_step s + 1
    /\ training s' = training s
    /\ validation_loss_tracker s' = validation_loss_tracker s
    /\ fs s' = fs s
    /\ same_setup s s'.
Proof.
  intros Hsch HL Hc.
  unfold train_batch. rewrite bind_get, bind_modify, Hsch, bind_modify.
  cbn [train_loss_tracker with_lr_scheduler with_model training model].
  rewrite (update_ok _ _ Hc). cbn [lift]. rewrite bind_ret, !bind_modify, bind_get.
  cbn [log_interval with_current_step with_train_loss_tracker with_lr_scheduler with_model
       lr_scheduler current_step train_loss_tracker].
  destruct (Z.eqb_spec (log_interval s) 0) as [E | _]; [contradiction |].
  destruct (i mod log_interval s =? 0)%Z; cbn [when].
  - unfold log_metrics, accelerator_log, emit, modify.
    eexists. eexists. split; [reflexivity |]. split; [reflexivity |].
    unfold same_setup. state_fields. repeat split; reflexivity.
  - unfold ret.
    eexists. eexists. split; [reflexivity |]. split; [reflexivity |].
    unfold same_setup. state_fields. rewrite app_nil_r. repeat split; reflexivity.
Qed.

Lemma batch_indices_length (n : nat) : forall i, List.length (batch_indices i n) = n.
Proof. induction n as [| n IH]; intros i; cbn; [| rewrite IH]; reflexivity. Qed.

Lemma batch_indices_snoc (n : nat) : forall i,
  batch_indices i (S n) = (batch_indices i n ++ [i + Z.of_nat n])%list.
Proof.
  induction n as [| n IH]; intros i.
  - cbn. rewrite Z.add_0_r. reflexivity.
  - change (batch_indices i (S (S n))) with (i :: batch_indices (i + 1) (S n)).
    rewrite IH. cbn [batch_indices app]. do 3 f_equal. lia.
Qed.

Lemma div_step (n interval : Z) :
  1 <= n -> 1 <= interval ->
  n / interval = (n - 1) / interval + (if n mod interval =? 0 then 1 else 0).
Proof.
  intros Hn HL.
  pose proof (Z.div_mod n interval ltac:(lia)) as Hdm.
  pose proof (Z.mod_pos_bound n interval ltac:(lia)) as Hr.
  destruct (Z.eqb_spec (n mod interval) 0) as [E | E].
  - assert (H : n / interval - 1 = (n - 1) / interval).
    { apply (Z.div_unique (n - 1) interval (n / interval - 1) (interval - 1)); lia. }
    lia.
  - assert (H : n / interval = (n - 1) / interval).
    { apply (Z.div_unique (n - 1) interval (n / interval) (n mod interval - 1)); lia. }
    lia.
Qed.

(** The indices below [B] that the interval divides: [floor((B-1)/L) + 1]
    of them. *)
Lemma logged_indices_count (interval : Z) (n : nat) :
  1 <= interval -> (1 <= n)%nat ->
  Z.of_nat (List.length (logged_indices interval n)) = (Z.of_nat n - 1) / interval + 1.
Proof.
  intros HL Hn. induction n as [| n IH]; [lia |].
  unfold logged_indices in *. rewrite batch_indices_snoc, filter_app, length_app.
  cbn [filter]. rewrite Z.add_0_l.
  destruct n as [| n].
  - cbn. reflexivity.
  - rewrite Nat2Z.inj_add, IH by lia.
    replace (Z.of_nat (S (S n)) - 1) with (Z.of_nat (S n)) by lia.
    rewrite (div_step (Z.of_nat (S n)) interval) by lia.
    destruct (Z.of_nat (S n) mod interval =? 0); cbn [List.length]; lia.
Qed.

Lemma logged_indices_spec (interval : Z) (n : nat) (j : Z) :
  In j (logged_indices interval n) <->
  0 <= j < Z.of_nat n /\ j mod interval = 0.
Proof.
  unfold logged_indices. rewrite filter_In, Z.eqb_eq.
  assert (H : forall m i, In j (batch_indices i m) <-> i <= j < i + Z.of_nat m).
  { induction m as [| m IH]; intros i; cbn [batch_indices In].
    - lia.
    - rewrite IH. lia. }
  rewrite H. lia.
Qed.

(** The loop over the batches, with a scheduler. *)
Lemma train_batches_run (bs : list Batch) : forall (i : Z) (s : Trainer F) (sch : Scheduler),
  lr_scheduler s = Some sch ->
  log_interval s <> 0 ->
  0 <= loss_count (train_loss_tracker s) ->
  exists (s' : Trainer F) (evs : list (Event F)) (sch' : Scheduler),
    for_each_indexed train_batch i bs s = Done tt s'
    /\ trace s' = (trace s ++ evs)%list
    /\ forallb is_step_log evs = true
    /\ map log_step evs
       = map (fun j => current_step s + (j - i) + 1)
             (filter (fun j => (j mod log_interval s =? 0)%Z)
                     (batch_indices i (List.length bs)))
    /\ lr_scheduler s' = Some sch'
    /\ current_step s' = current_step s + Z.of_nat (List.length bs)
    /\ 0 <= loss_count (train_loss_tracker s')
    /\ validation_loss_tracker s' = validation_loss_tracker s
    /\ fs s' = fs s
    /\ same_setup s s'.
Proof.
  induction bs as [| b bs IH]; intros i s sch Hsch HL Hc.
  - exists s, [], sch. cbn. rewrite app_nil_r, Z.add_0_r.
    repeat split; try assumption; reflexivity.
  - destruct (train_batch_run i b s sch Hsch HL Hc)
      as (s1 & t1 & Hrun & Hup & Ht1 & Htr & Hs1 & Hst & _ & Hv & Hfs & Hset).
    assert (HL1 : log_interval s1 = log_interval s) by apply Hset.
    assert (Hc1 : 0 <= loss_count (train_loss_tracker s1)).
    { rewrite Ht1. rewrite (update_ok _ _ Hc) in Hup. injection Hup as <-. cbn. lia. }
    destruct (IH (i + 1) s1 (scheduler_step sch) Hs1 ltac:(congruence) Hc1)
      as (s' & evs & sch' & Hrun' & Htr' & Hall & Hsteps & Hs' & Hst' & Hc' & Hv' & Hfs' & Hset').
    exists s'. eexists. exists sch'.
    cbn [for_each_indexed]. rewrite (bind_done _ _ _ _ _ Hrun).
    split; [exact Hrun' |].
    split; [rewrite Htr', Htr, <- app_assoc; reflexivity |].
    cbn [List.length batch_indices filter].
    rewrite HL1 in Hsteps.
    split; [| split].
    + rewrite forallb_app, Hall, andb_true_r.
      destruct (i mod log_interval s =? 0); reflexivity.
    + rewrite map_app, Hsteps.
      destruct (i mod log_interval s =? 0); cbn [map app log_step].
      * f_equal; [lia |]. apply map_ext. intros j. lia.
      * apply map_ext. intros j. lia.
    + split; [exact Hs' |]. split; [lia |]. split; [exact Hc' |].
      split; [congruence |]. split; [congruence |].
      apply (same_setup_trans _ _ _ Hset Hset').
Qed.

Lemma step_log_not_train_loss (ev : Event F) :
  is_step_log ev = true -> is_train_loss_log ev = false.
Proof.
  destruct ev as [metrics step | | | | | | | | | |]; try discriminate.
  destruct metrics as [| [k1 v1] [| [k2 v2] [| m ms]]]; cbn; try discriminate; reflexivity.
Qed.

Lemma step_logs_filter (evs : list (Event F)) :
  forallb is_step_log evs = true ->
  filter is_step_log evs = evs /\ filter is_train_loss_log evs = [].
Proof.
  induction evs as [| ev evs IH]; cbn [forallb filter]; [split; reflexivity |].
  intros H. apply andb_true_iff in H as [Hev Hall].
  destruct (IH Hall) as [H1 H2].
  rewrite Hev, (step_log_not_train_loss ev Hev), H1, H2. split; reflexivity.
Qed.

(** One epoch with a scheduler, without validation and without
    checkpointing. *)
Lemma train_epoch_run (e : Z) (s : Trainer F) (sch : Scheduler) :
  lr_scheduler s = Some sch ->
  log_interval s <> 0 ->
  0 <= loss_count (train_loss_tracker s) ->
  validation_dataloader s = None ->
  save_on_epoch_end s = false ->
  exists (s' : Trainer F) (evs : list (Event F)) (sch' : Scheduler) (v : F),
    train_epoch e s = Done tt s'
    /\ trace s' = (trace s ++ evs ++ [EvLog [("train/loss", v)] e])%list
    /\ forallb is_step_log evs = true
    /\ map log_step evs
       = map (fun j => current_step s + j + 1)
             (logged_indices (log_interval s) (List.length (train_dataloader s)))
    /\ lr_scheduler s' = Some sch'
    /\ loss_count (train_loss_tracker s') = 0
    /\ current_step s' = current_step s + Z.of_nat (List.length (train_dataloader s))
    /\ fs s' = fs s
    /\ same_setup s s'.
Proof.
  intros Hsch HL Hc Hval Hsave.
  destruct (train_batches_run (train_dataloader s) 0 (with_training true s) sch)
    as (s1 & evs & sch1 & Hrun & Htr & Hall & Hsteps & Hs1 & Hst & Hc1 & _ & Hfs & Hset);
    [exact Hsch | exact HL | exact Hc |].
  revert Hrun Htr Hsteps Hst Hfs Hset. unfold same_setup. state_fields.
  intros Hrun Htr Hsteps Hst Hfs (E1 & E2 & E3 & E4 & E5 & E6).
  exists (with_progress_epoch (progress_epoch s1 + 1)
            (with_train_loss_tracker (on_epoch_end true (train_loss_tracker s1))
               (with_trace (trace s1 ++ [EvLog [("train/loss", loss (train_loss_tracker s1))] e])
                  s1))),
    evs, sch1, (loss (train_loss_tracker s1)).
  split.
  { unfold train_epoch. rewrite bind_modify, bind_get. state_fields.
    rewrite (bind_done _ _ _ _ _ Hrun), bind_get.
    unfold accelerator_log. rewrite bind_emit, !bind_modify, bind_get. state_fields.
    rewrite E5, Hval, E3, Hsave. reflexivity. }
  state_fields. rewrite Htr, <- app_assoc.
  split; [reflexivity |]. split; [exact Hall |].
  split. { rewrite Hsteps. unfold logged_indices. apply map_ext. intros j. lia. }
  split; [exact Hs1 |]. split; [reflexivity |]. split; [exact Hst |]. split; [exact Hfs |].
  unfold same_setup. state_fields. repeat split; assumption.
Qed.

(** A run of epochs with a scheduler, without validation and without
    checkpointing: what the trace gains. *)
Lemma train_epochs_run (es : list Z) : forall (s : Trainer F) (sch : Scheduler),
  lr_scheduler s = Some sch ->
  log_interval s <> 0 ->
  0 <= loss_count (train_loss_tracker s) ->
  validation_dataloader s = None ->
  save_on_epoch_end s = false ->
  exists (s' : Trainer F) (evs : list (Event F)),
    for_each train_epoch es s = Done tt s'
    /\ trace s' = (trace s ++ evs)%list
    /\ List.length (filter is_step_log evs)
       = (List.length es
          * List.length (logged_indices (log_interval s) (List.length (train_dataloader s))))%nat
    /\ List.length (filter is_train_loss_log evs) = List.length es
    /\ map log_step (filter is_train_loss_log evs) = es.
Proof.
  induction es as [| e es IH]; intros s sch Hsch HL Hc Hval Hsave.
  - exists s, []. cbn. rewrite app_nil_r. repeat split; reflexivity.
  - destruct (train_epoch_run e s sch Hsch HL Hc Hval Hsave)
      as (s1 & evs1 & sch1 & v & Hrun & Htr & Hall & Hsteps & Hs1 & Hc1 & _ & _ & Hset).
    destruct Hset as (E1 & E2 & E3 & E4 & E5 & E6).
    destruct (IH s1 sch1 Hs1 ltac:(congruence) ltac:(lia) ltac:(congruence)
                ltac:(congruence))
      as (s' & evs & Hrun' & Htr' & Hn1 & Hn2 & Hn3).
    exists s', ((evs1 ++ [EvLog [("train/loss", v)] e]) ++ evs)%list.
    cbn [for_each]. rewrite (bind_done _ _ _ _ _ Hrun).
    split; [exact Hrun' |].
    split. { rewrite Htr', Htr, <- !app_assoc. reflexivity. }
    destruct (step_logs_filter evs1 Hall) as [F1 F2].
    rewrite !filter_app, F1, F2. cbn [filter is_step_log is_train_loss_log].
    change (("train/loss" =? "train/loss")%string) with true. cbv iota.
    rewrite E2, E4 in Hn1.
    split; [| split].
    + rewrite !length_app, Hn1. cbn [List.length].
      assert (Hlen : List.length evs1
                     = List.length (logged_indices (log_interval s)
                                      (List.length (train_dataloader s)))).
      { rewrite <- (length_map log_step evs1), Hsteps, length_map. reflexivity. }
      lia.
    + cbn [app List.length]. rewrite Hn2. reflexivity.
    + cbn [app map log_step]. rewrite Hn3. reflexivity.
Qed.

Lemma range_from_1_length (n : Z) : List.length (range_from_1 n) = Z.to_nat n.
Proof. unfold range_from_1. rewrite length_map, length_seq. reflexivity. Qed.

Lemma range_from_1_cons (n : Z) :
  1 <= n -> exists rest, range_from_1 n = 1 :: rest.
Proof.
  intros Hn. unfold range_from_1.
  destruct (Z.to_nat n) as [| m] eqn:E; [lia |].
  cbn [seq map]. eexists. reflexivity.
Qed.

(** The whole loop with a scheduler, without validation and without
    checkpointing. *)
Lemma train_run (s : Trainer F) (sch : Scheduler) :
  lr_scheduler s = Some sch ->
  log_interval s <> 0 ->
  0 <= loss_count (train_loss_tracker s) ->
  validation_dataloader s = None ->
  save_on_epoch_end s = false ->
  exists (s' : Trainer F) (evs : list (Event F)),
    train s = Done tt s'
    /\ trace s' = (trace s ++ evs)%list
    /\ List.length (filter is_step_log evs)
       = (Z.to_nat (epochs s)
          * List.length (logged_indices (log_interval s) (List.length (train_dataloader s))))%nat
    /\ List.length (filter is_train_loss_log evs) = Z.to_nat (epochs s)
    /\ map log_step (filter is_train_loss_log evs) = range_from_1 (epochs s).
Proof.
  intros Hsch HL Hc Hval Hsave.
  destruct (train_epochs_run (range_from_1 (epochs s)) s sch Hsch HL Hc Hval Hsave)
    as (s1 & evs & Hrun & Htr & Hn1 & Hn2 & Hn3).
  exists (with_trace (trace s1 ++ [EvEndTraining]) s1), (evs ++ [EvEndTraining])%list.
  split.
  { unfold train. rewrite bind_get, (bind_done _ _ _ _ _ Hrun). reflexivity. }
  state_fields. rewrite Htr, <- app_assoc. split; [reflexivity |].
  rewrite !filter_app. cbn [filter is_step_log is_train_loss_log].
  rewrite !app_nil_r, Hn1, Hn2, Hn3, range_from_1_length. repeat split; reflexivity.
Qed.

(** Without a scheduler the first batch of the first epoch raises, after the
    optimizer step and the tracker update and before anything is logged. *)
Lemma train_no_scheduler (s : Trainer F) (b : Batch) (bs : list Batch) :
  lr_scheduler s = None ->
  train_dataloader s = b :: bs ->
  1 <= epochs s ->
  0 <= loss_count (train_loss_tracker s) ->
  exists s' : Trainer F,
    train s = Failed (if log_interval s =? 0 then ZeroDivisionError else AttributeError) s'
    /\ trace s' = trace s
    /\ current_step s' = current_step s + 1
    /\ progress_epoch s' = progress_epoch s
    /\ history (train_loss_tracker s') = history (train_loss_tracker s)
    /\ fs s' = fs s
    /\ model s' = optimize (model s) b
    /\ loss_count (train_loss_tracker s') = loss_count (train_loss_tracker s) + 1.
Proof.
  intros Hsch Hdl He Hc.
  destruct (range_from_1_cons (epochs s) He) as [rest Hrange].
  assert (Hbatch : exists s' : Trainer F,
    train_batch 0 b (with_training true s)
    = Failed (if log_interval s =? 0 then ZeroDivisionError else AttributeError) s'
    /\ trace s' = trace s
    /\ current_step s' = current_step s + 1
    /\ progress_epoch s' = progress_epoch s
    /\ history (train_loss_tracker s') = history (train_loss_tracker s)
    /\ fs s' = fs s
    /\ model s' = optimize (model s) b
    /\ loss_count (train_loss_tracker s') = loss_count (train_loss_tracker s) + 1).
  { unfold train_batch. rewrite bind_get, bind_modify. state_fields. rewrite Hsch, bind_ret.
    state_fields. rewrite (update_ok _ _ Hc). cbn [lift].
    rewrite bind_ret, !bind_modify, bind_get. state_fields. rewrite Hsch.
    destruct (log_interval s =? 0) eqn:E.
    - unfold raise. eexists. split; [reflexivity |]. state_fields. repeat split; reflexivity.
    - rewrite Zmod_0_l. cbn [Z.eqb when]. unfold raise.
      eexists. split; [reflexivity |]. state_fields. repeat split; reflexivity. }
  destruct Hbatch as (s' & Hrun & Hrest). exists s'. split; [| exact Hrest].
  assert (Hepoch : train_epoch 1 s
    = Failed (if log_interval s =? 0 then ZeroDivisionError else AttributeError) s').
  { unfold train_epoch. rewrite bind_modify, bind_get. state_fields. rewrite Hdl.
    cbn [for_each_indexed]. rewrite !bind_assoc. cbv beta.
    apply bind_failed. exact Hrun. }
  unfold train. rewrite bind_get, Hrange. cbn [for_each].
  rewrite !bind_assoc. cbv beta. apply bind_failed. exact Hepoch.
Qed.

End TrainFacts.

Section TrainClaims.
Context {F : Type} {SF : Scalar F} {C : Collaborators F}.
Local Open Scope Z_scope.

(** C5, as the code has it.  Without a learning-rate scheduler, when the
    data source yields a batch and there is an epoch to run, [train] raises
    during the first batch of the first epoch, so that no epoch is ever
    completed: the optimizer step, the update of the tracker and the count
    of the step are done, nothing is logged and no epoch is ended.  With a
    log interval other than [0] the batch index [0] passes the test of the
    interval, the step-level record is built, and [get_lr] of [None] raises
    [AttributeError]; with an interval of [0] the test itself raises
    [ZeroDivisionError], before [get_lr] is reached. *)
Theorem train_raises_without_scheduler (s : Trainer F) (b : Batch) (bs : list Batch) :
  lr_scheduler s = None ->
  train_dataloader s = b :: bs ->
  1 <= epochs s ->
  reachable (train_loss_tracker s) ->
  exists s' : Trainer F,
    train s = Failed (if log_interval s =? 0 then ZeroDivisionError else AttributeError) s'
    /\ (log_interval s <> 0 -> 0 mod log_interval s = 0)
    /\ trace s' = trace s
    /\ model s' = optimize (model s) b
    /\ loss_count (train_loss_tracker s') = loss_count (train_loss_tracker s) + 1
    /\ current_step s' = current_step s + 1
    /\ progress_epoch s' = progress_epoch s
    /\ history (train_loss_tracker s') = history (train_loss_tracker s).
Proof.
  intros Hsch Hdl He Hr.
  pose proof (proj1 (reachable_count _ Hr)) as Hc.
  destruct (train_no_scheduler s b bs Hsch Hdl He Hc)
    as (s' & Hrun & Htr & Hst & Hp & Hh & _ & Hm & Hn).
  exists s'. split; [exact Hrun |].
  split. { intros _. apply Zmod_0_l. }
  repeat split; assumption.
Qed.

(** C4, on the code.  With a scheduler and a log interval [L >= 1], the loop
    over the [B] batches of an epoch returns and logs one step-level record
    for each batch index divisible by [L], in order, at the global step of
    that batch: index [0] is among them, and there are [floor((B-1)/L) + 1]
    of them when [B >= 1].  Without validation and checkpointing the whole
    loop then logs one train/loss record per epoch and that many step-level
    records per epoch: [2] and [6] for two epochs of three batches at
    interval [1].  Without a scheduler (the default of the constructor) the
    same loop raises at its first batch and logs nothing. *)
Theorem train_log_emissions (s : Trainer F) :
  let L := log_interval s in
  let B := List.length (train_dataloader s) in
  1 <= L ->
  0 <= loss_count (train_loss_tracker s) ->
  (forall sch : Scheduler,
     lr_scheduler s = Some sch ->
     exists (s' : Trainer F) (evs : list (Event F)),
       for_each_indexed train_batch 0 (train_dataloader s) s = Done tt s'
       /\ trace s' = (trace s ++ evs)%list
       /\ forallb is_step_log evs = true
       /\ map log_step evs = map (fun j => current_step s + j + 1) (logged_indices L B)
       /\ (forall j, In j (logged_indices L B) <-> 0 <= j < Z.of_nat B /\ j mod L = 0)
       /\ ((1 <= B)%nat ->
           In 0 (logged_indices L B)
           /\ Z.of_nat (List.length evs) = (Z.of_nat B - 1) / L + 1))
  /\
  (forall sch : Scheduler,
     lr_scheduler s = Some sch ->
     validation_dataloader s = None ->
     save_on_epoch_end s = false ->
     exists (s' : Trainer F) (evs : list (Event F)),
       train s = Done tt s'
       /\ trace s' = (trace s ++ evs)%list
       /\ List.length (filter is_train_loss_log evs) = Z.to_nat (epochs s)
       /\ List.length (filter is_step_log evs)
          = (Z.to_nat (epochs s) * List.length (logged_indices L B))%nat
       /\ (epochs s = 2 -> L = 1 -> B = 3%nat ->
           List.length (filter is_train_loss_log evs) = 2%nat
           /\ List.length (filter is_step_log evs) = 6%nat))
  /\
  (lr_scheduler s = None ->
   (1 <= B)%nat ->
   1 <= epochs s ->
   exists s' : Trainer F,
     train s = Failed AttributeError s' /\ trace s' = trace s).
Proof.
  intros L B HL Hc. split; [| split].
  - intros sch Hsch.
    destruct (train_batches_run (train_dataloader s) 0 s sch Hsch ltac:(fold L; lia) Hc)
      as (s' & evs & sch' & Hrun & Htr & Hall & Hsteps & _).
    exists s', evs. split; [exact Hrun |]. split; [exact Htr |]. split; [exact Hall |].
    assert (Hmap : map log_step evs
                   = map (fun j => current_step s + j + 1) (logged_indices L B)).
    { rewrite Hsteps. unfold logged_indices. apply map_ext. intros j. lia. }
    split; [exact Hmap |]. split; [apply logged_indices_spec |].
    intros HB. split.
    + apply logged_indices_spec. split; [lia | apply Zmod_0_l].
    + rewrite <- (length_map log_step evs), Hmap, length_map.
      apply logged_indices_count; assumption.
  - intros sch Hsch Hval Hsave.
    destruct (train_run s sch Hsch ltac:(fold L; lia) Hc Hval Hsave)
      as (s' & evs & Hrun & Htr & Hn1 & Hn2 & _).
    exists s', evs. split; [exact Hrun |]. split; [exact Htr |]. split; [exact Hn2 |].
    split; [exact Hn1 |].
    intros E2 EL EB. rewrite Hn2, Hn1. fold L B. rewrite E2, EL, EB. split; reflexivity.
  - intros Hsch HB He.
    destruct (train_dataloader s) as [| b bs] eqn:Hdl; [cbn in HB; lia |].
    destruct (train_no_scheduler s b bs Hsch Hdl He Hc) as (s' & Hrun & Htr & _).
    exists s'. split; [| exact Htr].
    rewrite Hrun. fold L. destruct (Z.eqb_spec L 0); [lia | reflexivity].
Qed.

End TrainClaims.

(** [train_raises_without_scheduler] in the scenario without a scheduler. *)
Lemma train_raises_without_scheduler_witness :
  exists s' : Trainer float,
    train (scenario None) = Failed AttributeError s'
    /\ 0 mod 1 = 0
    /\ trace s' = []
    /\ model s' = 1
    /\ loss_count (train_loss_tracker s') = 1
    /\ current_step s' = 1
    /\ progress_epoch s' = 1
    /\ history (train_loss_tracker s') = [].
Proof.
  assert (He : 1 <= epochs (scenario None)) by (cbn; lia).
  destruct (train_raises_without_scheduler (scenario None) 1.5%float [2.5; 0.5]%float
              eq_refl eq_refl He (reach_init 4))
    as (s' & Hrun & Hmod & Htr & Hm & Hn & Hst & Hp & Hh).
  assert (Hne : log_interval (scenario None) <> 0) by (cbn; lia).
  exists s'. split; [exact Hrun |]. split; [exact (Hmod Hne) |].
  repeat split; assumption.
Defined.

(** C5 as stated fails at the log interval [0].  Without a scheduler and on
    two batches, [train] does raise in the first batch, but it is the test
    of the interval that raises, [ZeroDivisionError]: the log record is
    never built and [get_lr] of [None] is never evaluated. *)
Lemma train_raises_before_get_lr :
  lr_scheduler no_scheduler_zero_interval = None
  /\ train_dataloader no_scheduler_zero_interval = [1.5; 2.5]%float
  /\ log_interval no_scheduler_zero_interval = 0
  /\ (exists s' : Trainer float,
        train no_scheduler_zero_interval = Failed ZeroDivisionError s'
        /\ trace s' = []
        /\ current_step s' = 1)
  /\ (forall s' : Trainer float,
        train no_scheduler_zero_interval <> Failed AttributeError s').
Proof.
  split; [reflexivity |]. split; [reflexivity |]. split; [reflexivity |].
  assert (He : 1 <= epochs no_scheduler_zero_interval) by (cbn; lia).
  assert (Hc : 0 <= loss_count (train_loss_tracker no_scheduler_zero_interval))
    by (cbn; lia).
  destruct (train_no_scheduler no_scheduler_zero_interval 1.5%float [2.5]%float
              eq_refl eq_refl He Hc) as (s' & Hrun & Htr & Hst & _).
  change (train no_scheduler_zero_interval = Failed ZeroDivisionError s') in Hrun.
  split.
  - exists s'. split; [exact Hrun |]. split; [exact Htr | exact Hst].
  - intros s'' H. rewrite Hrun in H. discriminate H.
Qed.

(** [train_log_emissions] in the scenario: with a scheduler, two train/loss
    records and six step-level records; without one, [AttributeError] and an
    empty trace. *)
Lemma train_log_emissions_witness :
  (exists (s' : Trainer float) (evs : list (Event float)),
     train (scenario (Some 0)) = Done tt s'
     /\ trace s' = evs
     /\ List.length (filter is_train_loss_log evs) = 2%nat
     /\ List.length (filter is_step_log evs) = 6%nat)
  /\ (exists s' : Trainer float,
        train (scenario None) = Failed AttributeError s' /\ trace s' = []).
Proof.
  assert (HL : 1 <= log_interval (scenario (Some 0))) by (cbn; lia).
  assert (Hc : 0 <= loss_count (train_loss_tracker (scenario (Some 0)))) by (cbn; lia).
  assert (HL' : 1 <= log_interval (scenario None)) by (cbn; lia).
  assert (Hc' : 0 <= loss_count (train_loss_tracker (scenario None))) by (cbn; lia).
  assert (He' : 1 <= epochs (scenario None)) by (cbn; lia).
  split.
  - destruct (proj1 (proj2 (train_log_emissions (scenario (Some 0)) HL Hc))
                0 eq_refl eq_refl eq_refl)
      as (s' & evs & Hrun & Htr & Hn1 & _ & Hsc).
    exists s', evs. split; [exact Hrun |]. split; [exact Htr |].
    exact (Hsc eq_refl eq_refl eq_refl).
  - apply (proj2 (proj2 (train_log_emissions (scenario None) HL' Hc')) eq_refl).
    + cbn. lia.
    + exact He'.
Defined.

(* ================================================================== *)
(** * Part III: further properties of the code *)
(* ================================================================== *)

Section TrackerCallsFacts.
Context {F : Type} {SF : Scalar F}.
Local Open Scope Z_scope.

(** X1. The history is append-only.  On a tracker that a program has built,
    by [__init__] and calls of [update], [reset] and [on_epoch_end], any
    further calls of these three, in any order, all return; the history
    afterwards is the history before followed by one value for each call of
    [on_epoch_end], and no call changes the number of digits. *)
Theorem history_append_only (cs : list (Call F)) : forall t : LossTracker F,
  reachable t ->
  exists (t' : LossTracker F) (added : list F),
    calls cs t = Ok t'
    /\ history t' = (history t ++ added)%list
    /\ List.length added = List.length (filter is_on_epoch_end cs)
    /\ ndigits t' = ndigits t
    /\ reachable t'.
Proof.
  induction cs as [| c cs IH]; intros t Hr.
  - exists t, []. rewrite app_nil_r. repeat split; try reflexivity. exact Hr.
  - destruct c as [v | | b].
    + pose proof (update_ok t v (proj1 (reachable_count t Hr))) as E.
      destruct (IH _ (reach_update t _ v Hr E)) as (t' & added & Hrun & Hh' & Hlen & Hnd' & Hr').
      exists t', added. cbn [calls call]. rewrite E.
      split; [exact Hrun |]. split; [exact Hh' |]. split; [exact Hlen |].
      split; [exact Hnd' | exact Hr'].
    + destruct (IH (reset t) (reach_reset t Hr)) as (t' & added & Hrun & Hh' & Hlen & Hnd' & Hr').
      exists t', added. cbn [calls call].
      split; [exact Hrun |]. split; [exact Hh' |]. split; [exact Hlen |].
      split; [exact Hnd' | exact Hr'].
    + destruct (IH (on_epoch_end b t) (reach_on_epoch_end b t Hr))
        as (t' & added & Hrun & Hh' & Hlen & Hnd' & Hr').
      exists t', (loss t :: added). cbn [calls call].
      split; [exact Hrun |].
      split. { rewrite Hh'. destruct b; cbn; rewrite <- app_assoc; reflexivity. }
      split. { cbn [filter is_on_epoch_end List.length]. rewrite Hlen. reflexivity. }
      split; [| exact Hr']. rewrite Hnd'. destruct b; reflexivity.
Qed.

End TrackerCallsFacts.

(** ** NaN *)

Section NotANumber.
Local Open Scope Z_scope.

Lemma is_nan_spec (x : float) : is_nan x = true <-> Prim2SF x = S754_nan.
Proof.
  unfold is_nan. rewrite eqb_spec. unfold SFeqb, SFcompare.
  destruct (Prim2SF x) as [s | s | | s m e]; cbn.
  - split; discriminate.
  - destruct s; cbn; split; discriminate.
  - split; reflexivity.
  - rewrite Z.compare_refl.
    assert (Hm : PosDef.Pos.compare_cont Eq m m = Eq) by apply Pos.compare_cont_refl.
    rewrite Hm. destruct s; cbn; split; discriminate.
Qed.

Lemma nan_mul_l (x y : float) : is_nan x = true -> is_nan (x * y) = true.
Proof.
  rewrite !is_nan_spec, mul_spec. intros ->. reflexivity.
Qed.

Lemma nan_add_l (x y : float) : is_nan x = true -> is_nan (x + y) = true.
Proof.
  rewrite !is_nan_spec, add_spec. intros ->. reflexivity.
Qed.

Lemma nan_add_r (x y : float) : is_nan y = true -> is_nan (x + y) = true.
Proof.
  rewrite !is_nan_spec, add_spec. intros ->. destruct (Prim2SF x); reflexivity.
Qed.

Lemma nan_div_l (x y : float) : is_nan x = true -> is_nan (x / y) = true.
Proof.
  rewrite !is_nan_spec, div_spec. intros ->. reflexivity.
Qed.

Lemma nan_round (x : float) (nd : N) : is_nan x = true -> is_nan (py_round x nd) = true.
Proof.
  intros H. unfold py_round. pose proof (proj1 (is_nan_spec x) H) as E. rewrite E. exact H.
Qed.

Lemma update_nan (t : LossTracker float) (v : float) :
  0 <= loss_count t ->
  is_nan (_loss t) = true \/ is_nan v = true ->
  exists t', update t v = Ok t' /\ is_nan (_loss t') = true
             /\ loss_count t' = loss_count t + 1.
Proof.
  intros Hc H. rewrite (update_ok t v Hc). eexists. split; [reflexivity |].
  cbn [_loss loss_count]. split; [| reflexivity].
  cbn [s_div s_add s_mul s_of_int binary64].
  apply nan_div_l. destruct H as [H | H].
  - apply nan_add_l, nan_mul_l, H.
  - apply nan_add_r, H.
Qed.

(** X2. A NaN is never averaged away.  On binary64, when the mean is NaN or
    one of the values fed is NaN, every [update] returns, and afterwards the
    mean is NaN and [loss] reads NaN, whatever else was fed. *)
Theorem nan_poisons_mean (vs : list float) : forall t : LossTracker float,
  0 <= loss_count t ->
  is_nan (_loss t) = true \/ existsb is_nan vs = true ->
  exists t',
    updates t vs = Ok t'
    /\ is_nan (_loss t') = true
    /\ is_nan (loss t') = true.
Proof.
  induction vs as [| v vs IH]; intros t Hc H.
  - destruct H as [H | H]; [| discriminate].
    exists t. split; [reflexivity |]. split; [exact H |]. apply nan_round, H.
  - cbn [updates]. destruct (is_nan (_loss t)) eqn:E1.
    + destruct (update_nan t v Hc (or_introl E1)) as (t1 & Hu & Hn & Hc1).
      rewrite Hu. apply IH; [lia | left; exact Hn].
    + destruct H as [H | H]; [discriminate |]. cbn [existsb] in H.
      destruct (is_nan v) eqn:E2.
      * destruct (update_nan t v Hc (or_intror E2)) as (t1 & Hu & Hn & Hc1).
        rewrite Hu. apply IH; [lia | left; exact Hn].
      * destruct (updates_ok [v] t Hc) as (t1 & Hu & Hn & _).
        cbn [updates] in Hu. destruct (update t v) as [t1' | e]; [| discriminate].
        injection Hu as ->. cbn [List.length Z.of_nat] in Hn.
        apply IH; [lia | right; exact H].
Qed.

Lemma nan_poisons_mean_witness :
  exists t',
    updates (LossTracker_default (F := float)) [1.5; nan; 0.5]%float = Ok t'
    /\ is_nan (_loss t') = true
    /\ is_nan (loss t') = true.
Proof.
  assert (Hc : 0 <= loss_count (LossTracker_default (F := float))) by (cbn; lia).
  exact (nan_poisons_mean [1.5; nan; 0.5]%float LossTracker_default Hc (or_intror eq_refl)).
Defined.

End NotANumber.

(** ** add_prefix *)

Lemma string_eqb_app (a x y : string) : String.eqb (a ++ x) (a ++ y) = String.eqb x y.
Proof.
  induction a as [| c a IH]; cbn; [reflexivity |].
  rewrite Ascii.eqb_refl. exact IH.
Qed.

Lemma strip_prefix_none_neq (a k r : string) : strip_prefix a k = None -> k <> a ++ r.
Proof.
  intros H E. rewrite E, strip_prefix_app in H. discriminate.
Qed.

Lemma NoDup_map_injective {A B : Type} (f : A -> B) (l : list A) :
  (forall x y, f x = f y -> x = y) -> NoDup l -> NoDup (map f l).
Proof.
  intros Hinj Hnd. induction Hnd as [| x l Hx Hnd IH]; cbn; constructor; [| exact IH].
  intros Hin. apply in_map_iff in Hin as (y & E & Hy). apply Hinj in E. subst y. contradiction.
Qed.

Section AddPrefixFacts.
Context {F : Type} {SF : Scalar F} {C : Collaborators F}.

(** X3. [add_prefix] renames every key [k] to [prefix/k] and keeps its
    value and place: the value under [prefix/k] afterwards is the value
    under [k] before, a key that does not start with [prefix/] is missing afterwards,
    and distinct keys stay distinct, so no item is lost. *)
Theorem add_prefix_lookup (values : list (string * F)) (prefix : string) :
  (forall k : string,
     dict_get (prefix ++ "/" ++ k) (add_prefix values prefix) = dict_get k values)
  /\ (forall k : string,
        strip_prefix (prefix ++ "/") k = None ->
        dict_get k (add_prefix values prefix) = None)
  /\ List.length (add_prefix values prefix) = List.length values
  /\ (NoDup (map fst values) -> NoDup (map fst (add_prefix values prefix))).
Proof.
  split; [| split; [| split]].
  - intros k. induction values as [| [k' v] values IH]; [reflexivity |].
    cbn [add_prefix map dict_get fst snd].
    rewrite (string_eqb_app prefix ("/" ++ k) ("/" ++ k')).
    rewrite (string_eqb_app "/" k k').
    destruct (String.eqb k k'); [reflexivity | exact IH].
  - intros k Hk. induction values as [| [k' v] values IH]; [reflexivity |].
    cbn [add_prefix map dict_get fst snd].
    destruct (String.eqb_spec k (prefix ++ "/" ++ k')) as [E | _]; [| exact IH].
    exfalso. apply (strip_prefix_none_neq (prefix ++ "/") k k' Hk).
    rewrite E. symmetry. apply string_app_assoc.
  - unfold add_prefix. apply length_map.
  - intros Hnd. unfold add_prefix. rewrite map_map. cbn [fst].
    rewrite <- (map_map fst (fun k => prefix ++ "/" ++ k)).
    apply NoDup_map_injective; [| exact Hnd].
    intros x y E. apply string_app_inv_head in E. apply (string_app_inv_head "/") in E.
    exact E.
Qed.

End AddPrefixFacts.

(** [add_prefix_lookup] on the record that [train] logs at the end of an
    epoch. *)
Lemma add_prefix_lookup_witness :
  dict_get "train/loss" (add_prefix [("loss", 1.5%float)] "train") = Some 1.5%float
  /\ dict_get "loss" (add_prefix [("loss", 1.5%float)] "train") = None
  /\ List.length (add_prefix [("loss", 1.5%float)] "train") = 1%nat
  /\ NoDup (map fst (add_prefix [("loss", 1.5%float)] "train")).
Proof.
  destruct (add_prefix_lookup [("loss", 1.5%float)] "train") as (H1 & H2 & H3 & H4).
  split; [exact (H1 "loss") |]. split; [exact (H2 "loss" eq_refl) |].
  split; [exact H3 |]. apply H4. constructor; [intros [] | constructor].
Defined.

(** ** Feeding values in two parts *)

Section UpdatesFacts.
Context {F : Type} {SF : Scalar F}.
Local Open Scope Z_scope.

Lemma updates_app (a b : list F) : forall t : LossTracker F,
  updates t (a ++ b)
  = match updates t a with
    | Ok t1 => updates t1 b
    | Raise e => Raise e
    end.
Proof.
  induction a as [| v a IH]; intros t; cbn [app updates]; [reflexivity |].
  destruct (update t v); [apply IH | reflexivity].
Qed.

(** The mean and the count after [updates] depend on the mean and the count
    before only. *)
Lemma updates_congr (vs : list F) : forall t u : LossTracker F,
  _loss t = _loss u -> loss_count t = loss_count u ->
  match updates t vs, updates u vs with
  | Ok t', Ok u' => _loss t' = _loss u' /\ loss_count t' = loss_count u'
                    /\ ndigits t' = ndigits t /\ history t' = history t
  | Raise e, Raise e' => e = e'
  | _, _ => False
  end.
Proof.
  induction vs as [| v vs IH]; intros t u Hl Hn; cbn [updates].
  - repeat split; assumption.
  - unfold update, truediv_int. rewrite Hl, Hn.
    destruct (loss_count u + 1 =? 0); [reflexivity |].
    match goal with
    | |- context [updates ?a vs] =>
        match goal with
        | |- context [match updates ?b vs with Ok _ => _ /\ _ | Raise _ => False end] =>
            specialize (IH a b eq_refl eq_refl)
        end
    end.
    cbn [_loss loss_count ndigits history] in IH. exact IH.
Qed.

End UpdatesFacts.

Section WithoutReset.
Context {F : Type} {SF : Scalar F}.
Local Open Scope Z_scope.

(** X4. With [reset=False] the end of an epoch does not restart the mean.
    After the values [a], [on_epoch_end(reset=False)] and the values [b],
    the mean, the count and the loss read are those after the values
    [a ++ b] fed without a call in between; the call has only appended the
    loss of that moment to the history. *)
Theorem mean_without_reset (t : LossTracker F) (a b : list F) :
  0 <= loss_count t ->
  exists t1 t2 t12 : LossTracker F,
    updates t a = Ok t1
    /\ updates (on_epoch_end false t1) b = Ok t2
    /\ updates t (a ++ b) = Ok t12
    /\ _loss t2 = _loss t12
    /\ loss_count t2 = loss_count t12
    /\ loss t2 = loss t12
    /\ history t2 = (history t ++ [loss t1])%list.
Proof.
  intros Hc.
  destruct (updates_ok a t Hc) as (t1 & Hu1 & Hn1 & Hnd1 & Hh1).
  assert (Hc1 : 0 <= loss_count (on_epoch_end false t1)) by (cbn; lia).
  destruct (updates_ok b (on_epoch_end false t1) Hc1) as (t2 & Hu2 & Hn2 & Hnd2 & Hh2).
  pose proof (updates_congr b (on_epoch_end false t1) t1 eq_refl eq_refl) as Hcg.
  rewrite Hu2 in Hcg. destruct (updates t1 b) as [t12 | e] eqn:Hu12; [| contradiction].
  destruct Hcg as (Hl & Hn & _ & _).
  exists t1, t2, t12. split; [exact Hu1 |]. split; [exact Hu2 |].
  split. { rewrite updates_app, Hu1. exact Hu12. }
  split; [exact Hl |]. split; [exact Hn |].
  split.
  { unfold loss. rewrite Hl, Hnd2.
    pose proof (updates_congr b t1 t1 eq_refl eq_refl) as Hs. rewrite Hu12 in Hs.
    destruct Hs as (_ & _ & Hnd12 & _). rewrite Hnd12. reflexivity. }
  rewrite Hh2. cbn [on_epoch_end history]. rewrite Hh1. reflexivity.
Qed.

End WithoutReset.

(** [mean_without_reset] on the default tracker, two values before the end
    of the epoch and one after it. *)
Lemma mean_without_reset_witness :
  exists t1 t2 t12 : LossTracker float,
    updates LossTracker_default [1.5; 2.5]%float = Ok t1
    /\ updates (on_epoch_end false t1) [0.5]%float = Ok t2
    /\ updates LossTracker_default [1.5; 2.5; 0.5]%float = Ok t12
    /\ _loss t2 = _loss t12
    /\ loss_count t2 = loss_count t12
    /\ loss t2 = loss t12
    /\ history t2 = [loss t1].
Proof.
  assert (Hc : (0 <= loss_count (LossTracker_default (F := float)))%Z) by (cbn; lia).
  exact (mean_without_reset LossTracker_default [1.5; 2.5]%float [0.5]%float Hc).
Defined.

(** ** evaluate, called again *)

Section EvaluateAgain.
Context {F : Type} {SF : Scalar F} {C : Collaborators F}.
Local Open Scope Z_scope.

Lemma evaluate_run (m : Model) (dataloader : list Batch) (t : LossTracker F) :
  0 <= loss_count t ->
  exists t1 : LossTracker F,
    updates t (map (forward false m) dataloader) = Ok t1
    /\ evaluate m dataloader (Some t) = Ok (loss t1, false, on_epoch_end true t1)
    /\ ndigits t1 = ndigits t
    /\ history t1 = history t.
Proof.
  intros Hc.
  destruct (updates_ok (map (forward false m) dataloader) t Hc) as (t1 & Hu & _ & Hnd & Hh).
  exists t1. unfold evaluate. rewrite Hu. repeat split; assumption.
Qed.

(** X6. Calls of [evaluate] on the same tracker do not influence each other:
    after a first call, a second one (on any model and data) returns what it
    returns on a new tracker of the same precision, and the history holds
    the values returned, in call order. *)
Theorem evaluate_repeatable (m m' : Model) (dataloader dataloader' : list Batch)
    (t : LossTracker F) :
  0 <= loss_count t ->
  exists (v v' : F) (t1 t2 t0 : LossTracker F),
    evaluate m dataloader (Some t) = Ok (v, false, t1)
    /\ evaluate m' dataloader' (Some t1) = Ok (v', false, t2)
    /\ evaluate m' dataloader' (Some (LossTracker_init (ndigits t))) = Ok (v', false, t0)
    /\ history t2 = (history t ++ [v; v'])%list
    /\ loss_count t2 = 0
    /\ _loss t2 = s_zero.
Proof.
  intros Hc.
  destruct (evaluate_run m dataloader t Hc) as (t1 & Hu1 & He1 & Hnd1 & Hh1).
  assert (Hc1 : 0 <= loss_count (on_epoch_end true t1)) by (cbn; lia).
  destruct (evaluate_run m' dataloader' (on_epoch_end true t1) Hc1)
    as (t2 & Hu2 & He2 & Hnd2 & Hh2).
  assert (Hc0 : 0 <= loss_count (LossTracker_init (F := F) (ndigits t))) by (cbn; lia).
  destruct (evaluate_run m' dataloader' (LossTracker_init (ndigits t)) Hc0)
    as (t0 & Hu0 & He0 & Hnd0 & Hh0).
  pose proof (updates_congr (map (forward false m') dataloader')
                (on_epoch_end true t1) (LossTracker_init (ndigits t)) eq_refl eq_refl) as Hcg.
  rewrite Hu2, Hu0 in Hcg. destruct Hcg as (Hl & Hn & _ & _).
  assert (Hloss : loss t2 = loss t0).
  { unfold loss. rewrite Hl, Hnd2, Hnd0. cbn [on_epoch_end reset ndigits LossTracker_init].
    rewrite Hnd1. reflexivity. }
  exists (loss t1), (loss t2), (on_epoch_end true t1), (on_epoch_end true t2),
    (on_epoch_end true t0).
  split; [exact He1 |]. split; [exact He2 |].
  split. { rewrite He0, Hloss. reflexivity. }
  split.
  { cbn [on_epoch_end reset history]. rewrite Hh2. cbn [on_epoch_end reset history].
    rewrite Hh1, <- app_assoc. reflexivity. }
  split; reflexivity.
Qed.

End EvaluateAgain.

(** [evaluate_repeatable] on two data sources and the default tracker. *)
Lemma evaluate_repeatable_witness :
  exists (v v' : float) (t1 t2 t0 : LossTracker float),
    evaluate (C := counting) 0 [1.5; 2.5]%float (Some LossTracker_default) = Ok (v, false, t1)
    /\ evaluate (C := counting) 1 [0.5]%float (Some t1) = Ok (v', false, t2)
    /\ evaluate (C := counting) 1 [0.5]%float (Some (LossTracker_init 4)) = Ok (v', false, t0)
    /\ history t2 = [v; v']
    /\ loss_count t2 = 0%Z
    /\ _loss t2 = 0%float.
Proof.
  assert (Hc : (0 <= loss_count (LossTracker_default (F := float)))%Z) by (cbn; lia).
  exact (evaluate_repeatable (C := counting) 0%Z 1%Z [1.5; 2.5]%float [0.5]%float
           LossTracker_default Hc).
Defined.

(** ** get_checkpoint_dir: when it raises, and what it leaves *)

Lemma children_In (d n : string) (fs : FS) :
  In n (children d fs) <-> exists p, In p fs /\ child_name d p = Some n.
Proof.
  induction fs as [| q fs IH]; cbn [children].
  - split; [intros [] | intros (p & [] & _)].
  - destruct (child_name d q) as [m |] eqn:E.
    + split.
      * intros [-> | H]; [exists q; split; [left; reflexivity | exact E] |].
        apply IH in H as (p & Hp & Hc). exists p. split; [right; exact Hp | exact Hc].
      * intros (p & [-> | Hp] & Hc); [left; congruence |].
        right. apply IH. exists p. split; assumption.
    + rewrite IH. split.
      * intros (p & Hp & Hc). exists p. split; [right; exact Hp | exact Hc].
      * intros (p & [-> | Hp] & Hc); [congruence |]. exists p. split; assumption.
Qed.

Lemma children_names (d n : string) (fs : FS) :
  In n (children d fs) -> n <> EmptyString /\ no_slash n = true.
Proof.
  intros H. apply children_In in H as (p & _ & Hc).
  apply child_name_spec in Hc as (_ & Hne & Hns). split; assumption.
Qed.

(** The key of an entry of a directory is read off its name. *)
Lemma inner_of_child (d n : string) :
  plain_dir d -> n <> EmptyString -> no_slash n = true ->
  _inner (os_path_join d n)
  = match numeric_tokens n with
    | t :: _ => Ok (int_of_digits t)
    | [] => Raise IndexError
    end.
Proof.
  intros Hd Hne Hns. rewrite (join_child d n Hd Hne Hns).
  unfold _inner, findall. rewrite findall_basename by lia.
  rewrite (basename_of_child d n Hns).
  destruct (numeric_tokens n); reflexivity.
Qed.

Lemma with_keys_children (d : string) (names : list string) :
  plain_dir d ->
  (forall n, In n names -> n <> EmptyString /\ no_slash n = true) ->
  if existsb unkeyed names
  then with_keys (map (os_path_join d) names) = Raise IndexError
  else exists keyed, with_keys (map (os_path_join d) names) = Ok keyed.
Proof.
  intros Hd. induction names as [| n names IH]; intros Hnames.
  - cbn. exists []. reflexivity.
  - destruct (Hnames n (or_introl eq_refl)) as [Hne Hns].
    cbn [existsb map with_keys]. rewrite (inner_of_child d n Hd Hne Hns).
    unfold unkeyed at 1. destruct (numeric_tokens n) as [| t ts]; [reflexivity |].
    cbn [orb].
    specialize (IH (fun m Hm => Hnames m (or_intror Hm))).
    destruct (existsb unkeyed names).
    + rewrite IH. reflexivity.
    + destruct IH as (keyed & ->). eexists. reflexivity.
Qed.

Section CheckpointRuns.
Context {F : Type} {SF : Scalar F} {C : Collaborators F}.
Local Open Scope monad_scope.
Local Open Scope Z_scope.

(** The call in the coordinating process, up to the listing of the root. *)
Lemma get_checkpoint_dir_listed (current_epoch : Z) (s : Trainer F) :
  let d := os_path_join (project_dir (project_configuration s)) "checkpoints" in
  let out := os_path_join d ("checkpoint_" ++ str_of_int (current_epoch - 1)) in
  is_local_main_process s = true ->
  get_checkpoint_dir current_epoch s
  = (match total_limit (project_configuration s) with
     | Some limit =>
         when (Z.of_nat (List.length (child_paths d (fs s))) + 1 >? limit)
           (keyed <- lift (with_keys (child_paths d (fs s))) ;;
            for_each rmtree
              (slice_to (map snd (sort_by_key keyed))
                 (Z.of_nat (List.length (map snd (sort_by_key keyed))) + 1 - limit)))
     | None => ret tt
     end ;; makedirs out ;; ret out)
      (with_fs (fs_makedirs d (fs s))
         (with_trace
            (trace s ++ [EvSetAutomaticCheckpointNaming false; EvMakedirs d; EvListdir d])
            (with_project_configuration
               (set_automatic_checkpoint_naming false (project_configuration s)) s))).
Proof.
  intros d out Hmain.
  pose proof (checkpoints_dir_plain (project_dir (project_configuration s))) as Hd.
  fold d in Hd.
  unfold get_checkpoint_dir.
  rewrite bind_emit, bind_modify, bind_get.
  cbn [is_local_main_process project_configuration with_project_configuration with_trace
       project_dir total_limit set_automatic_checkpoint_naming].
  rewrite Hmain. fold d. fold out. cbn [when].
  rewrite !bind_assoc.
  rewrite (bind_done _ _ _ _ _ (makedirs_run d _)).
  match goal with |- bind _ _ ?st = _ => set (s1 := st) end.
  assert (Hex : fs_exists d (fs s1) = true).
  { unfold s1. cbn [fs with_fs]. apply makedirs_exists. }
  rewrite ?bind_assoc.
  rewrite (bind_done _ _ _ _ _ (listdir_run d s1 Hex)).
  unfold s1. cbn [fs with_fs with_trace with_project_configuration trace].
  rewrite (children_child_paths d _ Hd), child_paths_makedirs_self.
  f_equal. apply Trainer_ext; state_fields; try reflexivity.
  rewrite <- !app_assoc. reflexivity.
Qed.

(** The folders the call plans to remove are entries of the root, each
    once. *)
Lemma pruned_sound (limit : Z) (folders : list string) (keyed : list (Z * string)) :
  NoDup folders -> with_keys folders = Ok keyed ->
  NoDup (pruned (Some limit) keyed)
  /\ (forall f, In f (pruned (Some limit) keyed) -> In f folders).
Proof.
  intros Hnd Hk. destruct (with_keys_spec folders keyed Hk) as [Hsnd _].
  assert (Hperm : Permutation (map snd (sort_by_key keyed)) folders).
  { rewrite <- Hsnd. apply Permutation_map, sort_by_key_perm. }
  rewrite pruned_firstn. split.
  - apply NoDup_firstn. apply (Permutation_NoDup (Permutation_sym Hperm)). exact Hnd.
  - intros f Hf. apply (Permutation_in _ Hperm). apply In_firstn in Hf. exact Hf.
Qed.

(** The call in the coordinating process returns unless the limit is
    exceeded and an entry has no key; it then raises [IndexError] right
    after the listing. *)
Lemma get_checkpoint_dir_cases (current_epoch : Z) (s : Trainer F) :
  let d := os_path_join (project_dir (project_configuration s)) "checkpoints" in
  let out := os_path_join d ("checkpoint_" ++ str_of_int (current_epoch - 1)) in
  let names := children d (fs s) in
  let listed :=
    with_fs (fs_makedirs d (fs s))
      (with_trace
         (trace s ++ [EvSetAutomaticCheckpointNaming false; EvMakedirs d; EvListdir d])
         (with_project_configuration
            (set_automatic_checkpoint_naming false (project_configuration s)) s)) in
  is_local_main_process s = true ->
  NoDup (fs s) ->
  if over_limit (total_limit (project_configuration s)) (List.length names)
     && existsb unkeyed names
  then get_checkpoint_dir current_epoch s = Failed IndexError listed
  else exists dels : list string,
         get_checkpoint_dir current_epoch s
         = Done out
             (with_fs (fs_makedirs out (remove_trees dels (fs_makedirs d (fs s))))
                (with_trace
                   (trace s
                    ++ [EvSetAutomaticCheckpointNaming false; EvMakedirs d; EvListdir d]
                    ++ map EvRmtree dels ++ [EvMakedirs out])
                   (with_project_configuration
                      (set_automatic_checkpoint_naming false (project_configuration s)) s)))
         /\ NoDup dels
         /\ (forall f, In f dels -> In f (child_paths d (fs s)))
         /\ match total_limit (project_configuration s) with
            | Some l =>
                if (Z.of_nat (List.length names) + 1 >? l)
                then exists keyed,
                       with_keys (child_paths d (fs s)) = Ok keyed
                       /\ dels = pruned (Some l) keyed
                else dels = []
            | None => dels = []
            end.
Proof.
  intros d out names listed Hmain Hnd.
  pose proof (checkpoints_dir_plain (project_dir (project_configuration s))) as Hd.
  fold d in Hd.
  assert (Hlen : List.length (child_paths d (fs s)) = List.length names).
  { symmetry. apply children_length. }
  pose proof (with_keys_children d names Hd (fun n H => children_names d n (fs s) H)) as Hkeys.
  unfold names in Hkeys at 2 3. rewrite (children_child_paths d (fs s) Hd) in Hkeys.
  unfold over_limit.
  destruct (total_limit (project_configuration s)) as [l |] eqn:Hlim.
  - destruct (Z.of_nat (List.length names) + 1 >? l) eqn:Hgt.
    + cbn [andb]. destruct (existsb unkeyed names).
      * rewrite (get_checkpoint_dir_listed current_epoch s Hmain). fold d. fold out.
        rewrite Hlim, Hlen, Hgt. cbn [when]. rewrite Hkeys. cbn [lift].
        reflexivity.
      * destruct Hkeys as (keyed & Hk).
        destruct (pruned_sound l (child_paths d (fs s)) keyed
                    ltac:(apply NoDup_filter; exact Hnd) Hk) as [Hpn Hps].
        exists (pruned (Some l) keyed).
        split; [| split; [exact Hpn | split; [exact Hps |]]].
        -- apply get_checkpoint_dir_run; [exact Hmain | | exact Hpn | exact Hps].
           fold d. rewrite Hlim, Hlen, Hgt. exists keyed. split; [exact Hk | reflexivity].
        -- exists keyed. split; [exact Hk | reflexivity].
    + cbn [andb]. exists []. split; [| split; [constructor | split; [intros f [] | reflexivity]]].
      apply get_checkpoint_dir_run; [exact Hmain | | constructor | intros f []].
      fold d. rewrite Hlim, Hlen, Hgt. reflexivity.
  - cbn [andb]. exists []. split; [| split; [constructor | split; [intros f [] | reflexivity]]].
    apply get_checkpoint_dir_run; [exact Hmain | | constructor | intros f []].
    rewrite Hlim. reflexivity.
Qed.

(** An entry of a directory is not above the directory. *)
Lemma child_not_above (d f : string) : is_child d f = true -> is_under f d = false.
Proof.
  intros H. apply is_child_spec in H as (n & Hn). apply child_name_spec in Hn as (-> & _ & _).
  unfold is_under. apply orb_false_iff. split.
  - apply String.eqb_neq. intros E.
    apply (f_equal String.length) in E. rewrite !string_length_app in E. cbn in E. lia.
  - destruct (strip_prefix ((d ++ "/" ++ n) ++ "/") d) as [r |] eqn:E; [| reflexivity].
    apply strip_prefix_some in E. apply (f_equal String.length) in E.
    rewrite !string_length_app in E. cbn in E. lia.
Qed.

Lemma remove_tree_keeps (f q : string) (fs : FS) :
  In q fs -> is_under f q = false -> In q (remove_tree f fs).
Proof.
  intros Hq Hu. unfold remove_tree. apply filter_In. split; [exact Hq |]. rewrite Hu. reflexivity.
Qed.

Lemma remove_trees_keeps (dels : list string) (q : string) : forall fs : FS,
  In q fs -> (forall f, In f dels -> is_under f q = false) -> In q (remove_trees dels fs).
Proof.
  unfold remove_trees.
  induction dels as [| f dels IH]; intros fs Hq Hu; cbn [fold_left]; [exact Hq |].
  apply IH.
  - apply remove_tree_keeps; [exact Hq | apply Hu; left; reflexivity].
  - intros g Hg. apply Hu. right. exact Hg.
Qed.

Lemma remove_trees_NoDup (dels : list string) : forall fs : FS,
  NoDup fs -> NoDup (remove_trees dels fs).
Proof.
  unfold remove_trees.
  induction dels as [| f dels IH]; intros fs Hnd; cbn [fold_left]; [exact Hnd |].
  apply IH. unfold remove_tree. apply NoDup_filter. exact Hnd.
Qed.

(** X7. When the call raises and what it then leaves.  The filesystem of
    this development holds directories only and the project directory is a
    string: so, for an accelerator with a project directory and a checkpoint
    root whose entries are all directories, in the coordinating process and
    on a listing without repeated paths, [get_checkpoint_dir] raises exactly
    when a limit is set, the [n] entries of the checkpoint root and the new
    folder exceed it, and an entry has no digit in its name; the exception
    is [IndexError], raised by the sort before anything is removed: only the
    root has been made. *)
Theorem get_checkpoint_dir_raises (current_epoch : Z) (s : Trainer F) :
  let d := os_path_join (project_dir (project_configuration s)) "checkpoints" in
  let names := children d (fs s) in
  let o := get_checkpoint_dir current_epoch s in
  is_local_main_process s = true ->
  NoDup (fs s) ->
  raised o
  = (if over_limit (total_limit (project_configuration s)) (List.length names)
        && existsb unkeyed names
     then Some IndexError else None)
  /\ (raised o <> None ->
      removed (trace (final_state o)) = removed (trace s)
      /\ fs (final_state o) = fs_makedirs d (fs s)).
Proof.
  intros d names o Hmain Hnd.
  pose proof (get_checkpoint_dir_cases current_epoch s Hmain Hnd) as H.
  cbv zeta in H. fold d in H. fold names in H. fold o in H.
  destruct (over_limit (total_limit (project_configuration s)) (List.length names)
            && existsb unkeyed names).
  - rewrite H. cbn [raised final_state]. split; [reflexivity |]. intros _.
    state_fields. split; [| reflexivity].
    rewrite removed_app. cbn. apply app_nil_r.
  - destruct H as (dels & -> & _). cbn [raised]. split; [reflexivity |].
    intros Hne. contradiction.
Qed.

(** X8. What the call leaves when it returns.  For an accelerator with a
    project directory and a checkpoint root whose entries are all
    directories, in the coordinating process and on a listing without
    repeated paths: unless the limit is exceeded while an entry has no digit
    in its name, [get_checkpoint_dir] returns
    [<project_dir>/checkpoints/checkpoint_<epoch - 1>]; the checkpoint root
    and the folder returned then exist, the folder is an entry of the root,
    the listing is still without repeated paths, and for an epoch [>= 1] the
    key of the folder is [epoch - 1]. *)
Theorem get_checkpoint_dir_returns (current_epoch : Z) (s : Trainer F) :
  let d := os_path_join (project_dir (project_configuration s)) "checkpoints" in
  let out := os_path_join d ("checkpoint_" ++ str_of_int (current_epoch - 1)) in
  let names := children d (fs s) in
  is_local_main_process s = true ->
  NoDup (fs s) ->
  over_limit (total_limit (project_configuration s)) (List.length names)
  && existsb unkeyed names = false ->
  exists s' : Trainer F,
    get_checkpoint_dir current_epoch s = Done out s'
    /\ fs_exists d (fs s') = true
    /\ fs_exists out (fs s') = true
    /\ In ("checkpoint_" ++ str_of_int (current_epoch - 1)) (children d (fs s'))
    /\ NoDup (fs s')
    /\ (1 <= current_epoch -> _inner out = Ok (current_epoch - 1)).
Proof.
  intros d out names Hmain Hnd Hok.
  pose proof (checkpoints_dir_plain (project_dir (project_configuration s))) as Hd.
  fold d in Hd.
  pose proof (get_checkpoint_dir_cases current_epoch s Hmain Hnd) as H.
  cbv zeta in H. fold d in H. fold names in H. fold out in H. rewrite Hok in H.
  destruct H as (dels & Hrun & Hdnd & Hsub & _).
  eexists. split; [exact Hrun |]. state_fields.
  assert (Hout : fs_exists out (fs_makedirs out (remove_trees dels (fs_makedirs d (fs s)))) = true)
    by apply makedirs_exists.
  split.
  { apply fs_exists_In. apply makedirs_keeps. apply remove_trees_keeps.
    - apply fs_exists_In. apply makedirs_exists.
    - intros f Hf. apply child_not_above. apply Hsub in Hf.
      apply filter_In in Hf as [_ Hf]. exact Hf. }
  split; [exact Hout |].
  split.
  { apply children_In. exists out. split; [apply fs_exists_In; exact Hout |].
    assert (Hs : no_slash ("checkpoint_" ++ str_of_int (current_epoch - 1)) = true).
    { rewrite no_slash_app, str_of_int_no_slash. reflexivity. }
    apply child_name_spec. split; [| split; [discriminate | exact Hs]].
    unfold out. apply join_child; [exact Hd | discriminate | exact Hs]. }
  split.
  { apply makedirs_NoDup, remove_trees_NoDup, makedirs_NoDup. exact Hnd. }
  intros He. apply checkpoint_key; [exact Hd | lia].
Qed.

End CheckpointRuns.

(** [get_checkpoint_dir_returns] with four checkpoints in place and a limit
    of two. *)
Lemma get_checkpoint_dir_returns_witness :
  exists s' : Trainer float,
    get_checkpoint_dir 5 (rotating (Some 2) four_checkpoints)
    = Done "out/checkpoints/checkpoint_4" s'
    /\ fs_exists "out/checkpoints" (fs s') = true
    /\ fs_exists "out/checkpoints/checkpoint_4" (fs s') = true
    /\ In "checkpoint_4" (children "out/checkpoints" (fs s'))
    /\ NoDup (fs s')
    /\ ((1 <= 5)%Z -> _inner "out/checkpoints/checkpoint_4" = Ok 4%Z).
Proof.
  assert (Hnd : NoDup (fs (rotating (Some 2) four_checkpoints))).
  { cbn. nodup_strings. }
  exact (get_checkpoint_dir_returns 5 (rotating (Some 2) four_checkpoints)
           eq_refl Hnd eq_refl).
Defined.

(** [get_checkpoint_dir_raises] on a root that holds [best] and
    [checkpoint_0], at the limit [1]. *)
Lemma get_checkpoint_dir_raises_witness :
  raised (get_checkpoint_dir 2 (rotating (Some 1) with_best)) = Some IndexError
  /\ (raised (get_checkpoint_dir 2 (rotating (Some 1) with_best)) <> None ->
      removed (trace (final_state (get_checkpoint_dir 2 (rotating (Some 1) with_best)))) = []
      /\ fs (final_state (get_checkpoint_dir 2 (rotating (Some 1) with_best))) = with_best).
Proof.
  assert (Hnd : NoDup (fs (rotating (Some 1) with_best))).
  { cbn. nodup_strings. }
  exact (get_checkpoint_dir_raises 2 (rotating (Some 1) with_best) eq_refl Hnd).
Defined.

(** ** get_checkpoint_dir: what it never removes *)

Lemma outside_not_under (d f p : string) :
  is_child d f = true -> strip_prefix (d ++ "/") p = None -> is_under f p = false.
Proof.
  intros Hf Hp. apply is_child_spec in Hf as (n & Hn).
  apply child_name_spec in Hn as (-> & _ & _).
  unfold is_under. apply orb_false_iff. split.
  - apply String.eqb_neq. intros E. subst p.
    rewrite <- string_app_assoc, strip_prefix_app in Hp. discriminate.
  - destruct (strip_prefix ((d ++ "/" ++ n) ++ "/") p) as [r |] eqn:E; [| reflexivity].
    apply strip_prefix_some in E. subst p.
    rewrite <- (string_app_assoc d "/" n), (string_app_assoc (d ++ "/") n "/"),
      (string_app_assoc (d ++ "/") (n ++ "/") r), strip_prefix_app in Hp.
    discriminate.
Qed.

Section CheckpointSafety.
Context {F : Type} {SF : Scalar F} {C : Collaborators F}.
Local Open Scope monad_scope.
Local Open Scope Z_scope.

Lemma final_state_bind {A B : Type} (m : M F A) (k : A -> M F B) (s : Trainer F) :
  final_state (bind m k s)
  = match m s with
    | Done a s' => final_state (k a s')
    | Failed _ s' => s'
    end.
Proof. unfold bind. destruct (m s); reflexivity. Qed.

(** The call outside the coordinating process. *)
Lemma get_checkpoint_dir_elsewhere (current_epoch : Z) (s : Trainer F) :
  let d := os_path_join (project_dir (project_configuration s)) "checkpoints" in
  let out := os_path_join d ("checkpoint_" ++ str_of_int (current_epoch - 1)) in
  is_local_main_process s = false ->
  get_checkpoint_dir current_epoch s
  = Done out
      (with_project_configuration
         (set_automatic_checkpoint_naming false (project_configuration s))
         (with_trace (trace s ++ [EvSetAutomaticCheckpointNaming false]) s)).
Proof.
  intros d out Hmain. unfold get_checkpoint_dir.
  rewrite bind_emit, bind_modify, bind_get.
  cbn [is_local_main_process project_configuration with_project_configuration with_trace
       project_dir total_limit set_automatic_checkpoint_naming].
  rewrite Hmain. reflexivity.
Qed.

(** A run of [rmtree] over entries of [d], completed or not, keeps what is
    not below [d]. *)
Lemma for_each_rmtree_outside (d p : string) (dels : list string) : forall s : Trainer F,
  (forall f, In f dels -> is_child d f = true) ->
  strip_prefix (d ++ "/") p = None ->
  In p (fs s) ->
  In p (fs (final_state (for_each rmtree dels s))).
Proof.
  induction dels as [| f dels IH]; intros s Hdels Hp Hin; [exact Hin |].
  cbn [for_each]. rewrite final_state_bind.
  unfold rmtree at 1. rewrite bind_emit, bind_get. state_fields.
  unfold fs_rmtree. destruct (fs_exists f (fs s)).
  - cbn [lift]. rewrite bind_ret. cbn [modify]. apply IH.
    + intros g Hg. apply Hdels. right. exact Hg.
    + exact Hp.
    + state_fields. apply filter_In. split; [exact Hin |].
      rewrite (outside_not_under d f p (Hdels f (or_introl eq_refl)) Hp). reflexivity.
  - cbn [lift bind raise]. state_fields. exact Hin.
Qed.

(** X9. Whatever it is called on, and whether it returns or raises,
    [get_checkpoint_dir] removes nothing but entries of the checkpoint
    root: a path that is not below [<project_dir>/checkpoints/], the root
    itself included, is still there after the call. *)
Theorem get_checkpoint_dir_keeps_outside (current_epoch : Z) (s : Trainer F) (p : string) :
  let d := os_path_join (project_dir (project_configuration s)) "checkpoints" in
  In p (fs s) ->
  strip_prefix (d ++ "/") p = None ->
  In p (fs (final_state (get_checkpoint_dir current_epoch s))).
Proof.
  intros d Hin Hp.
  pose proof (checkpoints_dir_plain (project_dir (project_configuration s))) as Hd.
  fold d in Hd.
  destruct (is_local_main_process s) eqn:Hmain.
  - rewrite (get_checkpoint_dir_listed current_epoch s Hmain). fold d.
    set (out := os_path_join d ("checkpoint_" ++ str_of_int (current_epoch - 1))).
    set (listed := with_fs _ _).
    assert (Hl : In p (fs listed)).
    { unfold listed. state_fields. apply makedirs_keeps. exact Hin. }
    assert (Htail : forall s1 : Trainer F,
              In p (fs s1) -> In p (fs (final_state ((makedirs out ;; ret out) s1)))).
    { intros s1 H1. cbn. apply makedirs_keeps. exact H1. }
    rewrite final_state_bind.
    destruct (total_limit (project_configuration s)) as [l |]; [| apply Htail; exact Hl].
    destruct (Z.of_nat (List.length (child_paths d (fs s))) + 1 >? l);
      [| apply Htail; exact Hl].
    cbn [when]. unfold bind at 1.
    destruct (with_keys (child_paths d (fs s))) as [keyed | e] eqn:Hk; cbn [lift ret raise];
      [| exact Hl].
    destruct (with_keys_spec _ _ Hk) as [Hsnd _].
    pose proof (for_each_rmtree_outside d p
                  (slice_to (map snd (sort_by_key keyed))
                     (Z.of_nat (List.length (map snd (sort_by_key keyed))) + 1 - l))
                  listed) as Hloop.
    destruct (for_each rmtree _ listed) as [[] s1 | e s1].
    + apply Htail. apply Hloop; [| exact Hp | exact Hl].
      intros f Hf.
      assert (Hf' : In f (map snd (sort_by_key keyed))).
      { unfold slice_to in Hf. destruct (_ <? 0); apply In_firstn in Hf; exact Hf. }
      apply (Permutation_in _ (Permutation_map snd (sort_by_key_perm keyed))) in Hf'.
      rewrite Hsnd in Hf'. apply filter_In in Hf' as [_ Hf']. exact Hf'.
    + apply Hloop; [| exact Hp | exact Hl].
      intros f Hf.
      assert (Hf' : In f (map snd (sort_by_key keyed))).
      { unfold slice_to in Hf. destruct (_ <? 0); apply In_firstn in Hf; exact Hf. }
      apply (Permutation_in _ (Permutation_map snd (sort_by_key_perm keyed))) in Hf'.
      rewrite Hsnd in Hf'. apply filter_In in Hf' as [_ Hf']. exact Hf'.
  - rewrite (get_checkpoint_dir_elsewhere current_epoch s Hmain). exact Hin.
Qed.

End CheckpointSafety.

(** ** train: a whole run *)

Section TrainRuns.
Context {F : Type} {SF : Scalar F} {C : Collaborators F}.
Local Open Scope monad_scope.
Local Open Scope Z_scope.

(** One batch with a scheduler: the state it leaves. *)
Lemma train_batch_state (i : Z) (b : Batch) (s : Trainer F) (sch : Scheduler) :
  lr_scheduler s = Some sch ->
  log_interval s <> 0 ->
  0 <= loss_count (train_loss_tracker s) ->
  exists t' : LossTracker F,
    update (train_loss_tracker s) (forward (training s) (model s) b) = Ok t'
    /\ loss_count t' = loss_count (train_loss_tracker s) + 1
    /\ train_batch i b s
       = Done tt
           (with_trace
              (trace s ++
               if (i mod log_interval s =? 0)%Z
               then [EvLog [("loss", loss t'); ("lr", get_lr (scheduler_step sch))]
                           (current_step s + 1)]
               else [])
              (with_current_step (current_step s + 1)
                 (with_train_loss_tracker t'
                    (with_lr_scheduler (Some (scheduler_step sch))
                       (with_model (optimize (model s) b) s))))).
Proof.
  intros Hsch HL Hc.
  rewrite (update_ok _ (forward (training s) (model s) b) Hc).
  eexists. split; [reflexivity |]. split; [reflexivity |].
  unfold train_batch. rewrite bind_get, bind_modify. state_fields. rewrite Hsch.
  rewrite bind_modify. state_fields. rewrite (update_ok _ _ Hc). cbn [lift].
  rewrite bind_ret, !bind_modify, bind_get. state_fields.
  destruct (Z.eqb_spec (log_interval s) 0) as [E | _]; [contradiction |].
  destruct (i mod log_interval s =? 0)%Z; cbn [when].
  - unfold log_metrics, accelerator_log, emit, modify. state_fields.
    f_equal.
  - unfold ret. f_equal. apply Trainer_ext; state_fields; try reflexivity.
    rewrite app_nil_r. reflexivity.
Qed.

(** The loop over the batches: the state it leaves and what it logs. *)
Lemma train_batches_state (bs : list Batch) : forall (i : Z) (s : Trainer F),
  bs = [] \/ (lr_scheduler s <> None /\ log_interval s <> 0) ->
  0 <= loss_count (train_loss_tracker s) ->
  exists (t' : LossTracker F) (evs : list (Event F)),
    updates (train_loss_tracker s) (batch_losses (training s) (model s) bs) = Ok t'
    /\ for_each_indexed train_batch i bs s
       = Done tt
           (with_trace (trace s ++ evs)
              (with_current_step (current_step s + Z.of_nat (List.length bs))
                 (with_train_loss_tracker t'
                    (with_lr_scheduler
                       (option_map (Nat.iter (List.length bs) scheduler_step) (lr_scheduler s))
                       (with_model (trained (model s) bs) s)))))
    /\ forallb is_step_log evs = true
    /\ map log_step evs
       = map (fun j => current_step s + (j - i) + 1)
             (filter (fun j => (j mod log_interval s =? 0)%Z)
                     (batch_indices i (List.length bs))).
Proof.
  induction bs as [| b bs IH]; intros i s Hok Hc.
  - exists (train_loss_tracker s), []. split; [reflexivity |].
    split; [| split; reflexivity].
    cbn [for_each_indexed List.length Z.of_nat Nat.iter nat_rect trained fold_left].
    unfold ret. f_equal. apply Trainer_ext; state_fields; try reflexivity.
    + destruct (lr_scheduler s); reflexivity.
    + lia.
    + rewrite app_nil_r. reflexivity.
  - destruct Hok as [Hnil | [Hsch HL]]; [discriminate |].
    destruct (lr_scheduler s) as [sch |] eqn:Esch; [| contradiction]. clear Hsch.
    destruct (train_batch_state i b s sch Esch HL Hc) as (t1 & Hu & Hc1 & Hrun).
    set (s1 := with_trace _ _) in Hrun.
    destruct (IH (i + 1) s1) as (t' & evs & Hus & Hruns & Hall & Hsteps).
    { right. unfold s1. state_fields. split; [discriminate | exact HL]. }
    { unfold s1. state_fields. lia. }
    revert Hus Hruns Hsteps. unfold s1. state_fields. intros Hus Hruns Hsteps.
    exists t'. eexists.
    split. { cbn [batch_losses updates]. rewrite Hu. exact Hus. }
    split.
    { cbn [for_each_indexed]. rewrite (bind_done _ _ _ _ _ Hrun). unfold s1. rewrite Hruns.
      f_equal. apply Trainer_ext; state_fields; try reflexivity.
      - cbn [option_map List.length]. rewrite Nat.iter_succ_r. reflexivity.
      - cbn [List.length]. lia.
      - rewrite <- app_assoc. reflexivity. }
    split.
    { rewrite forallb_app, Hall, andb_true_r.
      destruct (i mod log_interval s =? 0)%Z; reflexivity. }
    rewrite map_app, Hsteps. cbn [List.length batch_indices filter].
    destruct (i mod log_interval s =? 0)%Z; cbn [map app log_step].
    + f_equal; [lia |]. apply map_ext. intros j. lia.
    + apply map_ext. intros j. lia.
Qed.

(** An epoch up to its checkpoint: the state in which the checkpoint is
    made. *)
Lemma train_epoch_head (e : Z) (s : Trainer F) :
  let bs := train_dataloader s in
  let vs := validation_batches (validation_dataloader s) in
  bs = [] \/ (lr_scheduler s <> None /\ log_interval s <> 0) ->
  0 <= loss_count (train_loss_tracker s) ->
  0 <= loss_count (validation_loss_tracker s) ->
  exists (t' u' : LossTracker F) (steps : list (Event F)),
    updates (train_loss_tracker s) (batch_losses true (model s) bs) = Ok t'
    /\ updates (validation_loss_tracker s) (map (forward false (trained (model s) bs)) vs) = Ok u'
    /\ forallb is_step_log steps = true
    /\ map log_step steps
       = map (fun j => current_step s + j + 1)
             (logged_indices (log_interval s) (List.length bs))
    /\ train_epoch e s
       = when (save_on_epoch_end s)
           (when (is_local_main_process s)
              (save_dir <- get_checkpoint_dir e ;;
               emit (EvPrintDir save_dir) ;;
               emit (EvSaveModel save_dir) ;;
               emit (EvSaveTokenizer save_dir)) ;;
            emit EvWaitForEveryone)
           (with_trace
              (trace s ++ steps ++ [EvLog [("train/loss", loss t')] e]
               ++ if validates (validation_dataloader s)
                  then [EvPrintValidation e (loss u'); EvLog [("validation/loss", loss u')] e]
                  else [])
              (with_validation_loss_tracker
                 (if validates (validation_dataloader s)
                  then on_epoch_end true u' else validation_loss_tracker s)
                 (with_training (negb (validates (validation_dataloader s)))
                    (with_progress_epoch (progress_epoch s + 1)
                       (with_train_loss_tracker (on_epoch_end true t')
                          (with_current_step (current_step s + Z.of_nat (List.length bs))
                             (with_lr_scheduler
                                (option_map (Nat.iter (List.length bs) scheduler_step)
                                            (lr_scheduler s))
                                (with_model (trained (model s) bs) s)))))))).
Proof.
  intros bs vs Hok Hc Hv.
  destruct (train_batches_state bs 0 (with_training true s))
    as (t' & steps & Hu & Hrun & Hall & Hsteps).
  { exact Hok. }
  { exact Hc. }
  revert Hu Hrun Hsteps. state_fields. intros Hu Hrun Hsteps.
  destruct (updates_ok (map (forward false (trained (model s) bs)) vs)
              (validation_loss_tracker s) Hv) as (u' & Hu' & _).
  exists t', u', steps.
  split; [exact Hu |]. split; [exact Hu' |]. split; [exact Hall |].
  split. { rewrite Hsteps. unfold logged_indices. apply map_ext. intros j. lia. }
  unfold train_epoch. rewrite bind_modify, bind_get. state_fields. fold bs.
  rewrite (bind_done _ _ _ _ _ Hrun), bind_get.
  unfold accelerator_log at 1. rewrite bind_emit, !bind_modify, bind_get. state_fields.
  set (K := when (save_on_epoch_end s) _).
  assert (Htrain : add_prefix [("loss", loss t')] "train" = [("train/loss", loss t')])
    by reflexivity.
  rewrite Htrain.
  unfold vs in Hu'. unfold validates.
  destruct (validation_dataloader s) as [[| b vs0] |] eqn:Hval;
    cbn [validation_batches negb] in *.
  - rewrite bind_ret. apply (f_equal K).
    apply Trainer_ext; state_fields; try reflexivity.
    rewrite app_nil_r, <- app_assoc. reflexivity.
  - unfold evaluate. rewrite Hu'. cbn [lift]. rewrite bind_assoc, bind_ret.
    cbn [fst snd].
    assert (Hvl : add_prefix [("loss", loss u')] "validation" = [("validation/loss", loss u')])
      by reflexivity.
    rewrite Hvl. unfold accelerator_log.
    repeat (rewrite ?bind_assoc; rewrite bind_modify). cbv beta.
    state_fields. apply (f_equal K).
    apply Trainer_ext; state_fields; try reflexivity.
    rewrite <- !app_assoc. reflexivity.
  - rewrite bind_ret. apply (f_equal K).
    apply Trainer_ext; state_fields; try reflexivity.
    rewrite app_nil_r, <- app_assoc. reflexivity.
Qed.

(** *** Reading the segments of an epoch's trace *)

Lemma filter_none {A : Type} (p : A -> bool) (l : list A) :
  (forall x, In x l -> p x = false) -> filter p l = [].
Proof.
  induction l as [| x l IH]; intros H; [reflexivity |].
  cbn [filter]. rewrite (H x (or_introl eq_refl)). apply IH.
  intros y Hy. apply H. right. exact Hy.
Qed.

Lemma filter_all {A : Type} (p : A -> bool) (l : list A) :
  forallb p l = true -> filter p l = l.
Proof.
  induction l as [| x l IH]; intros H; [reflexivity |].
  cbn [forallb] in H. apply andb_true_iff in H as [Hx Hl].
  cbn [filter]. rewrite Hx, (IH Hl). reflexivity.
Qed.

(** The step-level records of an epoch are nothing else. *)
Lemma step_logs_only (steps : list (Event F)) :
  forallb is_step_log steps = true ->
  filter is_step_log steps = steps
  /\ filter is_train_loss_log steps = []
  /\ filter is_validation_loss_log steps = []
  /\ filter is_save steps = []
  /\ filter is_wait steps = []
  /\ filter is_end_training steps = []
  /\ removed steps = [].
Proof.
  intros H. split; [apply filter_all; exact H |].
  assert (Hin : forall ev, In ev steps -> is_step_log ev = true).
  { apply forallb_forall. exact H. }
  assert (Hshape : forall ev, In ev steps ->
            exists k1 v1 k2 v2 st, ev = EvLog [(k1, v1); (k2, v2)] st).
  { intros ev Hev. apply Hin in Hev.
    destruct ev as [[| [k1 v1] [| [k2 v2] [| ? ?]]] st | | | | | | | | | |];
      try discriminate.
    exists k1, v1, k2, v2, st. reflexivity. }
  repeat split.
  1-5: apply filter_none; intros ev Hev;
       destruct (Hshape ev Hev) as (k1 & v1 & k2 & v2 & st & ->); reflexivity.
  clear H Hin. induction steps as [| ev steps IH]; [reflexivity |].
  destruct (Hshape ev (or_introl eq_refl)) as (k1 & v1 & k2 & v2 & st & ->).
  cbn [removed rmtree_path]. apply IH. intros ev Hev. apply Hshape. right. exact Hev.
Qed.

(** The calls of [get_checkpoint_dir] log and save nothing. *)
Lemma checkpoint_events_only (d out : string) (dels : list string) :
  let evs : list (Event F) :=
    ([EvSetAutomaticCheckpointNaming false; EvMakedirs d; EvListdir d]
     ++ map EvRmtree dels ++ [EvMakedirs out])%list in
  filter is_step_log evs = []
  /\ filter is_train_loss_log evs = []
  /\ filter is_validation_loss_log evs = []
  /\ filter is_save evs = []
  /\ filter is_wait evs = []
  /\ filter is_end_training evs = []
  /\ removed evs = dels.
Proof.
  intros evs. unfold evs.
  assert (Hrm : forall p : Event F -> bool,
            (forall x, p (EvRmtree x) = false) -> filter p (map EvRmtree dels) = []).
  { intros p Hp. apply filter_none. intros ev Hev.
    apply in_map_iff in Hev as (x & <- & _). apply Hp. }
  repeat split.
  1-6: rewrite !filter_app, Hrm by reflexivity; reflexivity.
  rewrite !removed_app, removed_rmtrees. cbn. apply app_nil_r.
Qed.

(** *** The loop over the epochs, for a filesystem that the checkpoints keep
    in a known shape *)

Section EpochLoop.

(** The project directory and the limit of the run, and what is known of
    the filesystem and of the folders removed so far when the checkpoint of
    an epoch is made. *)
Variable pd : string.
Variable lim : option Z.
Variable Q : Z -> FS -> list string -> Prop.

Hypothesis checkpoint_step : forall (e : Z) (s : Trainer F),
  is_local_main_process s = true ->
  project_dir (project_configuration s) = pd ->
  total_limit (project_configuration s) = lim ->
  Q e (fs s) (removed (trace s)) ->
  exists dels : list string,
    get_checkpoint_dir e s
    = Done (os_path_join (os_path_join pd "checkpoints")
                         ("checkpoint_" ++ str_of_int (e - 1)))
        (with_fs (fs_makedirs (os_path_join (os_path_join pd "checkpoints")
                                            ("checkpoint_" ++ str_of_int (e - 1)))
                    (remove_trees dels
                       (fs_makedirs (os_path_join pd "checkpoints") (fs s))))
           (with_trace
              (trace s
               ++ [EvSetAutomaticCheckpointNaming false;
                   EvMakedirs (os_path_join pd "checkpoints");
                   EvListdir (os_path_join pd "checkpoints")]
               ++ map EvRmtree dels
               ++ [EvMakedirs (os_path_join (os_path_join pd "checkpoints")
                                            ("checkpoint_" ++ str_of_int (e - 1)))])
              (with_project_configuration
                 (set_automatic_checkpoint_naming false (project_configuration s)) s)))
    /\ Q (e + 1)
         (fs_makedirs (os_path_join (os_path_join pd "checkpoints")
                                    ("checkpoint_" ++ str_of_int (e - 1)))
            (remove_trees dels (fs_makedirs (os_path_join pd "checkpoints") (fs s))))
         (removed (trace s) ++ dels).

(** One epoch. *)
Lemma train_epoch_full (e : Z) (s : Trainer F) :
  let bs := train_dataloader s in
  let vs := validation_batches (validation_dataloader s) in
  let saves := save_on_epoch_end s && is_local_main_process s in
  let out := os_path_join (os_path_join pd "checkpoints")
                          ("checkpoint_" ++ str_of_int (e - 1)) in
  bs = [] \/ (lr_scheduler s <> None /\ log_interval s <> 0) ->
  0 <= loss_count (train_loss_tracker s) ->
  0 <= loss_count (validation_loss_tracker s) ->
  project_dir (project_configuration s) = pd ->
  total_limit (project_configuration s) = lim ->
  (saves = true -> Q e (fs s) (removed (trace s))) ->
  exists (s' : Trainer F) (evs : list (Event F)) (t' u' : LossTracker F),
    updates (train_loss_tracker s) (batch_losses true (model s) bs) = Ok t'
    /\ updates (validation_loss_tracker s) (map (forward false (trained (model s) bs)) vs) = Ok u'
    /\ train_epoch e s = Done tt s'
    /\ trace s' = (trace s ++ evs)%list
    /\ model s' = trained (model s) bs
    /\ lr_scheduler s'
       = option_map (Nat.iter (List.length bs) scheduler_step) (lr_scheduler s)
    /\ train_loss_tracker s' = on_epoch_end true t'
    /\ validation_loss_tracker s'
       = (if validates (validation_dataloader s)
          then on_epoch_end true u' else validation_loss_tracker s)
    /\ current_step s' = current_step s + Z.of_nat (List.length bs)
    /\ progress_epoch s' = progress_epoch s + 1
    /\ training s' = negb (validates (validation_dataloader s))
    /\ same_setup s s'
    /\ project_dir (project_configuration s') = pd
    /\ total_limit (project_configuration s') = lim
    /\ (saves = true -> Q (e + 1) (fs s') (removed (trace s')))
    /\ (saves = false -> fs s' = fs s /\ removed evs = []
                         /\ project_configuration s' = project_configuration s)
    /\ map log_step (filter is_step_log evs)
       = map (fun j => current_step s + j + 1)
             (logged_indices (log_interval s) (List.length bs))
    /\ filter is_train_loss_log evs = [EvLog [("train/loss", loss t')] e]
    /\ filter is_validation_loss_log evs
       = (if validates (validation_dataloader s)
          then [EvLog [("validation/loss", loss u')] e] else [])
    /\ filter is_save evs
       = (if saves then [EvSaveModel out; EvSaveTokenizer out] else [])
    /\ filter is_wait evs = (if save_on_epoch_end s then [EvWaitForEveryone] else [])
    /\ filter is_end_training evs = [].
Proof.
  intros bs vs saves out Hok Hc Hv Hpd Hlim HQ.
  destruct (train_epoch_head e s Hok Hc Hv) as (t' & u' & steps & Hu & Hu' & Hall & Hsteps & Hrun).
  fold bs in Hu, Hu', Hsteps, Hrun. fold vs in Hu'.
  destruct (step_logs_only steps Hall) as (S1 & S2 & S3 & S4 & S5 & S6 & S7).
  set (head := (steps ++ [EvLog [("train/loss", loss t')] e]
                ++ if validates (validation_dataloader s)
                   then [EvPrintValidation e (loss u'); EvLog [("validation/loss", loss u')] e]
                   else [])%list) in *.
  set (s2 := with_trace (trace s ++ head) _) in Hrun.
  assert (Hhead : filter is_step_log head = steps
                  /\ filter is_train_loss_log head = [EvLog [("train/loss", loss t')] e]
                  /\ filter is_validation_loss_log head
                     = (if validates (validation_dataloader s)
                        then [EvLog [("validation/loss", loss u')] e] else [])
                  /\ filter is_save head = []
                  /\ filter is_wait head = []
                  /\ filter is_end_training head = []
                  /\ removed head = []).
  { unfold head. rewrite !filter_app, !removed_app, S1, S2, S3, S4, S5, S6, S7.
    destruct (validates (validation_dataloader s)); repeat split;
      first [reflexivity | exact (app_nil_r steps)]. }
  destruct Hhead as (H1 & H2 & H3 & H4 & H5 & H6 & H7).
  unfold saves in *. clear saves.
  destruct (save_on_epoch_end s) eqn:Hsave; cbn [andb] in *.
  - destruct (is_local_main_process s) eqn:Hmain.
    + (* the coordinating process saves *)
      destruct (checkpoint_step e s2) as (dels & Hck & HQ').
      { unfold s2. state_fields. exact Hmain. }
      { unfold s2. state_fields. exact Hpd. }
      { unfold s2. state_fields. exact Hlim. }
      { unfold s2. state_fields. rewrite removed_app, H7, app_nil_r. apply HQ. reflexivity. }
      fold out in Hck, HQ'.
      destruct (checkpoint_events_only (os_path_join pd "checkpoints") out dels)
        as (K1 & K2 & K3 & K4 & K5 & K6 & K7).
      set (ck := ([EvSetAutomaticCheckpointNaming false;
                   EvMakedirs (os_path_join pd "checkpoints");
                   EvListdir (os_path_join pd "checkpoints")]
                  ++ map EvRmtree dels ++ [EvMakedirs out])%list) in *.
      set (s3 := with_fs _ _) in Hck.
      exists (with_trace (trace s3 ++ [EvPrintDir out; EvSaveModel out; EvSaveTokenizer out;
                                       EvWaitForEveryone]) s3),
        (head ++ ck ++ [EvPrintDir out; EvSaveModel out; EvSaveTokenizer out;
                        EvWaitForEveryone])%list, t', u'.
      split; [exact Hu |]. split; [exact Hu' |].
      split.
      { rewrite Hrun. cbn [when]. rewrite !bind_assoc, (bind_done _ _ _ _ _ Hck). cbv beta.
        repeat (rewrite ?bind_assoc; rewrite bind_emit).
        unfold emit, modify. f_equal.
        apply Trainer_ext; state_fields; try reflexivity.
        rewrite <- !app_assoc. reflexivity. }
      unfold s3, s2. state_fields.
      split. { rewrite <- !app_assoc. reflexivity. }
      repeat (split; [reflexivity |]).
      split. { unfold same_setup. state_fields. repeat split. }
      split; [exact Hpd |]. split; [exact Hlim |].
      split.
      { intros _. revert HQ'. unfold s2. state_fields.
        rewrite !removed_app, H7, K7. cbn [removed rmtree_path].
        rewrite !app_nil_r. trivial. }
      split; [discriminate |].
      rewrite !filter_app, H1, H2, H3, H4, H5, H6, K1, K2, K3, K4, K5, K6.
      cbn [filter is_step_log is_train_loss_log is_validation_loss_log is_save is_wait
           is_end_training app].
      rewrite ?app_nil_r, Hsteps. repeat split; reflexivity.
    + (* another process only waits *)
      exists (with_trace (trace s2 ++ [EvWaitForEveryone]) s2),
        (head ++ [EvWaitForEveryone])%list, t', u'.
      split; [exact Hu |]. split; [exact Hu' |].
      split. { rewrite Hrun. reflexivity. }
      unfold s2. state_fields.
      split. { rewrite <- !app_assoc. reflexivity. }
      repeat (split; [reflexivity |]).
      split. { unfold same_setup. state_fields. repeat split. }
      split; [exact Hpd |]. split; [exact Hlim |].
      split; [discriminate |].
      split.
      { intros _. split; [reflexivity |]. split; [| reflexivity].
        rewrite removed_app, H7. reflexivity. }
      rewrite !filter_app, H1, H2, H3, H4, H5, H6.
      cbn [filter is_step_log is_train_loss_log is_validation_loss_log is_save is_wait
           is_end_training app].
      rewrite ?app_nil_r, Hsteps. repeat split; reflexivity.
  - (* no checkpoint *)
    exists s2, head, t', u'.
    split; [exact Hu |]. split; [exact Hu' |].
    split. { rewrite Hrun. reflexivity. }
    unfold s2. state_fields.
    repeat (split; [reflexivity |]).
    split. { unfold same_setup. state_fields. repeat split. }
    split; [exact Hpd |]. split; [exact Hlim |].
    split; [discriminate |].
    split. { intros _. split; [reflexivity |]. split; [exact H7 | reflexivity]. }
    rewrite H1, H2, H3, H4, H5, H6, Hsteps. repeat split; reflexivity.
Qed.

(** The epochs [e0], [e0 + 1], ..., [n] of them. *)
Lemma train_epochs_full (n : nat) : forall (e0 : Z) (s : Trainer F),
  let bs := train_dataloader s in
  let vs := validation_batches (validation_dataloader s) in
  let saves := save_on_epoch_end s && is_local_main_process s in
  bs = [] \/ (lr_scheduler s <> None /\ log_interval s <> 0) ->
  0 <= loss_count (train_loss_tracker s) ->
  0 <= loss_count (validation_loss_tracker s) ->
  project_dir (project_configuration s) = pd ->
  total_limit (project_configuration s) = lim ->
  (saves = true -> Q e0 (fs s) (removed (trace s))) ->
  exists (s' : Trainer F) (evs : list (Event F)),
    for_each train_epoch (batch_indices e0 n) s = Done tt s'
    /\ trace s' = (trace s ++ evs)%list
    /\ model s' = Nat.iter n (fun m => trained m bs) (model s)
    /\ lr_scheduler s'
       = option_map (Nat.iter (n * List.length bs) scheduler_step) (lr_scheduler s)
    /\ current_step s' = current_step s + Z.of_nat n * Z.of_nat (List.length bs)
    /\ progress_epoch s' = progress_epoch s + Z.of_nat n
    /\ same_setup s s'
    /\ project_dir (project_configuration s') = pd
    /\ total_limit (project_configuration s') = lim
    /\ 0 <= loss_count (train_loss_tracker s')
    /\ 0 <= loss_count (validation_loss_tracker s')
    /\ ndigits (train_loss_tracker s') = ndigits (train_loss_tracker s)
    /\ ndigits (validation_loss_tracker s') = ndigits (validation_loss_tracker s)
    (* the training losses *)
    /\ history (train_loss_tracker s')
       = (history (train_loss_tracker s)
          ++ epoch_losses n (train_loss_tracker s) (model s) bs)%list
    /\ List.length (epoch_losses n (train_loss_tracker s) (model s) bs) = n
    /\ flat_map log_value (filter is_train_loss_log evs)
       = epoch_losses n (train_loss_tracker s) (model s) bs
    /\ map log_step (filter is_train_loss_log evs) = batch_indices e0 n
    (* the validation losses *)
    /\ (if validates (validation_dataloader s)
        then history (validation_loss_tracker s')
             = (history (validation_loss_tracker s)
                ++ validation_losses n (validation_loss_tracker s) (model s) bs vs)%list
             /\ List.length (validation_losses n (validation_loss_tracker s) (model s) bs vs) = n
             /\ flat_map log_value (filter is_validation_loss_log evs)
                = validation_losses n (validation_loss_tracker s) (model s) bs vs
             /\ map log_step (filter is_validation_loss_log evs) = batch_indices e0 n
        else validation_loss_tracker s' = validation_loss_tracker s
             /\ filter is_validation_loss_log evs = [])
    (* the other records *)
    /\ List.length (filter is_step_log evs)
       = (n * List.length (logged_indices (log_interval s) (List.length bs)))%nat
    /\ filter is_save evs
       = (if saves
          then flat_map
                 (fun e => [EvSaveModel (os_path_join (os_path_join pd "checkpoints")
                                           ("checkpoint_" ++ str_of_int (e - 1)));
                            EvSaveTokenizer (os_path_join (os_path_join pd "checkpoints")
                                               ("checkpoint_" ++ str_of_int (e - 1)))])
                 (batch_indices e0 n)
          else [])
    /\ List.length (filter is_wait evs) = (if save_on_epoch_end s then n else 0%nat)
    /\ filter is_end_training evs = []
    (* the filesystem *)
    /\ (saves = true -> Q (e0 + Z.of_nat n) (fs s') (removed (trace s')))
    /\ (saves = false -> fs s' = fs s /\ removed evs = []
                         /\ project_configuration s' = project_configuration s).
Proof.
  induction n as [| n IH]; intros e0 s bs vs saves Hok Hc Hv Hpd Hlim HQ.
  - exists s, []. cbn [batch_indices for_each epoch_losses validation_losses Nat.iter nat_rect
                        filter flat_map map List.length Nat.mul Z.of_nat].
    rewrite !app_nil_r, !Z.add_0_r.
    split; [reflexivity |]. split; [reflexivity |]. split; [reflexivity |].
    split. { destruct (lr_scheduler s); reflexivity. }
    split; [lia |]. split; [lia |]. split; [apply same_setup_refl |].
    split; [exact Hpd |]. split; [exact Hlim |]. split; [exact Hc |]. split; [exact Hv |].
    repeat (split; [reflexivity |]).
    split. { destruct (validates (validation_dataloader s)); repeat split; reflexivity. }
    split; [reflexivity |].
    split. { destruct saves; reflexivity. }
    split. { destruct (save_on_epoch_end s); reflexivity. }
    split; [reflexivity |].
    split; [exact HQ |]. intros _. repeat split; reflexivity.
  - destruct (train_epoch_full e0 s Hok Hc Hv Hpd Hlim HQ)
      as (s1 & evs1 & t' & u' & Hu & Hu' & Hrun1 & Htr1 & Hm1 & Hsch1 & Ht1 & Hvt1 & Hcs1
          & Hpe1 & _ & Hset1 & Hpd1 & Hlim1 & HQ1 & Hfs1 & L1 & L2 & L3 & L4 & L5 & L6).
    fold bs in Hu, Hu', Hm1, Hsch1, Hcs1, L1. fold vs in Hu'. fold saves in HQ1, Hfs1, L4.
    pose proof Hset1 as (E1 & E2 & E3 & E4 & E5 & E6).
    destruct (updates_ok (batch_losses true (model s) bs) (train_loss_tracker s) Hc)
      as (t'' & Hu2 & _ & Hnd & Hh). rewrite Hu in Hu2. injection Hu2 as <-.
    destruct (updates_ok (map (forward false (trained (model s) bs)) vs)
                (validation_loss_tracker s) Hv)
      as (u'' & Hu2 & _ & Hvnd & Hvh). rewrite Hu' in Hu2. injection Hu2 as <-.
    assert (Hc1 : 0 <= loss_count (train_loss_tracker s1)) by (rewrite Ht1; cbn; lia).
    assert (Hv1 : 0 <= loss_count (validation_loss_tracker s1)).
    { rewrite Hvt1. destruct (validates (validation_dataloader s)); [cbn; lia | exact Hv]. }
    assert (Hok1 : train_dataloader s1 = []
                   \/ (lr_scheduler s1 <> None /\ log_interval s1 <> 0)).
    { rewrite E4, E2, Hsch1. destruct Hok as [Hnil | [Hs HL]]; [left; exact Hnil | right].
      split; [| exact HL]. destruct (lr_scheduler s); [discriminate | contradiction]. }
    assert (Hsaves1 : save_on_epoch_end s1 && is_local_main_process s1 = saves).
    { rewrite E3, E6. reflexivity. }
    destruct (IH (e0 + 1) s1 Hok1 Hc1 Hv1 Hpd1 Hlim1)
      as (s' & evs & Hrun & Htr & Hm & Hsch & Hcs & Hpe & Hset & Hpd' & Hlim' & Hc' & Hv'
          & Hnd' & Hvnd' & Hhist & Hlen & Hvals & Hstepsl & Hval & Hnsteps & Hsv & Hw & Hend
          & HQ' & Hfs').
    { rewrite Hsaves1. exact HQ1. }
    rewrite E4, E5, E2, E3, Hsaves1 in *. fold bs vs in Hm, Hsch, Hcs, Hhist, Hlen, Hvals, Hval, Hnsteps.
    exists s', (evs1 ++ evs)%list.
    cbn [batch_indices for_each].
    split. { rewrite (bind_done _ _ _ _ _ Hrun1). exact Hrun. }
    split. { rewrite Htr, Htr1, <- app_assoc. reflexivity. }
    split. { rewrite Hm, Hm1, Nat.iter_succ_r. reflexivity. }
    split.
    { rewrite Hsch, Hsch1. destruct (lr_scheduler s) as [sch |]; [| reflexivity].
      cbn [option_map]. f_equal.
      replace (S n * List.length bs)%nat with (n * List.length bs + List.length bs)%nat by lia.
      rewrite Nat.iter_add. reflexivity. }
    split; [lia |]. split; [lia |].
    split. { apply (same_setup_trans s s1 s'); assumption. }
    split; [exact Hpd' |]. split; [exact Hlim' |]. split; [exact Hc' |]. split; [exact Hv' |].
    split. { rewrite Hnd', Ht1. cbn. exact Hnd. }
    split.
    { rewrite Hvnd', Hvt1. destruct (validates (validation_dataloader s)); [cbn; exact Hvnd | reflexivity]. }
    assert (HEL : epoch_losses (S n) (train_loss_tracker s) (model s) bs
                  = loss t' :: epoch_losses n (train_loss_tracker s1) (model s1) bs).
    { cbn [epoch_losses]. rewrite Hu, Ht1, Hm1. reflexivity. }
    rewrite HEL, !filter_app, !flat_map_app, !map_app, L2, L4, L6, Hend, !length_app.
    split.
    { rewrite Hhist, Ht1. cbn [on_epoch_end reset history]. rewrite Hh, <- app_assoc.
      reflexivity. }
    split. { cbn [List.length]. rewrite Hlen. reflexivity. }
    split. { cbn [flat_map log_value app]. rewrite Hvals. reflexivity. }
    split. { cbn [map log_step app]. rewrite Hstepsl. reflexivity. }
    split.
    { rewrite L3. revert Hval. rewrite Hvt1.
      destruct (validates (validation_dataloader s)) eqn:Hvd.
      - intros (A1 & A2 & A3 & A4).
        assert (HVL : validation_losses (S n) (validation_loss_tracker s) (model s) bs vs
                      = loss u' :: validation_losses n (on_epoch_end true u') (model s1) bs vs).
        { cbn [validation_losses]. unfold evaluate. rewrite Hu', Hm1. reflexivity. }
        rewrite HVL. cbn [flat_map log_value app map log_step List.length].
        rewrite A1, A2, A3, A4. cbn [on_epoch_end reset history].
        rewrite Hvh, <- app_assoc. repeat split; reflexivity.
      - intros (A1 & A2). rewrite A1, A2. split; reflexivity. }
    split.
    { rewrite Hnsteps, <- (length_map log_step (filter is_step_log evs1)), L1, length_map.
      cbn [Nat.mul]. reflexivity. }
    split. { rewrite Hsv. destruct saves; reflexivity. }
    split. { rewrite L5, Hw. destruct (save_on_epoch_end s); reflexivity. }
    split; [reflexivity |].
    split.
    { intros Hs. replace (e0 + Z.of_nat (S n)) with (e0 + 1 + Z.of_nat n) by lia.
      apply HQ'. exact Hs. }
    intros Hs. destruct (Hfs1 Hs) as (B1 & B2 & B3). destruct (Hfs' Hs) as (B4 & B5 & B6).
    rewrite removed_app, B2, B5, B4, B1, B6, B3. repeat split; reflexivity.
Qed.

End EpochLoop.

End TrainRuns.

(** ** The folders of a run, in order *)

Section Numbered.
Local Open Scope Z_scope.

Lemma batch_indices_app (n m : nat) : forall i : Z,
  batch_indices i (n + m) = (batch_indices i n ++ batch_indices (i + Z.of_nat n) m)%list.
Proof.
  induction n as [| n IH]; intros i.
  - cbn [Nat.add batch_indices app Z.of_nat]. rewrite Z.add_0_r. reflexivity.
  - cbn [Nat.add batch_indices app]. rewrite IH.
    replace (i + Z.of_nat (S n)) with (i + 1 + Z.of_nat n) by lia. reflexivity.
Qed.

Lemma batch_indices_In (n : nat) : forall i j : Z,
  In j (batch_indices i n) <-> i <= j < i + Z.of_nat n.
Proof.
  induction n as [| n IH]; intros i j; cbn [batch_indices In].
  - lia.
  - rewrite IH. lia.
Qed.

Lemma batch_indices_seq (n : nat) : forall a : nat,
  batch_indices (Z.of_nat a) n = map Z.of_nat (seq a n).
Proof.
  induction n as [| n IH]; intros a; cbn [batch_indices seq map]; [reflexivity |].
  rewrite <- IH. replace (Z.of_nat (S a)) with (Z.of_nat a + 1) by lia. reflexivity.
Qed.

Lemma range_from_1_indices (n : Z) : range_from_1 n = batch_indices 1 (Z.to_nat n).
Proof. unfold range_from_1. symmetry. apply (batch_indices_seq (Z.to_nat n) 1). Qed.

Lemma firstn_batch_indices (r n : nat) : forall i : Z,
  firstn r (batch_indices i n) = batch_indices i (Nat.min r n).
Proof.
  revert n. induction r as [| r IH]; intros n i; [reflexivity |].
  destruct n as [| n]; [reflexivity |].
  cbn [batch_indices firstn Nat.min]. rewrite IH. reflexivity.
Qed.

Lemma skipn_batch_indices (r n : nat) : forall i : Z,
  skipn r (batch_indices i n) = batch_indices (i + Z.of_nat (Nat.min r n)) (n - r).
Proof.
  revert n. induction r as [| r IH]; intros n i.
  - cbn [skipn Nat.min Z.of_nat]. rewrite Z.add_0_r, Nat.sub_0_r. reflexivity.
  - destruct n as [| n]; [reflexivity |].
    cbn [batch_indices skipn Nat.min Nat.sub]. rewrite IH.
    replace (i + Z.of_nat (S (Nat.min r n))) with (i + 1 + Z.of_nat (Nat.min r n)) by lia.
    reflexivity.
Qed.

(** A list already in the order of its keys is left as it is. *)
Lemma sort_by_key_sorted_id (l : list (Z * string)) :
  StronglySorted key_le l -> sort_by_key l = l.
Proof.
  induction 1 as [| x l Hl IH Hx]; [reflexivity |].
  change (sort_by_key (x :: l)) with (insert_by_key x (sort_by_key l)). rewrite IH.
  destruct l as [| y ys]; [reflexivity |].
  cbn [insert_by_key]. inversion Hx as [| ? ? Hxy _]; subst.
  unfold key_le in Hxy. destruct (Z.leb_spec (fst x) (fst y)); [reflexivity | lia].
Qed.

Lemma numbered_sorted (f : Z -> string) (n : nat) : forall i : Z,
  StronglySorted key_le (map (fun k => (k, f k)) (batch_indices i n)).
Proof.
  induction n as [| n IH]; intros i; cbn [batch_indices map]; constructor; [apply IH |].
  apply Forall_forall. intros [k p] Hin. apply in_map_iff in Hin as (j & E & Hj).
  injection E as <- _. apply batch_indices_In in Hj. unfold key_le. cbn. lia.
Qed.

(** The folders [checkpoint_k] of a root all have their number as key. *)
Lemma with_keys_numbered (d : string) (ks : list Z) :
  plain_dir d -> (forall k, In k ks -> 0 <= k) ->
  with_keys (map (fun k => os_path_join d ("checkpoint_" ++ str_of_int k)) ks)
  = Ok (map (fun k => (k, os_path_join d ("checkpoint_" ++ str_of_int k))) ks).
Proof.
  intros Hd. induction ks as [| k ks IH]; intros Hks; [reflexivity |].
  cbn [map with_keys]. rewrite (checkpoint_key d k Hd (Hks k (or_introl eq_refl))).
  rewrite IH; [reflexivity |]. intros j Hj. apply Hks. right. exact Hj.
Qed.

Lemma checkpoint_path_inj (d : string) (j k : Z) :
  plain_dir d -> 0 <= j -> 0 <= k ->
  os_path_join d ("checkpoint_" ++ str_of_int j) = os_path_join d ("checkpoint_" ++ str_of_int k) ->
  j = k.
Proof.
  intros Hd Hj Hk E.
  pose proof (checkpoint_key d j Hd Hj) as Kj. pose proof (checkpoint_key d k Hd Hk) as Kk.
  rewrite E in Kj. congruence.
Qed.

Lemma filter_out_absent (f : string) (l : list string) :
  ~ In f l -> filter (fun q => negb (String.eqb q f)) l = l.
Proof.
  intros H. apply filter_all. apply forallb_forall. intros q Hq.
  destruct (String.eqb_spec q f) as [-> | _]; [contradiction | reflexivity].
Qed.

(** Removing the first entries of a directory, in listing order, leaves the
    rest in that order. *)
Lemma child_paths_remove_first (d : string) (r : nat) : forall (fs : FS),
  NoDup (child_paths d fs) ->
  child_paths d (remove_trees (firstn r (child_paths d fs)) fs) = skipn r (child_paths d fs).
Proof.
  induction r as [| r IH]; intros fs Hnd; [reflexivity |].
  destruct (child_paths d fs) as [| f cp] eqn:Ecp; [cbn; exact Ecp |].
  cbn [firstn skipn]. unfold remove_trees. cbn [fold_left]. fold (remove_trees (firstn r cp) (remove_tree f fs)).
  assert (Hf : is_child d f = true).
  { assert (Hin : In f (child_paths d fs)) by (rewrite Ecp; left; reflexivity).
    apply filter_In in Hin as [_ Hin]. exact Hin. }
  inversion Hnd as [| ? ? Hnotin Hnd']; subst.
  assert (Ecp' : child_paths d (remove_tree f fs) = cp).
  { rewrite (child_paths_remove_tree d f fs Hf), Ecp. cbn [filter].
    rewrite String.eqb_refl. cbn [negb]. apply filter_out_absent. exact Hnotin. }
  rewrite <- Ecp' at 1. rewrite IH; [rewrite Ecp'; reflexivity |].
  rewrite Ecp'. exact Hnd'.
Qed.

End Numbered.

(** ** The checkpoints of a whole run *)

Lemma remove_trees_subset (dels : list string) (q : string) : forall fs : FS,
  In q (remove_trees dels fs) -> In q fs.
Proof.
  unfold remove_trees.
  induction dels as [| f dels IH]; intros fs H; cbn [fold_left] in H; [exact H |].
  apply IH in H. unfold remove_tree in H. apply filter_In in H as [H _]. exact H.
Qed.

Lemma child_paths_makedirs_new (d p : string) (fs : FS) :
  is_child d p = true -> ~ In p fs ->
  child_paths d (fs_makedirs p fs) = (child_paths d fs ++ [p])%list.
Proof.
  intros Hc Hn. unfold fs_makedirs.
  destruct (fs_exists p fs) eqn:E; [apply fs_exists_In in E; contradiction |].
  unfold child_paths. rewrite filter_app. cbn [filter]. rewrite Hc. reflexivity.
Qed.

Section Retention.
Context {F : Type} {SF : Scalar F} {C : Collaborators F}.
Local Open Scope Z_scope.

(** One checkpoint of such a run. *)
Lemma checkpoint_step_numbered (pd : string) (lim : option Z) (before : list string)
    (e : Z) (s : Trainer F) :
  is_local_main_process s = true ->
  project_dir (project_configuration s) = pd ->
  total_limit (project_configuration s) = lim ->
  numbered_root pd lim before e (fs s) (removed (trace s)) ->
  exists dels : list string,
    get_checkpoint_dir e s
    = Done (os_path_join (os_path_join pd "checkpoints")
                         ("checkpoint_" ++ str_of_int (e - 1)))
        (with_fs (fs_makedirs (os_path_join (os_path_join pd "checkpoints")
                                            ("checkpoint_" ++ str_of_int (e - 1)))
                    (remove_trees dels
                       (fs_makedirs (os_path_join pd "checkpoints") (fs s))))
           (with_trace
              (trace s
               ++ [EvSetAutomaticCheckpointNaming false;
                   EvMakedirs (os_path_join pd "checkpoints");
                   EvListdir (os_path_join pd "checkpoints")]
               ++ map EvRmtree dels
               ++ [EvMakedirs (os_path_join (os_path_join pd "checkpoints")
                                            ("checkpoint_" ++ str_of_int (e - 1)))])
              (with_project_configuration
                 (set_automatic_checkpoint_naming false (project_configuration s)) s)))
    /\ numbered_root pd lim before (e + 1)
         (fs_makedirs (os_path_join (os_path_join pd "checkpoints")
                                    ("checkpoint_" ++ str_of_int (e - 1)))
            (remove_trees dels (fs_makedirs (os_path_join pd "checkpoints") (fs s))))
         (removed (trace s) ++ dels).
Proof.
  intros Hmain Hpd Hlim (He & Hnd & Hcp & Hrem). subst pd.
  set (pd := project_dir (project_configuration s)) in *.
  set (d := os_path_join pd "checkpoints") in *.
  pose proof (checkpoints_dir_plain pd) as Hd. fold d in Hd.
  set (m := e - 1) in *.
  set (a := first_kept lim m) in *.
  assert (Ha : 0 <= a <= m).
  { unfold a, first_kept. destruct lim; lia. }
  set (n := Z.to_nat (m - a)) in *.
  set (out := os_path_join d ("checkpoint_" ++ str_of_int m)).
  assert (Hout : out = checkpoint_path pd m) by reflexivity.
  set (r := match lim with
            | None => 0%nat
            | Some l => if Z.of_nat n + 1 >? l
                        then Nat.min (Z.to_nat (Z.of_nat n + 1 - l)) n else 0%nat
            end).
  set (dels := map (checkpoint_path pd) (batch_indices a r)).
  assert (Hr : (r <= n)%nat).
  { unfold r. destruct lim as [l |]; [| lia]. destruct (Z.of_nat n + 1 >? l); lia. }
  assert (Hfirst : firstn r (child_paths d (fs s)) = dels).
  { rewrite Hcp, firstn_map, firstn_batch_indices. unfold dels.
    replace (Nat.min r n) with r by lia. reflexivity. }
  assert (Hcnd : NoDup (child_paths d (fs s))) by (apply NoDup_filter; exact Hnd).
  assert (Hdnd : NoDup dels).
  { rewrite <- Hfirst. apply NoDup_firstn. exact Hcnd. }
  assert (Hdsub : forall f, In f dels -> In f (child_paths d (fs s))).
  { intros f Hf. rewrite <- Hfirst in Hf. apply In_firstn in Hf. exact Hf. }
  assert (Hnext : first_kept lim (m + 1) = a + Z.of_nat r).
  { unfold a, r, first_kept, n. destruct lim as [l |]; [| reflexivity].
    fold a. fold n.
    assert (En : Z.of_nat n = m - Z.max 0 (m - Z.max 1 l)).
    { unfold n, a, first_kept. lia. }
    destruct (Z.gtb_spec (Z.of_nat n + 1) l); lia. }
  exists dels. split.
  - apply get_checkpoint_dir_run.
    + exact Hmain.
    + rewrite Hlim. fold pd. fold d. rewrite Hcp, length_map, batch_indices_length.
      destruct lim as [l |]; [| reflexivity].
      destruct (Z.of_nat n + 1 >? l) eqn:Hgt; [| reflexivity].
      exists (map (fun k => (k, checkpoint_path pd k)) (batch_indices a n)).
      split.
      * apply (with_keys_numbered d (batch_indices a n) Hd).
        intros k Hk. apply batch_indices_In in Hk. lia.
      * rewrite pruned_firstn, length_map, batch_indices_length.
        rewrite (sort_by_key_sorted_id _ (numbered_sorted (checkpoint_path pd) n a)).
        rewrite map_map. cbn [snd]. rewrite firstn_map, firstn_batch_indices.
        reflexivity.
    + exact Hdnd.
    + exact Hdsub.
  - unfold numbered_root. fold d.
    replace (e + 1 - 1) with (m + 1) by (unfold m; lia). rewrite Hnext.
    set (fs1 := fs_makedirs d (fs s)).
    assert (Hnd1 : NoDup fs1) by (apply makedirs_NoDup; exact Hnd).
    assert (Hcp1 : child_paths d fs1 = child_paths d (fs s)) by apply child_paths_makedirs_self.
    assert (Hcp2 : child_paths d (remove_trees dels fs1) = skipn r (child_paths d (fs s))).
    { rewrite <- Hfirst, <- Hcp1. apply child_paths_remove_first. rewrite Hcp1. exact Hcnd. }
    assert (Hchild : is_child d out = true) by (apply checkpoint_is_child; exact Hd).
    assert (Hnew : ~ In out (remove_trees dels fs1)).
    { intros Hin. apply remove_trees_subset in Hin.
      assert (Hin' : In out (child_paths d fs1)) by (apply filter_In; split; assumption).
      rewrite Hcp1, Hcp in Hin'. apply in_map_iff in Hin' as (k & Ek & Hk).
      apply batch_indices_In in Hk.
      assert (k = m); [| lia].
      apply (checkpoint_path_inj d k m Hd); [lia | lia |]. exact Ek. }
    split; [lia |].
    split. { apply makedirs_NoDup, remove_trees_NoDup. exact Hnd1. }
    split.
    + rewrite (child_paths_makedirs_new d out _ Hchild Hnew), Hcp2, Hcp.
      rewrite skipn_map, skipn_batch_indices, Hout.
      replace (Nat.min r n) with r by lia.
      replace (Z.to_nat (m + 1 - (a + Z.of_nat r))) with ((n - r) + 1)%nat by (unfold n; lia).
      rewrite batch_indices_app, map_app. cbn [batch_indices map].
      replace (a + Z.of_nat r + Z.of_nat (n - r)) with m by (unfold n; lia). reflexivity.
    + rewrite Hrem, <- app_assoc. f_equal. unfold dels.
      replace (Z.to_nat (a + Z.of_nat r)) with (Z.to_nat a + r)%nat by lia.
      rewrite batch_indices_app, map_app.
      replace (0 + Z.of_nat (Z.to_nat a)) with a by lia. reflexivity.
Qed.

End Retention.

Section TrainTheorems.
Context {F : Type} {SF : Scalar F} {C : Collaborators F}.
Local Open Scope monad_scope.
Local Open Scope Z_scope.

(** Without a limit the checkpoint of an epoch is made whatever the
    filesystem holds. *)
Lemma checkpoint_step_unlimited (pd : string) (lim : option Z) (e : Z) (s : Trainer F) :
  is_local_main_process s = true ->
  project_dir (project_configuration s) = pd ->
  total_limit (project_configuration s) = lim ->
  lim = None ->
  exists dels : list string,
    get_checkpoint_dir e s
    = Done (os_path_join (os_path_join pd "checkpoints")
                         ("checkpoint_" ++ str_of_int (e - 1)))
        (with_fs (fs_makedirs (os_path_join (os_path_join pd "checkpoints")
                                            ("checkpoint_" ++ str_of_int (e - 1)))
                    (remove_trees dels
                       (fs_makedirs (os_path_join pd "checkpoints") (fs s))))
           (with_trace
              (trace s
               ++ [EvSetAutomaticCheckpointNaming false;
                   EvMakedirs (os_path_join pd "checkpoints");
                   EvListdir (os_path_join pd "checkpoints")]
               ++ map EvRmtree dels
               ++ [EvMakedirs (os_path_join (os_path_join pd "checkpoints")
                                            ("checkpoint_" ++ str_of_int (e - 1)))])
              (with_project_configuration
                 (set_automatic_checkpoint_naming false (project_configuration s)) s)))
    /\ lim = None.
Proof.
  intros Hmain Hpd Hlim Hnone. subst pd. exists []. split; [| exact Hnone].
  apply get_checkpoint_dir_run; [exact Hmain | | constructor | intros f []].
  rewrite Hlim, Hnone. reflexivity.
Qed.

Lemma train_of_epochs (s s1 : Trainer F) :
  for_each train_epoch (batch_indices 1 (Z.to_nat (epochs s))) s = Done tt s1 ->
  train s = Done tt (with_trace (trace s1 ++ [EvEndTraining]) s1).
Proof.
  intros H. unfold train. rewrite bind_get, range_from_1_indices, (bind_done _ _ _ _ _ H).
  reflexivity.
Qed.

(** X10. A run of [train] that returns.  The calls on the model, the
    optimizer, the scheduler, the accelerator and the tokenizer are taken to
    return, the accelerator has a project directory, the filesystem holds
    directories only, and the two trackers are ones a program has built.
    Then, when the data source is empty, or a scheduler is given and the log
    interval is not zero, and when checkpoints are not made by this process
    or are made without a limit, [train] returns after [E = max 0 epochs]
    epochs of the [B] batches: the optimizer and the scheduler stepped
    [E * B] times, [current_step] advanced by [E * B] and the epoch of the
    progress bar by [E]; the number of step-level records logged in the run
    is [E] times the number of batch indices below [B] that the interval
    divides; [wait_for_everyone] was called [E] times when checkpoints are
    saved, in every process, and never otherwise; and [end_training] was
    called once, last. *)
Theorem train_returns (s : Trainer F) :
  let bs := train_dataloader s in
  let n := Z.to_nat (epochs s) in
  bs = [] \/ (lr_scheduler s <> None /\ log_interval s <> 0) ->
  reachable (train_loss_tracker s) ->
  reachable (validation_loss_tracker s) ->
  save_on_epoch_end s && is_local_main_process s = false
  \/ total_limit (project_configuration s) = None ->
  exists (s' : Trainer F) (evs : list (Event F)),
    train s = Done tt s'
    /\ trace s' = (trace s ++ evs ++ [EvEndTraining])%list
    /\ filter is_end_training evs = []
    /\ model s' = Nat.iter n (fun m => trained m bs) (model s)
    /\ lr_scheduler s'
       = option_map (Nat.iter (n * List.length bs) scheduler_step) (lr_scheduler s)
    /\ current_step s' = current_step s + Z.of_nat n * Z.of_nat (List.length bs)
    /\ progress_epoch s' = progress_epoch s + Z.of_nat n
    /\ same_setup s s'
    /\ List.length (filter is_step_log evs)
       = (n * List.length (logged_indices (log_interval s) (List.length bs)))%nat
    /\ List.length (filter is_wait evs) = (if save_on_epoch_end s then n else 0%nat).
Proof.
  intros bs n Hok Hrc Hrv Hck.
  pose proof (proj1 (reachable_count _ Hrc)) as Hc.
  pose proof (proj1 (reachable_count _ Hrv)) as Hv.
  destruct (train_epochs_full (project_dir (project_configuration s))
              (total_limit (project_configuration s))
              (fun _ _ _ => total_limit (project_configuration s) = None)
              (checkpoint_step_unlimited _ _) n 1 s Hok Hc Hv eq_refl eq_refl)
    as (s1 & evs & Hrun & Htr & Hm & Hsch & Hcs & Hpe & Hset & _ & _ & _ & _ & _ & _
        & _ & _ & _ & _ & _ & Hsteps & _ & Hw & Hend & _).
  { intros Hs. destruct Hck as [Hck | Hck]; [congruence | exact Hck]. }
  exists (with_trace (trace s1 ++ [EvEndTraining]) s1), evs.
  split; [apply train_of_epochs; exact Hrun |]. state_fields.
  split. { rewrite Htr, <- app_assoc. reflexivity. }
  split; [exact Hend |]. split; [exact Hm |]. split; [exact Hsch |].
  split; [exact Hcs |]. split; [exact Hpe |].
  split. { unfold same_setup in *. state_fields. exact Hset. }
  split; [exact Hsteps | exact Hw].
Qed.

(** X11. The records that [train] logs at the ends of the epochs are the
    histories of the trackers.  Under the conditions of [train_returns]
    (collaborators that return, a project directory, trackers a program has
    built; no batches, or a scheduler and a log interval other than zero; no
    checkpoint made by this process, or no limit), [train] returns, and the
    values logged under [train/loss], at the steps [1], ..., [E], are the
    values the training tracker read at the ends of the epochs, and they are
    what the run appends to its history; when there are validation batches
    the same holds of [validation/loss], of what [evaluate] returned and of
    the validation tracker; when there are none, nothing is logged under
    that key and the validation tracker is left as it was. *)
Theorem train_logs_mirror_history (s : Trainer F) :
  let bs := train_dataloader s in
  let vs := validation_batches (validation_dataloader s) in
  let n := Z.to_nat (epochs s) in
  bs = [] \/ (lr_scheduler s <> None /\ log_interval s <> 0) ->
  reachable (train_loss_tracker s) ->
  reachable (validation_loss_tracker s) ->
  save_on_epoch_end s && is_local_main_process s = false
  \/ total_limit (project_configuration s) = None ->
  exists (s' : Trainer F) (evs : list (Event F)),
    train s = Done tt s'
    /\ trace s' = (trace s ++ evs)%list
    /\ flat_map log_value (filter is_train_loss_log evs)
       = epoch_losses n (train_loss_tracker s) (model s) bs
    /\ map log_step (filter is_train_loss_log evs) = range_from_1 (epochs s)
    /\ history (train_loss_tracker s')
       = (history (train_loss_tracker s)
          ++ flat_map log_value (filter is_train_loss_log evs))%list
    /\ (if validates (validation_dataloader s)
        then flat_map log_value (filter is_validation_loss_log evs)
             = validation_losses n (validation_loss_tracker s) (model s) bs vs
             /\ map log_step (filter is_validation_loss_log evs) = range_from_1 (epochs s)
             /\ history (validation_loss_tracker s')
                = (history (validation_loss_tracker s)
                   ++ flat_map log_value (filter is_validation_loss_log evs))%list
        else filter is_validation_loss_log evs = []
             /\ validation_loss_tracker s' = validation_loss_tracker s).
Proof.
  intros bs vs n Hok Hrc Hrv Hck.
  pose proof (proj1 (reachable_count _ Hrc)) as Hc.
  pose proof (proj1 (reachable_count _ Hrv)) as Hv.
  destruct (train_epochs_full (project_dir (project_configuration s))
              (total_limit (project_configuration s))
              (fun _ _ _ => total_limit (project_configuration s) = None)
              (checkpoint_step_unlimited _ _) n 1 s Hok Hc Hv eq_refl eq_refl)
    as (s1 & evs & Hrun & Htr & _ & _ & _ & _ & _ & _ & _ & _ & _ & _ & _
        & Hhist & _ & Hvals & Hstepsl & Hval & _).
  { intros Hs. destruct Hck as [Hck | Hck]; [congruence | exact Hck]. }
  fold bs in Hhist, Hvals, Hval. fold vs in Hval.
  exists (with_trace (trace s1 ++ [EvEndTraining]) s1), (evs ++ [EvEndTraining])%list.
  split; [apply train_of_epochs; exact Hrun |]. state_fields.
  split. { rewrite Htr, <- app_assoc. reflexivity. }
  rewrite !filter_app.
  cbn [filter is_train_loss_log is_validation_loss_log]. rewrite !app_nil_r.
  rewrite range_from_1_indices.
  split; [exact Hvals |]. split; [exact Hstepsl |].
  split. { rewrite Hhist, Hvals. reflexivity. }
  destruct (validates (validation_dataloader s)).
  - destruct Hval as (A1 & _ & A3 & A4). rewrite A1, A3. repeat split; assumption.
  - destruct Hval as (A1 & A2). split; assumption.
Qed.

Lemma epoch_losses_idle (n : nat) : forall (t : LossTracker F) (m : Model),
  is_fresh t -> epoch_losses n t m [] = repeat s_zero n.
Proof.
  induction n as [| n IH]; intros t m [Hz Hn]; [reflexivity |].
  cbn [epoch_losses batch_losses updates repeat]. f_equal.
  - unfold loss. rewrite Hz. apply s_round_zero.
  - apply IH. split; reflexivity.
Qed.

Lemma iter_trained_idle (n : nat) (m : Model) : Nat.iter n (fun m => trained m []) m = m.
Proof. induction n as [| n IH]; [reflexivity |]. cbn [Nat.iter nat_rect] in *. exact IH. Qed.


(** X13. Outside the coordinating process.  There [train] never calls
    [get_checkpoint_dir]: in a run that returns the filesystem and the
    project configuration are left as they were, nothing is removed or
    saved, and the process still calls [wait_for_everyone] once per epoch
    when checkpoints are saved. *)
Theorem train_elsewhere (s : Trainer F) :
  let bs := train_dataloader s in
  let n := Z.to_nat (epochs s) in
  is_local_main_process s = false ->
  bs = [] \/ (lr_scheduler s <> None /\ log_interval s <> 0) ->
  0 <= loss_count (train_loss_tracker s) ->
  0 <= loss_count (validation_loss_tracker s) ->
  exists (s' : Trainer F) (evs : list (Event F)),
    train s = Done tt s'
    /\ trace s' = (trace s ++ evs)%list
    /\ fs s' = fs s
    /\ project_configuration s' = project_configuration s
    /\ removed evs = []
    /\ filter is_save evs = []
    /\ List.length (filter is_wait evs) = (if save_on_epoch_end s then n else 0%nat).
Proof.
  intros bs n Hmain Hok Hc Hv.
  assert (Hs : save_on_epoch_end s && is_local_main_process s = false).
  { rewrite Hmain. apply andb_false_r. }
  destruct (train_epochs_full (project_dir (project_configuration s))
              (total_limit (project_configuration s))
              (fun _ _ _ => total_limit (project_configuration s) = None)
              (checkpoint_step_unlimited _ _) n 1 s Hok Hc Hv eq_refl eq_refl)
    as (s1 & evs & Hrun & Htr & _ & _ & _ & _ & _ & _ & _ & _ & _ & _ & _
        & _ & _ & _ & _ & _ & _ & Hsv & Hw & _ & _ & Hfs).
  { intros Hs'. congruence. }
  destruct (Hfs Hs) as (B1 & B2 & B3). rewrite Hs in Hsv.
  exists (with_trace (trace s1 ++ [EvEndTraining]) s1), (evs ++ [EvEndTraining])%list.
  split; [apply train_of_epochs; exact Hrun |]. state_fields.
  split. { rewrite Htr, <- app_assoc. reflexivity. }
  split; [exact B1 |]. split; [exact B3 |].
  rewrite removed_app, !filter_app, B2, Hsv, length_app, Hw.
  cbn [removed rmtree_path filter is_save is_wait app List.length].
  split; [reflexivity |]. split; [reflexivity |]. lia.
Qed.

(** X14. The checkpoints of a whole run.  With collaborators that return, a
    project directory, a filesystem of directories listed without repeated
    paths, and trackers a program has built: in the coordinating process,
    when the data source is empty or a scheduler is given and the log
    interval is not zero, when checkpoints are saved and the run finds the
    checkpoint root without entries, [train] returns, having saved the model
    and then the tokenizer of each epoch [e] into [checkpoint_<e-1>]; of the
    [E] folders made the root holds the last [max 1 limit] at the end (all
    of them without a limit), in order, and the older ones were removed,
    oldest first, each once. *)
Theorem train_keeps_last_checkpoints (s : Trainer F) :
  let pd := project_dir (project_configuration s) in
  let limit := total_limit (project_configuration s) in
  let root := os_path_join pd "checkpoints" in
  let bs := train_dataloader s in
  let n := Z.to_nat (epochs s) in
  let first := Z.to_nat (first_kept limit (Z.of_nat n)) in
  bs = [] \/ (lr_scheduler s <> None /\ log_interval s <> 0) ->
  reachable (train_loss_tracker s) ->
  reachable (validation_loss_tracker s) ->
  save_on_epoch_end s = true ->
  is_local_main_process s = true ->
  NoDup (fs s) ->
  children root (fs s) = [] ->
  exists (s' : Trainer F) (evs : list (Event F)),
    train s = Done tt s'
    /\ trace s' = (trace s ++ evs)%list
    /\ filter is_save evs
       = flat_map (fun e => [EvSaveModel (checkpoint_path pd (e - 1));
                             EvSaveTokenizer (checkpoint_path pd (e - 1))])
                  (range_from_1 (epochs s))
    /\ map (os_path_join root) (children root (fs s'))
       = map (fun k => checkpoint_path pd (Z.of_nat k)) (seq first (n - first))
    /\ removed evs = map (fun k => checkpoint_path pd (Z.of_nat k)) (seq 0 first)
    /\ NoDup (fs s').
Proof.
  intros pd limit root bs n first Hok Hrc Hrv Hsave Hmain Hnd Hempty.
  pose proof (proj1 (reachable_count _ Hrc)) as Hc.
  pose proof (proj1 (reachable_count _ Hrv)) as Hv.
  pose proof (checkpoints_dir_plain pd) as Hd. fold root in Hd.
  assert (Hfk0 : first_kept limit 0 = 0) by (unfold first_kept; destruct limit; lia).
  assert (Hfk : 0 <= first_kept limit (Z.of_nat n) <= Z.of_nat n).
  { unfold first_kept. destruct limit; lia. }
  destruct (train_epochs_full pd limit (numbered_root pd limit (removed (trace s)))
              (checkpoint_step_numbered pd limit (removed (trace s)))
              n 1 s Hok Hc Hv eq_refl eq_refl)
    as (s1 & evs & Hrun & Htr & _ & _ & _ & _ & _ & _ & _ & _ & _ & _ & _
        & _ & _ & _ & _ & _ & _ & Hsv & _ & _ & HQ & _).
  { intros _. unfold numbered_root. fold root.
    replace (1 - 1) with 0 by lia. rewrite Hfk0. cbn [Z.to_nat Z.sub batch_indices map].
    split; [lia |]. split; [exact Hnd |]. split; [| rewrite app_nil_r; reflexivity].
    apply length_zero_iff_nil. rewrite <- children_length, Hempty. reflexivity. }
  rewrite Hsave, Hmain in Hsv, HQ. cbn [andb] in Hsv, HQ.
  destruct (HQ eq_refl) as (_ & Hnd1 & Hcp & Hrem). fold root in Hcp.
  replace (1 + Z.of_nat n - 1) with (Z.of_nat n) in Hcp, Hrem by lia.
  exists (with_trace (trace s1 ++ [EvEndTraining]) s1), (evs ++ [EvEndTraining])%list.
  split; [apply train_of_epochs; exact Hrun |]. state_fields.
  split. { rewrite Htr, <- app_assoc. reflexivity. }
  rewrite filter_app, removed_app. cbn [filter is_save removed rmtree_path].
  rewrite !app_nil_r.
  split. { rewrite Hsv, range_from_1_indices. reflexivity. }
  split.
  { rewrite (children_child_paths root (fs s1) Hd), Hcp.
    replace (first_kept limit (Z.of_nat n)) with (Z.of_nat first) by (unfold first; lia).
    replace (Z.to_nat (Z.of_nat n - Z.of_nat first)) with (n - first)%nat by lia.
    rewrite batch_indices_seq, map_map. reflexivity. }
  split; [| exact Hnd1].
  rewrite Htr, removed_app in Hrem. apply app_inv_head in Hrem. rewrite Hrem.
  change 0 with (Z.of_nat 0). rewrite batch_indices_seq, map_map. reflexivity.
Qed.

(** X15. A log interval of zero.  When the data source yields a batch and there
    is an epoch to run, [train] raises [ZeroDivisionError] in the first
    batch, whatever the scheduler: the batch index is reduced modulo the
    interval after the optimizer step, the scheduler step, the update of the
    tracker and the count of the step, so these are done and nothing is
    logged. *)
Theorem train_zero_interval (s : Trainer F) (b : Batch) (bs : list Batch) :
  log_interval s = 0 ->
  train_dataloader s = b :: bs ->
  1 <= epochs s ->
  0 <= loss_count (train_loss_tracker s) ->
  exists s' : Trainer F,
    train s = Failed ZeroDivisionError s'
    /\ trace s' = trace s
    /\ current_step s' = current_step s + 1
    /\ model s' = optimize (model s) b
    /\ lr_scheduler s' = option_map scheduler_step (lr_scheduler s)
    /\ loss_count (train_loss_tracker s') = loss_count (train_loss_tracker s) + 1
    /\ history (train_loss_tracker s') = history (train_loss_tracker s)
    /\ fs s' = fs s.
Proof.
  intros HL Hdl He Hc.
  destruct (range_from_1_cons (epochs s) He) as [rest Hrange].
  assert (Hbatch : exists s' : Trainer F,
    train_batch 0 b (with_training true s) = Failed ZeroDivisionError s'
    /\ trace s' = trace s
    /\ current_step s' = current_step s + 1
    /\ model s' = optimize (model s) b
    /\ lr_scheduler s' = option_map scheduler_step (lr_scheduler s)
    /\ loss_count (train_loss_tracker s') = loss_count (train_loss_tracker s) + 1
    /\ history (train_loss_tracker s') = history (train_loss_tracker s)
    /\ fs s' = fs s).
  { unfold train_batch. rewrite bind_get, bind_modify. state_fields.
    destruct (lr_scheduler s) as [sch |] eqn:Hsch.
    - rewrite bind_modify. state_fields. rewrite (update_ok _ _ Hc). cbn [lift].
      rewrite bind_ret, !bind_modify, bind_get. state_fields. rewrite HL.
      cbn [Z.eqb]. unfold raise. eexists. split; [reflexivity |].
      state_fields. cbn [option_map loss_count history]. repeat split; reflexivity.
    - rewrite bind_ret. state_fields. rewrite (update_ok _ _ Hc). cbn [lift].
      rewrite bind_ret, !bind_modify, bind_get. state_fields. rewrite HL.
      cbn [Z.eqb]. unfold raise. eexists. split; [reflexivity |].
      state_fields. rewrite Hsch. cbn [option_map loss_count history].
      repeat split; reflexivity. }
  destruct Hbatch as (s' & Hrun & Hrest). exists s'. split; [| exact Hrest].
  assert (Hepoch : train_epoch 1 s = Failed ZeroDivisionError s').
  { unfold train_epoch. rewrite bind_modify, bind_get. state_fields. rewrite Hdl.
    cbn [for_each_indexed]. rewrite !bind_assoc. cbv beta.
    apply bind_failed. exact Hrun. }
  unfold train. rewrite bind_get, Hrange. cbn [for_each].
  rewrite !bind_assoc. cbv beta. apply bind_failed. exact Hepoch.
Qed.

End TrainTheorems.

(** ** The theorems above on concrete runs *)

(** [history_append_only] on a default tracker: two values, the end of an
    epoch, a value, a reset, and the end of an epoch without reset. *)
Lemma history_append_only_witness :
  exists (t' : LossTracker float) (added : list float),
    calls [CallUpdate 1.5%float; CallUpdate 2.5%float; CallOnEpochEnd true;
           CallUpdate 0.5%float; CallReset; CallOnEpochEnd false] LossTracker_default = Ok t'
    /\ history t' = added
    /\ List.length added = 2%nat
    /\ ndigits t' = 4%N
    /\ reachable t'.
Proof.
  exact (history_append_only
           [CallUpdate 1.5%float; CallUpdate 2.5%float; CallOnEpochEnd true;
            CallUpdate 0.5%float; CallReset; CallOnEpochEnd false] LossTracker_default
           (reach_init 4)).
Defined.

(** [get_checkpoint_dir_keeps_outside]: a log folder beside the checkpoint
    root survives the call that removes three checkpoints. *)
Lemma get_checkpoint_dir_keeps_outside_witness :
  In "out/logs"
     (fs (final_state (get_checkpoint_dir 5 (rotating (Some 2) ("out/logs" :: four_checkpoints))))).
Proof.
  assert (Hin : In "out/logs" (fs (rotating (Some 2) ("out/logs" :: four_checkpoints))))
    by (left; reflexivity).
  exact (get_checkpoint_dir_keeps_outside 5 (rotating (Some 2) ("out/logs" :: four_checkpoints))
           "out/logs" Hin eq_refl).
Defined.

(** [train_returns] on three epochs of three batches with validation and
    checkpoints without a limit: nine steps, two step-level records per
    epoch, three barriers. *)
Lemma train_returns_witness :
  exists (s' : Trainer float) (evs : list (Event float)),
    train (validated None true) = Done tt s'
    /\ trace s' = (evs ++ [EvEndTraining])%list
    /\ filter is_end_training evs = []
    /\ model s' = 9%Z
    /\ lr_scheduler s' = Some 9%Z
    /\ current_step s' = 9%Z
    /\ progress_epoch s' = 4%Z
    /\ same_setup (validated None true) s'
    /\ List.length (filter is_step_log evs) = 6%nat
    /\ List.length (filter is_wait evs) = 3%nat.
Proof.
  assert (Hok : train_dataloader (validated None true) = []
                \/ (lr_scheduler (validated None true) <> None
                    /\ log_interval (validated None true) <> 0%Z)).
  { right. split; [discriminate | cbn; lia]. }
  assert (Hc : reachable (train_loss_tracker (validated None true))) by exact (reach_init 4).
  assert (Hv : reachable (validation_loss_tracker (validated None true))) by exact (reach_init 4).
  exact (train_returns (validated None true) Hok Hc Hv (or_intror eq_refl)).
Defined.

(** [train_logs_mirror_history] on the same run. *)
Lemma train_logs_mirror_history_witness :
  exists (s' : Trainer float) (evs : list (Event float)),
    train (validated None true) = Done tt s'
    /\ trace s' = evs
    /\ flat_map log_value (filter is_train_loss_log evs)
       = epoch_losses 3 LossTracker_default 0%Z [1.5; 2.5; 0.5]%float
    /\ map log_step (filter is_train_loss_log evs) = [1; 2; 3]%Z
    /\ history (train_loss_tracker s') = flat_map log_value (filter is_train_loss_log evs)
    /\ flat_map log_value (filter is_validation_loss_log evs)
       = validation_losses 3 LossTracker_default 0%Z [1.5; 2.5; 0.5]%float [1; 3]%float
    /\ map log_step (filter is_validation_loss_log evs) = [1; 2; 3]%Z
    /\ history (validation_loss_tracker s')
       = flat_map log_value (filter is_validation_loss_log evs).
Proof.
  assert (Hok : train_dataloader (validated None true) = []
                \/ (lr_scheduler (validated None true) <> None
                    /\ log_interval (validated None true) <> 0%Z)).
  { right. split; [discriminate | cbn; lia]. }
  assert (Hc : reachable (train_loss_tracker (validated None true))) by exact (reach_init 4).
  assert (Hv : reachable (validation_loss_tracker (validated None true))) by exact (reach_init 4).
  exact (train_logs_mirror_history (validated None true) Hok Hc Hv (or_intror eq_refl)).
Defined.


(** [train_elsewhere] on the run of [train_returns], in another process. *)
Lemma train_elsewhere_witness :
  exists (s' : Trainer float) (evs : list (Event float)),
    train (validated (Some 1%Z) false) = Done tt s'
    /\ trace s' = evs
    /\ fs s' = []
    /\ project_configuration s' = project_in "out" (Some 1%Z)
    /\ removed evs = []
    /\ filter is_save evs = []
    /\ List.length (filter is_wait evs) = 3%nat.
Proof.
  assert (Hok : train_dataloader (validated (Some 1%Z) false) = []
                \/ (lr_scheduler (validated (Some 1%Z) false) <> None
                    /\ log_interval (validated (Some 1%Z) false) <> 0%Z)).
  { right. split; [discriminate | cbn; lia]. }
  assert (Hc : (0 <= loss_count (train_loss_tracker (validated (Some 1%Z) false)))%Z)
    by (cbn; lia).
  assert (Hv : (0 <= loss_count (validation_loss_tracker (validated (Some 1%Z) false)))%Z)
    by (cbn; lia).
  exact (train_elsewhere (validated (Some 1%Z) false) eq_refl Hok Hc Hv).
Defined.

(** [train_keeps_last_checkpoints] on three epochs under a limit of two:
    [checkpoint_0] is removed, [checkpoint_1] and [checkpoint_2] remain. *)
Lemma train_keeps_last_checkpoints_witness :
  exists (s' : Trainer float) (evs : list (Event float)),
    train (validated (Some 2%Z) true) = Done tt s'
    /\ trace s' = evs
    /\ filter is_save evs
       = [EvSaveModel "out/checkpoints/checkpoint_0";
          EvSaveTokenizer "out/checkpoints/checkpoint_0";
          EvSaveModel "out/checkpoints/checkpoint_1";
          EvSaveTokenizer "out/checkpoints/checkpoint_1";
          EvSaveModel "out/checkpoints/checkpoint_2";
          EvSaveTokenizer "out/checkpoints/checkpoint_2"]
    /\ map (os_path_join "out/checkpoints") (children "out/checkpoints" (fs s'))
       = ["out/checkpoints/checkpoint_1"; "out/checkpoints/checkpoint_2"]
    /\ removed evs = ["out/checkpoints/checkpoint_0"]
    /\ NoDup (fs s').
Proof.
  assert (Hok : train_dataloader (validated (Some 2%Z) true) = []
                \/ (lr_scheduler (validated (Some 2%Z) true) <> None
                    /\ log_interval (validated (Some 2%Z) true) <> 0%Z)).
  { right. split; [discriminate | cbn; lia]. }
  assert (Hc : reachable (train_loss_tracker (validated (Some 2%Z) true))) by exact (reach_init 4).
  assert (Hv : reachable (validation_loss_tracker (validated (Some 2%Z) true))) by exact (reach_init 4).
  assert (Hnd : NoDup (fs (validated (Some 2%Z) true))) by constructor.
  exact (train_keeps_last_checkpoints (validated (Some 2%Z) true) Hok Hc Hv eq_refl eq_refl
           Hnd eq_refl).
Defined.

(** [train_zero_interval] with a scheduler. *)
Lemma train_zero_interval_witness :
  exists s' : Trainer float,
    train zero_interval = Failed ZeroDivisionError s'
    /\ trace s' = []
    /\ current_step s' = 1%Z
    /\ model s' = 1%Z
    /\ lr_scheduler s' = Some 1%Z
    /\ loss_count (train_loss_tracker s') = 1%Z
    /\ history (train_loss_tracker s') = []
    /\ fs s' = [].
Proof.
  assert (He : (1 <= epochs zero_interval)%Z) by (cbn; lia).
  assert (Hc : (0 <= loss_count (train_loss_tracker zero_interval))%Z) by (cbn; lia).
  exact (train_zero_interval zero_interval 1.5%float [2.5]%float eq_refl eq_refl He Hc).
Defined.

(** ** The progress bar *)

Section ProgressBarFacts.
Context {F : Type} {FF : Formatted F}.
Local Open Scope Z_scope.

(** X17. Before the first [on_epoch_start].  [__init__] does not set the
    attribute [progress_bar]: until [on_epoch_start] has run, [update],
    [close] and [show_metrics] raise [AttributeError] and change nothing,
    and [on_epoch_end] raises it after it has advanced [current_epoch];
    [on_epoch_start] itself returns and sets the attribute. *)
Theorem bar_needs_epoch_start (self : DistributedTqdmProgressBar) (n : Z)
    (metrics : list (string * F)) :
  progress_bar self = None ->
  bar_update n self = BarFailed AttributeError self
  /\ bar_close self = BarFailed AttributeError self
  /\ bar_show_metrics metrics self = BarFailed AttributeError self
  /\ bar_on_epoch_end self
     = BarFailed AttributeError (with_current_epoch (current_epoch self + 1) self)
  /\ (exists self', bar_on_epoch_start self = BarDone self'
                    /\ progress_bar self' <> None
                    /\ current_epoch self' = current_epoch self)
  /\ progress_bar (DistributedTqdmProgressBar_init (is_main_process self) (bar_epochs self)
                     (num_steps_per_epoch self)) = None.
Proof.
  intros H.
  unfold bar_update, bar_close, bar_show_metrics, bar_on_epoch_end, bar_close, on_progress_bar.
  cbn [progress_bar with_current_epoch]. rewrite H.
  repeat (split; [reflexivity |]).
  split; [| reflexivity].
  unfold bar_on_epoch_start. destruct (is_main_process self); eexists;
    (split; [reflexivity |]); cbn; split; [discriminate | reflexivity | discriminate | reflexivity].
Qed.

Lemma bar_calls_run (cs : list (BarCall F)) : forall (self : DistributedTqdmProgressBar) (b : Bar),
  progress_bar self = Some b ->
  exists self' : DistributedTqdmProgressBar,
    bar_calls cs self = BarDone self'
    /\ progress_bar self' = Some b
    /\ current_epoch self' = current_epoch self
    /\ is_main_process self' = is_main_process self
    /\ bar_epochs self' = bar_epochs self
    /\ num_steps_per_epoch self' = num_steps_per_epoch self
    /\ tqdm_calls self'
       = (tqdm_calls self
          ++ match b with
             | BarTqdm => map (tqdm_call_of (current_epoch self) (bar_epochs self)) cs
             | BarDummy => []
             end)%list.
Proof.
  induction cs as [| c cs IH]; intros self b Hb.
  - exists self. cbn [bar_calls map]. destruct b; rewrite app_nil_r; repeat split; assumption.
  - cbn [bar_calls]. 
    assert (Hc : bar_call c self
                 = BarDone match b with
                           | BarTqdm =>
                               with_tqdm_call
                                 (tqdm_call_of (current_epoch self) (bar_epochs self) c) self
                           | BarDummy => self
                           end).
    { destruct c; unfold bar_call, bar_update, bar_show_metrics, on_progress_bar;
        rewrite Hb; destruct b; reflexivity. }
    rewrite Hc.
    destruct b.
    + destruct (IH (with_tqdm_call (tqdm_call_of (current_epoch self) (bar_epochs self) c) self)
                  BarTqdm Hb) as (self' & Hrun & H1 & H2 & H3 & H4 & H5 & H6).
      exists self'. split; [exact Hrun |]. cbn in H2, H3, H4, H5, H6.
      repeat (split; [assumption |]). rewrite H6. cbn [map]. rewrite <- app_assoc. reflexivity.
    + destruct (IH self BarDummy Hb) as (self' & Hrun & H1 & H2 & H3 & H4 & H5 & H6).
      exists self'. repeat (split; [assumption |]). exact H6.
Qed.

Lemma bar_epoch_run (cs : list (BarCall F)) (self : DistributedTqdmProgressBar) :
  exists self' : DistributedTqdmProgressBar,
    bar_epoch cs self = BarDone self'
    /\ progress_bar self' <> None
    /\ current_epoch self' = current_epoch self + 1
    /\ is_main_process self' = is_main_process self
    /\ bar_epochs self' = bar_epochs self
    /\ num_steps_per_epoch self' = num_steps_per_epoch self
    /\ tqdm_calls self'
       = (tqdm_calls self
          ++ if is_main_process self
             then TqdmInit (num_steps_per_epoch self)
                  :: map (tqdm_call_of (current_epoch self) (bar_epochs self)) cs
                  ++ [TqdmClose]
             else [])%list.
Proof.
  unfold bar_epoch, bar_on_epoch_start.
  destruct (is_main_process self) eqn:Hmain.
  - destruct (bar_calls_run cs
                (with_tqdm_call (TqdmInit (num_steps_per_epoch self))
                   (with_progress_bar BarTqdm self)) BarTqdm eq_refl)
      as (self2 & Hrun & H1 & H2 & H3 & H4 & H5 & H6).
    rewrite Hrun. cbn in H2, H3, H4, H5, H6.
    unfold bar_on_epoch_end, bar_close, on_progress_bar. cbn [progress_bar with_current_epoch].
    rewrite H1. eexists. split; [reflexivity |]. cbn.
    rewrite H1, H2, H3, H4, H5, H6, Hmain.
    split; [discriminate |]. repeat (split; [reflexivity |]).
    rewrite <- !app_assoc. reflexivity.
  - destruct (bar_calls_run cs (with_progress_bar BarDummy self) BarDummy eq_refl)
      as (self2 & Hrun & H1 & H2 & H3 & H4 & H5 & H6).
    rewrite Hrun. cbn in H2, H3, H4, H5, H6.
    unfold bar_on_epoch_end, bar_close, on_progress_bar. cbn [progress_bar with_current_epoch].
    rewrite H1. eexists. split; [reflexivity |]. cbn.
    rewrite H1, H2, H3, H4, H5, H6, Hmain.
    split; [discriminate |]. repeat (split; [reflexivity |]).
    rewrite !app_nil_r. reflexivity.
Qed.

Lemma bar_epochs_run_from (bodies : list (list (BarCall F))) :
  forall self : DistributedTqdmProgressBar,
  exists self' : DistributedTqdmProgressBar,
    bar_epochs_run bodies self = BarDone self'
    /\ current_epoch self' = current_epoch self + Z.of_nat (List.length bodies)
    /\ is_main_process self' = is_main_process self
    /\ bar_epochs self' = bar_epochs self
    /\ num_steps_per_epoch self' = num_steps_per_epoch self
    /\ tqdm_calls self'
       = (tqdm_calls self
          ++ if is_main_process self
             then tqdm_calls_from (current_epoch self) (bar_epochs self)
                                  (num_steps_per_epoch self) bodies
             else [])%list.
Proof.
  induction bodies as [| cs bodies IH]; intros self.
  - exists self. cbn [bar_epochs_run List.length Z.of_nat tqdm_calls_from].
    split; [reflexivity |]. split; [lia |]. repeat (split; [reflexivity |]).
    destruct (is_main_process self); rewrite app_nil_r; reflexivity.
  - destruct (bar_epoch_run cs self) as (self1 & Hrun1 & _ & H2 & H3 & H4 & H5 & H6).
    destruct (IH self1) as (self' & Hrun & G2 & G3 & G4 & G5 & G6).
    exists self'. cbn [bar_epochs_run]. rewrite Hrun1.
    split; [exact Hrun |]. split; [cbn [List.length]; lia |].
    split; [congruence |]. split; [congruence |]. split; [congruence |].
    rewrite G6, H6, H3, H2, H4, H5. cbn [tqdm_calls_from].
    destruct (is_main_process self); [| rewrite !app_nil_r; reflexivity].
    rewrite <- app_assoc. f_equal. cbn [app]. f_equal. rewrite <- app_assoc. reflexivity.
Qed.

(** X18. The bar over a run.  Driven as [train] drives it, through any number
    of epochs that each call [on_epoch_start], then [update] and
    [show_metrics] any number of times, then [on_epoch_end], a new bar never
    raises and counts the epochs: [current_epoch] ends at [1] plus their
    number.  In the main process each epoch opens a [tqdm] bar with the
    number of steps as total, passes every call on to it and closes it
    before the next one is opened, and every description names the epoch
    that is running; in another process no [tqdm] bar is ever touched. *)
Theorem bar_counts_epochs (main : bool) (epochs : Z) (num_steps : option Z)
    (bodies : list (list (BarCall F))) :
  exists self' : DistributedTqdmProgressBar,
    bar_epochs_run bodies (DistributedTqdmProgressBar_init main epochs num_steps) = BarDone self'
    /\ current_epoch self' = 1 + Z.of_nat (List.length bodies)
    /\ tqdm_calls self'
       = (if main then tqdm_calls_from 1 epochs num_steps bodies else []).
Proof.
  destruct (bar_epochs_run_from bodies (DistributedTqdmProgressBar_init main epochs num_steps))
    as (self' & Hrun & H2 & _ & _ & _ & H6).
  exists self'. split; [exact Hrun |]. split; [exact H2 |]. exact H6.
Qed.

End ProgressBarFacts.

(** [bar_needs_epoch_start] on a new bar. *)
Lemma bar_needs_epoch_start_witness :
  bar_update 1 (DistributedTqdmProgressBar_init true 3 (Some 3%Z))
  = BarFailed AttributeError (DistributedTqdmProgressBar_init true 3 (Some 3%Z))
  /\ bar_on_epoch_end (DistributedTqdmProgressBar_init true 3 (Some 3%Z))
     = BarFailed AttributeError
         (with_current_epoch 2 (DistributedTqdmProgressBar_init true 3 (Some 3%Z))).
Proof.
  destruct (bar_needs_epoch_start (F := float)
              (DistributedTqdmProgressBar_init true 3 (Some 3%Z)) 1%Z [] eq_refl)
    as (H1 & _ & _ & H4 & _).
  split; [exact H1 | exact H4].
Defined.

(** ** train: a folder without a key *)

Section TrainFailures.
Context {F : Type} {SF : Scalar F} {C : Collaborators F}.
Local Open Scope monad_scope.
Local Open Scope Z_scope.

Lemma train_first_epoch_fails (s s' : Trainer F) (e : exn) :
  1 <= epochs s -> train_epoch 1 s = Failed e s' -> train s = Failed e s'.
Proof.
  intros He H. destruct (range_from_1_cons (epochs s) He) as [rest Hrange].
  unfold train. rewrite bind_get, Hrange. cbn [for_each]. rewrite !bind_assoc. cbv beta.
  apply bind_failed. exact H.
Qed.

Lemma checkpoint_fails (e : Z) (s2 s3 : Trainer F) (ex : exn) :
  get_checkpoint_dir e s2 = Failed ex s3 ->
  when true
    (when true
       (save_dir <- get_checkpoint_dir e ;;
        emit (EvPrintDir save_dir) ;;
        emit (EvSaveModel save_dir) ;;
        emit (EvSaveTokenizer save_dir)) ;;
     emit EvWaitForEveryone) s2
  = Failed ex s3.
Proof.
  intros H. cbn [when]. rewrite !bind_assoc. apply bind_failed. exact H.
Qed.

(** What is left when the checkpoint of the first epoch raises in the state
    [s2] that the epoch reached. *)
Lemma first_checkpoint_fails (s s2 : Trainer F) (head : list (Event F)) (v : F) :
  let root := os_path_join (project_dir (project_configuration s)) "checkpoints" in
  let s3 :=
    with_fs (fs_makedirs root (fs s))
      (with_trace
         (trace s2 ++ [EvSetAutomaticCheckpointNaming false; EvMakedirs root; EvListdir root])
         (with_project_configuration
            (set_automatic_checkpoint_naming false (project_configuration s)) s2)) in
  1 <= epochs s ->
  train_epoch 1 s
  = when true
      (when true
         (save_dir <- get_checkpoint_dir 1 ;;
          emit (EvPrintDir save_dir) ;;
          emit (EvSaveModel save_dir) ;;
          emit (EvSaveTokenizer save_dir)) ;;
       emit EvWaitForEveryone) s2 ->
  get_checkpoint_dir 1 s2 = Failed IndexError s3 ->
  trace s2 = (trace s ++ head)%list ->
  filter is_train_loss_log head = [EvLog [("train/loss", v)] 1] ->
  removed head = [] ->
  filter is_save head = [] ->
  filter is_wait head = [] ->
  train s = Failed IndexError s3
  /\ trace s3
     = (trace s ++ head ++ [EvSetAutomaticCheckpointNaming false; EvMakedirs root;
                            EvListdir root])%list
  /\ filter is_train_loss_log
       (head ++ [EvSetAutomaticCheckpointNaming false; EvMakedirs root; EvListdir root])
     = [EvLog [("train/loss", v)] 1]
  /\ current_step s3 = current_step s2
  /\ model s3 = model s2
  /\ removed (head ++ [EvSetAutomaticCheckpointNaming false; EvMakedirs root; EvListdir root])
     = []
  /\ filter is_save
       (head ++ [EvSetAutomaticCheckpointNaming false; EvMakedirs root; EvListdir root]) = []
  /\ filter is_wait
       (head ++ [EvSetAutomaticCheckpointNaming false; EvMakedirs root; EvListdir root]) = []
  /\ fs s3 = fs_makedirs root (fs s).
Proof.
  intros root s3 He Hrun Hck Htr H1 H2 H3 H4.
  split.
  { apply (train_first_epoch_fails s _ IndexError He).
    rewrite Hrun. apply checkpoint_fails. exact Hck. }
  unfold s3. state_fields.
  rewrite !filter_app, removed_app, H1, H2, H3, H4, Htr, <- app_assoc.
  repeat split; reflexivity.
Qed.

(** X19. A folder without a digit in the checkpoint root.  With
    collaborators that return, a project directory, a filesystem listed
    without repeated paths and trackers a program has built: in the
    coordinating process, when there is an epoch to run, the data source is
    empty or a scheduler is given and the log interval is not zero,
    checkpoints are saved under a limit that the entries of the checkpoint
    root and the new folder exceed, and an entry has no digit in its name,
    [train] raises [IndexError] at the end of the first epoch: the batches
    of the epoch were run and its [train/loss] logged, but nothing is
    removed or saved, and [wait_for_everyone] is not reached. *)
Theorem train_raises_on_unkeyed_folder (s : Trainer F) :
  let root := os_path_join (project_dir (project_configuration s)) "checkpoints" in
  let bs := train_dataloader s in
  bs = [] \/ (lr_scheduler s <> None /\ log_interval s <> 0) ->
  reachable (train_loss_tracker s) ->
  reachable (validation_loss_tracker s) ->
  1 <= epochs s ->
  save_on_epoch_end s = true ->
  is_local_main_process s = true ->
  NoDup (fs s) ->
  over_limit (total_limit (project_configuration s)) (List.length (children root (fs s)))
  && existsb unkeyed (children root (fs s)) = true ->
  exists (s' : Trainer F) (evs : list (Event F)) (v : F),
    train s = Failed IndexError s'
    /\ trace s' = (trace s ++ evs)%list
    /\ filter is_train_loss_log evs = [EvLog [("train/loss", v)] 1]
    /\ current_step s' = current_step s + Z.of_nat (List.length bs)
    /\ model s' = trained (model s) bs
    /\ removed evs = []
    /\ filter is_save evs = []
    /\ filter is_wait evs = []
    /\ fs s' = fs_makedirs root (fs s).
Proof.
  intros root bs Hok Hrc Hrv He Hsave Hmain Hnd Hbad.
  pose proof (proj1 (reachable_count _ Hrc)) as Hc.
  pose proof (proj1 (reachable_count _ Hrv)) as Hv.
  destruct (train_epoch_head 1 s Hok Hc Hv) as (t' & u' & steps & _ & _ & Hall & _ & Hrun).
  fold bs in Hrun. rewrite Hsave, Hmain in Hrun.
  destruct (step_logs_only steps Hall) as (_ & S2 & _ & S4 & S5 & _ & S7).
  set (head := (steps ++ [EvLog [("train/loss", loss t')] 1]
                ++ if validates (validation_dataloader s)
                   then [EvPrintValidation 1 (loss u'); EvLog [("validation/loss", loss u')] 1]
                   else [])%list) in *.
  assert (Hhead : filter is_train_loss_log head = [EvLog [("train/loss", loss t')] 1]
                  /\ removed head = []
                  /\ filter is_save head = []
                  /\ filter is_wait head = []).
  { unfold head. rewrite !filter_app, !removed_app, S2, S4, S5, S7.
    destruct (validates (validation_dataloader s)); repeat split; reflexivity. }
  destruct Hhead as (H1 & H2 & H3 & H4).
  set (s2 := with_trace (trace s ++ head) _) in Hrun.
  assert (Hck : get_checkpoint_dir 1 s2
                = Failed IndexError
                    (with_fs (fs_makedirs root (fs s))
                       (with_trace
                          (trace s2 ++ [EvSetAutomaticCheckpointNaming false; EvMakedirs root;
                                        EvListdir root])
                          (with_project_configuration
                             (set_automatic_checkpoint_naming false (project_configuration s))
                             s2)))).
  { pose proof (get_checkpoint_dir_cases 1 s2) as H. cbv zeta in H.
    change (project_configuration s2) with (project_configuration s) in H.
    change (fs s2) with (fs s) in H.
    change (is_local_main_process s2) with (is_local_main_process s) in H.
    fold root in H. rewrite Hbad in H. exact (H Hmain Hnd). }
  destruct (first_checkpoint_fails s s2 head (loss t') He Hrun Hck eq_refl H1 H2 H3 H4)
    as (G1 & G2 & G3 & G4 & G5 & G6 & G7 & G8 & G9).
  eexists. eexists. exists (loss t').
  split; [exact G1 |]. split; [exact G2 |]. split; [exact G3 |].
  split; [exact G4 |]. split; [exact G5 |]. split; [exact G6 |].
  split; [exact G7 |]. split; [exact G8 | exact G9].
Qed.

End TrainFailures.

(** [train_raises_on_unkeyed_folder] on a root that holds [best] and
    [checkpoint_0], under a limit of one. *)
Lemma train_raises_on_unkeyed_folder_witness :
  exists (s' : Trainer float) (evs : list (Event float)) (v : float),
    train with_stray_folder = Failed IndexError s'
    /\ trace s' = evs
    /\ filter is_train_loss_log evs = [EvLog [("train/loss", v)] 1%Z]
    /\ current_step s' = 3%Z
    /\ model s' = 3%Z
    /\ removed evs = []
    /\ filter is_save evs = []
    /\ filter is_wait evs = []
    /\ fs s' = with_best.
Proof.
  assert (Hok : train_dataloader with_stray_folder = []
                \/ (lr_scheduler with_stray_folder <> None
                    /\ log_interval with_stray_folder <> 0%Z)).
  { right. split; [discriminate | cbn; lia]. }
  assert (Hc : reachable (train_loss_tracker with_stray_folder)) by exact (reach_init 4).
  assert (Hv : reachable (validation_loss_tracker with_stray_folder)) by exact (reach_init 4).
  assert (He : (1 <= epochs with_stray_folder)%Z) by (cbn; lia).
  assert (Hnd : NoDup (fs with_stray_folder)) by (cbn; nodup_strings).
  exact (train_raises_on_unkeyed_folder with_stray_folder Hok Hc Hv He eq_refl eq_refl Hnd
           eq_refl).
Defined.
